(** * The chart annotation engine of btcusd-tradingview-chart

    A shallow embedding of the drawing subsystem: the drawing tools
    (BaseTool, TrendLineTool, FibRetracementTool, HorizontalLineTool), the
    TrendLinePrimitive label, the EventBus, the DrawingManager with its
    navigation lock, and the Toolbar's tool selection; and of the data
    pipeline that feeds the chart (DataProcessor, Utils).

    JavaScript numbers are IEEE 754 binary64 values, so they are embedded as
    Rocq's primitive floats and every arithmetic step below rounds the way
    the program's does. *)

From Stdlib Require Import PrimFloat Floats Bool List String Ascii Arith ZArith Lia
  Sorting.Sorted.
From stdpp Require Import gmap strings.
Import ListNotations.

#[local] Set Warnings "-inexact-float".

Local Open Scope string_scope.
Local Open Scope list_scope.

(** ** JavaScript values and built-ins used by the program *)
Module Js.

(** A property that holds a number when it holds anything: a missing
    property reads as [Undefined]; the host chart reports an unresolved
    coordinate as [Null]. *)
Inductive value : Type :=
| Undefined
| Null
| Num (f : float).

(** ToNumber, as applied by the arithmetic operators. *)
Definition toNumber (v : value) : float :=
  match v with
  | Undefined => nan
  | Null => 0%float
  | Num f => f
  end.

(** ToBoolean on a number: 0, -0 and NaN are falsy. *)
Definition truthyNum (f : float) : bool :=
  negb (f =? 0)%float && negb (is_nan f).

(** ToBoolean, as applied by [!x], [x || y] and [if (x)]. *)
Definition truthy (v : value) : bool :=
  match v with
  | Undefined | Null => false
  | Num f => truthyNum f
  end.

(** [v !== null] *)
Definition notNull (v : value) : bool :=
  match v with
  | Null => false
  | _ => true
  end.

(** [a ?? b] *)
Definition nullish (a b : value) : value :=
  match a with
  | Undefined | Null => b
  | Num _ => a
  end.

(** [a || b] on numbers. *)
Definition orNum (a b : float) : float :=
  if truthyNum a then a else b.

(** A property of an object that is itself an object. *)
Definition present {A : Type} (o : option A) : bool :=
  match o with
  | Some _ => true
  | None => false
  end.

Definition two52 : float := 4503599627370496%float.

(** Math.floor on binary64: below 2^52 in magnitude, adding and removing
    2^52 rounds to an integer, which is then corrected downwards. *)
Definition Math_floor (x : float) : float :=
  if is_nan x || is_infinity x || (x =? 0)%float then x
  else if (two52 <=? abs x)%float then x
  else if (0 <? x)%float
       then let r := ((x + two52) - two52)%float in
            if (x <? r)%float then (r - 1)%float else r
       else let r := ((x - two52) + two52)%float in
            if (x <? r)%float then (r - 1)%float else r.

(** Math.round: the nearest integer, ties towards +infinity; a result of
    zero keeps the sign of a negative argument. *)
Definition Math_round (x : float) : float :=
  if is_nan x || is_infinity x || (x =? 0)%float then x
  else if (two52 <=? abs x)%float then x
  else let fl := Math_floor x in
       let r := if (0.5 <=? x - fl)%float then (fl + 1)%float else fl in
       if (r =? 0)%float && (x <? 0)%float then neg_zero else r.

(** Math.pow(x, 2) *)
Definition square (x : float) : float := (x * x)%float.

(** The number whose rendering [x.toFixed(digits)] produces; the decimal
    rendering itself is the host's. *)
Record fixed : Type := toFixed { fixed_of : float; fixed_digits : nat }.

Example Math_round_half_up : Math_round 2.5%float = 3%float /\ Math_round (-2.5)%float = (-2)%float.
Proof. split; reflexivity. Qed.

Example Math_round_snap : (Math_round (123.456 * 100) / 100)%float = 123.46%float.
Proof. reflexivity. Qed.

End Js.

(** ** Style options

    The option objects of the tools and of the manager: every key the
    program reads or writes, each one possibly missing. *)
Module Options.

(** [lineStyle] is a name in HorizontalLineTool ('solid', 'dashed',
    'dotted') and a LightweightCharts.LineStyle number in the primitive. *)
Inductive LineStyle : Type :=
| StyleName (s : string)
| StyleCode (n : nat).

Record t : Type := mk {
  lineWidth : option float;
  lineColor : option string;
  fillColor : option string;
  lineStyle : option LineStyle;
  extendLeft : option bool;
  extendRight : option bool;
  extendHorizontal : option bool;
  showPrice : option bool;
  showLabels : option bool;
  showPercentage : option bool;
  snapToPrice : option bool;
  snapToTime : option bool;
  enableUndo : option bool;
  maxDrawings : option float;
  levels : option (list float);
  levelColors : option (list (float * string))
}.

Definition empty : t :=
  mk None None None None None None None None None None None None None None None None.

(** One key of [{...a, ...b}]: [b]'s value where [b] has the key. *)
Definition over {A : Type} (a b : option A) : option A :=
  match b with
  | Some _ => b
  | None => a
  end.

(** [{...a, ...b}] *)
Definition spread (a b : t) : t :=
  mk (over (lineWidth a) (lineWidth b))
     (over (lineColor a) (lineColor b))
     (over (fillColor a) (fillColor b))
     (over (lineStyle a) (lineStyle b))
     (over (extendLeft a) (extendLeft b))
     (over (extendRight a) (extendRight b))
     (over (extendHorizontal a) (extendHorizontal b))
     (over (showPrice a) (showPrice b))
     (over (showLabels a) (showLabels b))
     (over (showPercentage a) (showPercentage b))
     (over (snapToPrice a) (snapToPrice b))
     (over (snapToTime a) (snapToTime b))
     (over (enableUndo a) (enableUndo b))
     (over (maxDrawings a) (maxDrawings b))
     (over (levels a) (levels b))
     (over (levelColors a) (levelColors b)).

(** [a]'s keys are all keys of [b]. *)
Definition covered {A : Type} (a b : option A) : Prop :=
  a <> None -> b <> None.

Definition keys_within (a b : t) : Prop :=
  covered (lineWidth a) (lineWidth b) /\ covered (lineColor a) (lineColor b) /\
  covered (fillColor a) (fillColor b) /\ covered (lineStyle a) (lineStyle b) /\
  covered (extendLeft a) (extendLeft b) /\ covered (extendRight a) (extendRight b) /\
  covered (extendHorizontal a) (extendHorizontal b) /\
  covered (showPrice a) (showPrice b) /\ covered (showLabels a) (showLabels b) /\
  covered (showPercentage a) (showPercentage b) /\
  covered (snapToPrice a) (snapToPrice b) /\ covered (snapToTime a) (snapToTime b) /\
  covered (enableUndo a) (enableUndo b) /\ covered (maxDrawings a) (maxDrawings b) /\
  covered (levels a) (levels b) /\ covered (levelColors a) (levelColors b).

(** A flag read in a condition: missing is falsy. *)
Definition flag (o : option bool) : bool :=
  match o with
  | Some b => b
  | None => false
  end.

Lemma over_covered {A : Type} (a b : option A) : covered a b -> over a b = b.
Proof.
  unfold covered, over. destruct b as [y|]; [reflexivity|].
  destruct a as [x|]; [|reflexivity].
  intros H. exfalso. apply H; congruence.
Qed.

Lemma over_idem {A : Type} (a b : option A) : over a (over a b) = over a b.
Proof. destruct a, b; reflexivity. Qed.

Lemma covered_over {A : Type} (a b : option A) : covered a (over a b).
Proof. unfold covered, over. destruct b; [congruence|]. auto. Qed.

(** Spreading defaults under an object that already has all their keys
    gives that object back. *)
Lemma spread_within (a b : t) : keys_within a b -> spread a b = b.
Proof.
  unfold keys_within, spread. intros H.
  repeat match type of H with _ /\ _ => destruct H as [? H] end.
  destruct b; simpl in *.
  repeat match goal with
         | Hc : covered _ _ |- _ => rewrite (over_covered _ _ Hc); clear Hc
         end.
  reflexivity.
Qed.

Lemma keys_within_spread (a b : t) : keys_within a (spread a b).
Proof. unfold keys_within, spread; simpl. repeat split; apply covered_over. Qed.

End Options.

(** ** Drawing data

    The objects the tools build and the manager stores.  One record holds
    every property any tool sets; a property that an object does not have
    reads as [Undefined] (or [None] for a nested object), which is also how
    JSON.stringify treats it: it is left out. *)
Module Point.

Record t : Type := mk {
  time : Js.value;
  price : Js.value;
  screenX : Js.value;
  screenY : Js.value
}.

End Point.

Module Level.

Record t : Type := mk {
  level : float;
  percentage : Js.fixed;
  price : float;
  color : option string
}.

End Level.

Module Drawing.

(** [levels] is the computed table on a live Fibonacci drawing and the
    plain ratio array in its JSON form. *)
Inductive levelsProp : Type :=
| NoLevels
| LevelTable (l : list Level.t)
| LevelRatios (l : list float).

Record t : Type := mk {
  type : option string;
  startPoint : option Point.t;
  endPoint : option Point.t;
  price : Js.value;
  levels : levelsProp;
  options : Options.t;
  timestamp : Js.value;
  lineLength : Js.value;
  angle : option (float * float);   (* the arguments (dy, dx) of Math.atan2 *)
  slope : Js.value;
  priceDifference : Js.value;
  timeDifference : Js.value;
  priceRange : Js.value
}.

(** [drawing.endPoint = p] *)
Definition set_endPoint (d : t) (p : Point.t) : t :=
  mk (type d) (startPoint d) (Some p) (price d) (levels d) (options d) (timestamp d)
     (lineLength d) (angle d) (slope d) (priceDifference d) (timeDifference d) (priceRange d).

(** [drawing.levels = l] *)
Definition set_levels (d : t) (l : list Level.t) : t :=
  mk (type d) (startPoint d) (endPoint d) (price d) (LevelTable l) (options d) (timestamp d)
     (lineLength d) (angle d) (slope d) (priceDifference d) (timeDifference d) (priceRange d).

(** [drawing.price = v] *)
Definition set_price (d : t) (v : Js.value) : t :=
  mk (type d) (startPoint d) (endPoint d) v (levels d) (options d) (timestamp d)
     (lineLength d) (angle d) (slope d) (priceDifference d) (timeDifference d) (priceRange d).

(** The assignments at the end of TrendLineTool.finalizeDrawingData. *)
Definition set_line_properties (d : t) (len : float) (ang : float * float) (slp : float)
    (pd td : float) : t :=
  mk (type d) (startPoint d) (endPoint d) (price d) (levels d) (options d) (timestamp d)
     (Js.Num len) (Some ang) (Js.Num slp) (Js.Num pd) (Js.Num td) (priceRange d).

(** The assignments at the end of FibRetracementTool.finalizeDrawingData. *)
Definition set_range_properties (d : t) (range pd td : float) : t :=
  mk (type d) (startPoint d) (endPoint d) (price d) (levels d) (options d) (timestamp d)
     (lineLength d) (angle d) (slope d) (Js.Num pd) (Js.Num td) (Js.Num range).

(** The time/price pair of an anchor: its domain coordinates. *)
Definition domain (p : option Point.t) : option (Js.value * Js.value) :=
  match p with
  | Some q => Some (Point.time q, Point.price q)
  | None => None
  end.

(** Whether a screen coordinate is a property of the anchor. *)
Definition has_screen (p : option Point.t) : bool :=
  match p with
  | Some q =>
      match Point.screenX q, Point.screenY q with
      | Js.Undefined, Js.Undefined => false
      | _, _ => true
      end
  | None => false
  end.

End Drawing.

(** A function that mutates the object it is given either returns or
    throws; either way the object keeps what was assigned before. *)
Inductive completion (A : Type) : Type :=
| Normal (a : A)
| Abrupt (a : A).
Arguments Normal {A} a.
Arguments Abrupt {A} a.

Definition completed {A : Type} (c : completion A) : A :=
  match c with
  | Normal a | Abrupt a => a
  end.

Definition threw {A : Type} (c : completion A) : bool :=
  match c with
  | Normal _ => false
  | Abrupt _ => true
  end.

(** ** BaseTool *)
Module BaseTool.

Inductive Class : Type := TrendLineTool | HorizontalLineTool | FibRetracementTool.

Record t : Type := mk {
  class : Class;
  name : string;
  options : Options.t;
  isActive : bool;
  cursor : string
}.

(** The defaults of the BaseTool constructor. *)
Definition defaults : Options.t :=
  Options.mk (Some 2%float) (Some "#FF6B6B") (Some "rgba(255, 107, 107, 0.1)")
    None None None None None None None None None None None None None.

(** [super(name, options)] *)
Definition new (c : Class) (name : string) (options : Options.t) : t :=
  mk c name (Options.spread defaults options) false "crosshair".

Definition getName (this : t) : string := name this.
Definition getCursor (this : t) : string := cursor this.

Definition activate (this : t) : t :=
  mk (class this) (name this) (options this) true (cursor this).

Definition deactivate (this : t) : t :=
  mk (class this) (name this) (options this) false (cursor this).

(** [Math.round(coords.price * 100) / 100] under the snapping guard shared
    by the tools. *)
Definition snap (snapToPrice : option bool) (coords : Point.t) : Point.t :=
  if Options.flag snapToPrice && Js.notNull (Point.price coords)
  then Point.mk (Point.time coords)
         (Js.Num (Js.Math_round (Js.toNumber (Point.price coords) * 100) / 100)%float)
         (Point.screenX coords) (Point.screenY coords)
  else coords.

End BaseTool.

(** ** TrendLineTool *)
Module TrendLineTool.

Definition defaults : Options.t :=
  Options.mk (Some 2%float) (Some "#FF6B6B") None None (Some false) (Some false)
    None None None None (Some true) None None None None None.

Definition new (options : Options.t) : BaseTool.t :=
  BaseTool.new BaseTool.TrendLineTool "TrendLine" (Options.spread defaults options).

Definition createDrawing (this : BaseTool.t) (coords : Point.t) (options : Options.t)
    (now : float) : Drawing.t :=
  let anchor := Point.mk (Point.time coords) (Point.price coords)
                  (Point.screenX coords) (Point.screenY coords) in
  Drawing.mk (Some "TrendLine") (Some anchor) (Some anchor) Js.Undefined Drawing.NoLevels
    (Options.spread (BaseTool.options this) options) (Js.Num now)
    Js.Undefined None Js.Undefined Js.Undefined Js.Undefined Js.Undefined.

Definition updateDrawingData (drawing : Drawing.t) (coords : Point.t) : Drawing.t :=
  match Drawing.endPoint drawing with
  | None => drawing
  | Some _ =>
      let finalCoords := BaseTool.snap (Options.snapToPrice (Drawing.options drawing)) coords in
      Drawing.set_endPoint drawing
        (Point.mk (Point.time finalCoords) (Point.price finalCoords)
           (Point.screenX finalCoords) (Point.screenY finalCoords))
  end.

Definition finalizeDrawingData (drawing : Drawing.t) (coords : Point.t)
    : completion Drawing.t :=
  let drawing := updateDrawingData drawing coords in
  match Drawing.endPoint drawing, Drawing.startPoint drawing with
  | Some e, Some s =>
      let dx := (Js.toNumber (Point.screenX e) - Js.toNumber (Point.screenX s))%float in
      let dy := (Js.toNumber (Point.screenY e) - Js.toNumber (Point.screenY s))%float in
      Normal
        (Drawing.set_line_properties drawing
           (sqrt (dx * dx + dy * dy))%float
           (dy, dx)
           (Js.orNum (dy / dx) 0)%float
           (Js.toNumber (Point.price e) - Js.toNumber (Point.price s))%float
           (Js.toNumber (Point.time e) - Js.toNumber (Point.time s))%float)
  | _, _ => Abrupt drawing
  end.

Definition pointToLineDistance (px py x1 y1 x2 y2 : float) : float :=
  let A := (px - x1)%float in
  let B := (py - y1)%float in
  let C := (x2 - x1)%float in
  let D := (y2 - y1)%float in
  let dot := (A * C + B * D)%float in
  let lenSq := (C * C + D * D)%float in
  let param := if negb (lenSq =? 0)%float then (dot / lenSq)%float else (-1)%float in
  let '(xx, yy) :=
    if (param <? 0)%float then (x1, y1)
    else if (1 <? param)%float then (x2, y2)
    else ((x1 + param * C)%float, (y1 + param * D)%float) in
  let dx := (px - xx)%float in
  let dy := (py - yy)%float in
  sqrt (dx * dx + dy * dy)%float.

(** The query point [{x, y}] of a hit test. *)
Record point : Type := mkPoint { x : float; y : float }.

Definition isPointInside (drawing : Drawing.t) (point : point) (tolerance : float) : bool :=
  match Drawing.startPoint drawing, Drawing.endPoint drawing with
  | Some s, Some e =>
      let x1 := Js.toNumber (Point.screenX s) in
      let y1 := Js.toNumber (Point.screenY s) in
      let x2 := Js.toNumber (Point.screenX e) in
      let y2 := Js.toNumber (Point.screenY e) in
      let distance := pointToLineDistance (x point) (y point) x1 y1 x2 y2 in
      let startDist := sqrt (Js.square (x point - x1) + Js.square (y point - y1))%float in
      let endDist := sqrt (Js.square (x point - x2) + Js.square (y point - y2))%float in
      (distance <=? tolerance)%float
      || (startDist <=? tolerance + 5)%float
      || (endDist <=? tolerance + 5)%float
  | _, _ => false
  end.

(** toJSON reads [drawing.startPoint.time]: it throws when an anchor is
    missing ([None]). *)
Definition toJSON (drawing : Drawing.t) : option Drawing.t :=
  match Drawing.startPoint drawing, Drawing.endPoint drawing with
  | Some s, Some e =>
      Some (Drawing.mk (Drawing.type drawing)
              (Some (Point.mk (Point.time s) (Point.price s) Js.Undefined Js.Undefined))
              (Some (Point.mk (Point.time e) (Point.price e) Js.Undefined Js.Undefined))
              Js.Undefined Drawing.NoLevels (Drawing.options drawing) (Drawing.timestamp drawing)
              Js.Undefined None Js.Undefined Js.Undefined Js.Undefined Js.Undefined)
  | _, _ => None
  end.

(** [data.timestamp || Date.now()] *)
Definition timestampOr (v : Js.value) (now : float) : Js.value :=
  if Js.truthy v then v else Js.Num now.

(** fromJSON, with [coordinateMapper (time, price)] giving the screen
    position [(x, y)]. *)
Definition fromJSON (this : BaseTool.t) (data : Drawing.t)
    (coordinateMapper : Js.value -> Js.value -> Js.value * Js.value) (now : float)
    : option Drawing.t :=
  match Drawing.startPoint data, Drawing.endPoint data with
  | Some s, Some e =>
      let screenStart := coordinateMapper (Point.time s) (Point.price s) in
      let screenEnd := coordinateMapper (Point.time e) (Point.price e) in
      Some (Drawing.mk (Drawing.type data)
              (Some (Point.mk (Point.time s) (Point.price s) (fst screenStart) (snd screenStart)))
              (Some (Point.mk (Point.time e) (Point.price e) (fst screenEnd) (snd screenEnd)))
              Js.Undefined Drawing.NoLevels
              (Options.spread (BaseTool.options this) (Drawing.options data))
              (timestampOr (Drawing.timestamp data) now)
              Js.Undefined None Js.Undefined Js.Undefined Js.Undefined Js.Undefined)
  | _, _ => None
  end.

(** What drawLabel puts on the canvas: the two numbers its text renders,
    [priceDiff.toFixed(2)] and [percentDiff], and where the text goes. *)
Record label : Type := mkLabel {
  priceDiffText : Js.fixed;
  percentDiff : Js.fixed;
  midX : float;
  midY : float
}.

(** How a label routine ends: it returns before drawing, it draws, or it
    reads a property of a missing anchor and throws. *)
Inductive labelled : Type :=
| NoLabel
| Label (l : label)
| LabelTypeError.

Definition drawLabel (drawing : Drawing.t) : labelled :=
  if negb (Js.truthy (Drawing.priceDifference drawing)) then NoLabel
  else
    match Drawing.startPoint drawing, Drawing.endPoint drawing with
    | Some s, Some e =>
        let midX := ((Js.toNumber (Point.screenX s) + Js.toNumber (Point.screenX e)) / 2)%float in
        let midY := ((Js.toNumber (Point.screenY s) + Js.toNumber (Point.screenY e)) / 2)%float in
        let priceDiff := Js.toNumber (Drawing.priceDifference drawing) in
        Label (mkLabel (Js.toFixed priceDiff 2)
                 (Js.toFixed (priceDiff / Js.toNumber (Point.price s) * 100)%float 2)
                 midX midY)
    | _, _ => LabelTypeError
    end.

(** The label part of draw: nothing without both anchors, and the label is
    attempted only on a line longer than 50 pixels. *)
Definition draw_label (drawing : Drawing.t) : labelled :=
  match Drawing.startPoint drawing, Drawing.endPoint drawing with
  | Some _, Some _ =>
      if Js.truthy (Drawing.lineLength drawing)
         && (50 <? Js.toNumber (Drawing.lineLength drawing))%float
      then drawLabel drawing
      else NoLabel
  | _, _ => NoLabel
  end.

End TrendLineTool.

(** ** FibRetracementTool *)
Module FibRetracementTool.

Definition defaults : Options.t :=
  Options.mk (Some 1%float) (Some "#9B59B6") (Some "rgba(155, 89, 182, 0.1)") None
    None None (Some true) None (Some true) (Some true) (Some true) None None None
    (Some [0; 0.236; 0.382; 0.5; 0.618; 0.786; 1]%float)
    (Some [(0, "#FF6B6B"); (0.236, "#4ECDC4"); (0.382, "#45B7D1"); (0.5, "#96CEB4");
           (0.618, "#FFEAA7"); (0.786, "#DDA0DD"); (1, "#FF6B6B")]%float).

Definition new (options : Options.t) : BaseTool.t :=
  BaseTool.new BaseTool.FibRetracementTool "FibRetracement" (Options.spread defaults options).

(** Two numbers name the same property of an object when they print the
    same. *)
Definition sameKey (a b : float) : bool :=
  (a =? b)%float || (is_nan a && is_nan b).

(** [levelColors[level]] *)
Fixpoint colorAt (colors : list (float * string)) (level : float) : option string :=
  match colors with
  | [] => None
  | (k, c) :: rest => if sameKey k level then Some c else colorAt rest level
  end.

(** [(options.levelColors && options.levelColors[level]) || this.options.lineColor] *)
Definition levelColor (this : BaseTool.t) (options : Options.t) (level : float) : option string :=
  match Options.levelColors options with
  | Some colors =>
      match colorAt colors level with
      | Some c => if String.eqb c "" then Options.lineColor (BaseTool.options this) else Some c
      | None => Options.lineColor (BaseTool.options this)
      end
  | None => Options.lineColor (BaseTool.options this)
  end.

(** [options.levels || this.options.levels || []] *)
Definition levelOptions (this : BaseTool.t) (options : Options.t) : list float :=
  match Options.levels options with
  | Some l => l
  | None =>
      match Options.levels (BaseTool.options this) with
      | Some l => l
      | None => []
      end
  end.

Definition calculateFibLevels (this : BaseTool.t) (startPoint endPoint : option Point.t)
    (options : Options.t) : list Level.t :=
  match startPoint, endPoint with
  | Some s, Some e =>
      let priceDiff :=
        (Js.toNumber (Js.nullish (Point.price e) (Point.price s))
         - Js.toNumber (Point.price s))%float in
      map (fun level =>
             let price := (Js.toNumber (Point.price s) + priceDiff * level)%float in
             Level.mk level (Js.toFixed (level * 100)%float 1) price
               (levelColor this options level))
          (levelOptions this options)
  | _, _ => []
  end.

Definition createDrawing (this : BaseTool.t) (coords : Point.t) (options : Options.t)
    (now : float) : Drawing.t :=
  let drawingOptions := Options.spread (BaseTool.options this) options in
  let startPoint := Point.mk (Point.time coords) (Point.price coords) Js.Undefined Js.Undefined in
  let endPoint := Point.mk (Point.time coords) (Point.price coords) Js.Undefined Js.Undefined in
  Drawing.mk (Some "FibRetracement") (Some startPoint) (Some endPoint) Js.Undefined
    (Drawing.LevelTable (calculateFibLevels this (Some startPoint) (Some endPoint) drawingOptions))
    drawingOptions (Js.Num now)
    Js.Undefined None Js.Undefined Js.Undefined Js.Undefined Js.Undefined.

Definition updateDrawingData (this : BaseTool.t) (drawing : Drawing.t) (coords : Point.t)
    : Drawing.t :=
  match Drawing.endPoint drawing with
  | None => drawing
  | Some _ =>
      let finalCoords := BaseTool.snap (Options.snapToPrice (Drawing.options drawing)) coords in
      let drawing :=
        Drawing.set_endPoint drawing
          (Point.mk (Point.time finalCoords) (Point.price finalCoords) Js.Undefined Js.Undefined) in
      Drawing.set_levels drawing
        (calculateFibLevels this (Drawing.startPoint drawing) (Drawing.endPoint drawing)
           (Drawing.options drawing))
  end.

Definition finalizeDrawingData (this : BaseTool.t) (drawing : Drawing.t) (coords : Point.t)
    : completion Drawing.t :=
  let drawing := updateDrawingData this drawing coords in
  match Drawing.endPoint drawing, Drawing.startPoint drawing with
  | Some e, Some s =>
      Normal
        (Drawing.set_range_properties drawing
           (abs (Js.toNumber (Point.price e) - Js.toNumber (Point.price s)))%float
           (Js.toNumber (Point.price e) - Js.toNumber (Point.price s))%float
           (Js.toNumber (Point.time e) - Js.toNumber (Point.time s))%float)
  | _, _ => Abrupt drawing
  end.

(** [levels: drawing.options.levels] *)
Definition ratios (options : Options.t) : Drawing.levelsProp :=
  match Options.levels options with
  | Some l => Drawing.LevelRatios l
  | None => Drawing.NoLevels
  end.

Definition toJSON (drawing : Drawing.t) : option Drawing.t :=
  match Drawing.startPoint drawing, Drawing.endPoint drawing with
  | Some s, Some e =>
      Some (Drawing.mk (Drawing.type drawing)
              (Some (Point.mk (Point.time s) (Point.price s) Js.Undefined Js.Undefined))
              (Some (Point.mk (Point.time e) (Point.price e) Js.Undefined Js.Undefined))
              Js.Undefined (ratios (Drawing.options drawing))
              (Drawing.options drawing) (Drawing.timestamp drawing)
              Js.Undefined None Js.Undefined Js.Undefined Js.Undefined Js.Undefined)
  | _, _ => None
  end.

(** fromJSON: the level table is computed again, with the tool's own
    options (the default of calculateFibLevels' third parameter). *)
Definition fromJSON (this : BaseTool.t) (data : Drawing.t)
    (coordinateMapper : Js.value -> Js.value -> Js.value * Js.value) (now : float)
    : option Drawing.t :=
  match Drawing.startPoint data, Drawing.endPoint data with
  | Some s, Some e =>
      let screenStart := coordinateMapper (Point.time s) (Point.price s) in
      let screenEnd := coordinateMapper (Point.time e) (Point.price e) in
      let startPoint := Point.mk (Point.time s) (Point.price s) (fst screenStart) (snd screenStart) in
      let endPoint := Point.mk (Point.time e) (Point.price e) (fst screenEnd) (snd screenEnd) in
      Some (Drawing.mk (Drawing.type data) (Some startPoint) (Some endPoint) Js.Undefined
              (Drawing.LevelTable
                 (calculateFibLevels this (Some startPoint) (Some endPoint)
                    (BaseTool.options this)))
              (Options.spread (BaseTool.options this) (Drawing.options data))
              (TrendLineTool.timestampOr (Drawing.timestamp data) now)
              Js.Undefined None Js.Undefined Js.Undefined Js.Undefined Js.Undefined)
  | _, _ => None
  end.

End FibRetracementTool.

(** ** HorizontalLineTool *)
Module HorizontalLineTool.

Definition defaults : Options.t :=
  Options.mk (Some 2%float) (Some "#4ECDC4") None (Some (Options.StyleName "solid")) (Some true) (Some true)
    None (Some true) None None (Some true) None None None None None.

Definition new (options : Options.t) : BaseTool.t :=
  BaseTool.new BaseTool.HorizontalLineTool "HorizontalLine" (Options.spread defaults options).

Definition createDrawing (this : BaseTool.t) (coords : Point.t) (options : Options.t)
    (now : float) : Drawing.t :=
  let price := Point.price (BaseTool.snap (Options.snapToPrice options) coords) in
  Drawing.mk (Some "HorizontalLine") None None price Drawing.NoLevels
    (Options.spread (BaseTool.options this) options) (Js.Num now)
    Js.Undefined None Js.Undefined Js.Undefined Js.Undefined Js.Undefined.

Definition updateDrawingData (drawing : Drawing.t) (coords : Point.t) : Drawing.t :=
  if Options.flag (Options.snapToPrice (Drawing.options drawing))
     && Js.notNull (Point.price coords)
  then Drawing.set_price drawing
         (Js.Num (Js.Math_round (Js.toNumber (Point.price coords) * 100) / 100)%float)
  else drawing.

Definition finalizeDrawingData (drawing : Drawing.t) (coords : Point.t)
    : completion Drawing.t :=
  Normal (updateDrawingData drawing coords).

(** onHover: getLastPrice() is null, so the cursor turns to a pointer
    within a cent of price 0. *)
Definition onHover (this : BaseTool.t) (coords : Point.t) : BaseTool.t :=
  let nearLine := (abs (Js.toNumber (Point.price coords) - 0) <? 0.01)%float in
  BaseTool.mk (BaseTool.class this) (BaseTool.name this) (BaseTool.options this)
    (BaseTool.isActive this) (if nearLine then "pointer" else "crosshair").

End HorizontalLineTool.

(** ** The methods of BaseTool that call into the subclass *)
Module Tool.

Definition createDrawing (this : BaseTool.t) (coords : Point.t) (options : Options.t)
    (now : float) : Drawing.t :=
  match BaseTool.class this with
  | BaseTool.TrendLineTool => TrendLineTool.createDrawing this coords options now
  | BaseTool.FibRetracementTool => FibRetracementTool.createDrawing this coords options now
  | BaseTool.HorizontalLineTool => HorizontalLineTool.createDrawing this coords options now
  end.

Definition updateDrawingData (this : BaseTool.t) (drawing : Drawing.t) (coords : Point.t)
    : Drawing.t :=
  match BaseTool.class this with
  | BaseTool.TrendLineTool => TrendLineTool.updateDrawingData drawing coords
  | BaseTool.FibRetracementTool => FibRetracementTool.updateDrawingData this drawing coords
  | BaseTool.HorizontalLineTool => HorizontalLineTool.updateDrawingData drawing coords
  end.

Definition finalizeDrawingData (this : BaseTool.t) (drawing : Drawing.t) (coords : Point.t)
    : completion Drawing.t :=
  match BaseTool.class this with
  | BaseTool.TrendLineTool => TrendLineTool.finalizeDrawingData drawing coords
  | BaseTool.FibRetracementTool => FibRetracementTool.finalizeDrawingData this drawing coords
  | BaseTool.HorizontalLineTool => HorizontalLineTool.finalizeDrawingData drawing coords
  end.

(** startDrawing; [coords] is always an object here, so the guard that
    throws on a missing one never fires. *)
Definition startDrawing (this : BaseTool.t) (coords : Point.t) (options : Options.t)
    (now : float) : Drawing.t :=
  let mergedOptions := Options.spread (BaseTool.options this) options in
  createDrawing this coords mergedOptions now.

Definition updateDrawing (this : BaseTool.t) (drawing : Drawing.t) (coords : Point.t)
    : Drawing.t :=
  updateDrawingData this drawing coords.

Definition finishDrawing (this : BaseTool.t) (drawing : Drawing.t) (coords : Point.t)
    : completion Drawing.t :=
  finalizeDrawingData this drawing coords.

Definition onHover (this : BaseTool.t) (coords : Point.t) : BaseTool.t :=
  match BaseTool.class this with
  | BaseTool.HorizontalLineTool => HorizontalLineTool.onHover this coords
  | _ => this
  end.

End Tool.

(** ** EventBus *)
Module EventBus.

(** A subscription.  A callback is a JavaScript function; it is named by
    a number, and two subscriptions hold the same function when they hold
    the same number (the [===] of off's findIndex). *)
Record Listener : Type := mkListener {
  callback : nat;
  once : bool;
  priority : Z;
  context : option nat
}.

Record t : Type := mk {
  events : gmap string (list Listener);
  maxListeners : nat;
  debugMode : bool
}.

Definition new : t := mk ∅ 50 false.

Definition set_events (this : t) (ev : gmap string (list Listener)) : t :=
  mk ev (maxListeners this) (debugMode this).

(** [listeners.sort((a, b) => b.priority - a.priority)]: stable, higher
    priority first. *)
Fixpoint insert_by_priority (l : Listener) (ls : list Listener) : list Listener :=
  match ls with
  | [] => [l]
  | x :: xs =>
      if (priority x <=? priority l)%Z then l :: x :: xs
      else x :: insert_by_priority l xs
  end.

Definition sort (ls : list Listener) : list Listener :=
  fold_right insert_by_priority [] ls.

Definition on (this : t) (eventName : string) (cb : nat) (isOnce : bool) (prio : Z)
    (ctx : option nat) : t :=
  let listeners := default [] (events this !! eventName) in
  let listener := mkListener cb isOnce prio ctx in
  set_events this (<[eventName := sort (listeners ++ [listener])]> (events this)).

(** [listeners.splice(index, 1)] at the first subscription of [cb]. *)
Fixpoint remove_first (cb : nat) (ls : list Listener) : option (list Listener) :=
  match ls with
  | [] => None
  | x :: xs =>
      if Nat.eqb (callback x) cb then Some xs
      else match remove_first cb xs with
           | Some xs' => Some (x :: xs')
           | None => None
           end
  end.

Definition off (this : t) (eventName : string) (cb : nat) : bool * t :=
  match events this !! eventName with
  | None => (false, this)
  | Some listeners =>
      match remove_first cb listeners with
      | Some [] => (true, set_events this (delete eventName (events this)))
      | Some rest => (true, set_events this (<[eventName := rest]> (events this)))
      | None => (false, this)
      end
  end.

Definition getListenerCount (this : t) (eventName : string) : nat :=
  match events this !! eventName with
  | Some listeners => length listeners
  | None => 0
  end.

(** once: [this.on(eventName, callback, { ...options, once: true })]; the
    name [once] is the listener's field. *)
Definition once_ (this : t) (eventName : string) (cb : nat) (prio : Z) (ctx : option nat) : t :=
  on this eventName cb true prio ctx.

(** clear; [None] is a call without an argument (or with null).  An empty
    event name is falsy and takes the second branch. *)
Definition clear (this : t) (eventName : option string) : t :=
  match eventName with
  | Some name =>
      if String.eqb name "" then set_events this ∅
      else set_events this (delete name (events this))
  | None => set_events this ∅
  end.

(** The event name a namespaced bus uses: [`${namespace}:${eventName}`]. *)
Definition scoped (namespace eventName : string) : string :=
  namespace ++ ":" ++ eventName.

(** The interface that namespace(namespace) returns. *)
Module Namespace.

Definition on (this : t) (namespace eventName : string) (cb : nat) (isOnce : bool) (prio : Z)
    (ctx : option nat) : t :=
  on this (scoped namespace eventName) cb isOnce prio ctx.

Definition off (this : t) (namespace eventName : string) (cb : nat) : bool * t :=
  off this (scoped namespace eventName) cb.

(** [this.clear(eventName ? `${namespace}:${eventName}` : null)] *)
Definition clear (this : t) (namespace : string) (eventName : option string) : t :=
  clear this
    match eventName with
    | Some name => if String.eqb name "" then None else Some (scoped namespace name)
    | None => None
    end.

End Namespace.

Section Emit.

(** The payload of an event, and the state of the rest of the page that
    callbacks read and write. *)
Context {Data App : Type}.

(** A pending [setTimeout(() => listeners.forEach(executeListener), 0)]. *)
Record Task : Type := mkTask {
  task_event : string;
  task_data : Data;
  task_listeners : list Listener
}.

(** Everything a callback can reach: the bus itself (it may subscribe,
    unsubscribe or emit), the timer queue and the page. *)
Record Heap : Type := mkHeap {
  bus : t;
  timers : list Task;
  app : App
}.

Definition set_bus (h : Heap) (b : t) : Heap := mkHeap b (timers h) (app h).

(** What calling a callback does: [call cb context data eventName h] is
    the heap it leaves, returned normally or by a throw. *)
Variable call : nat -> option nat -> Data -> string -> Heap -> completion Heap.

(** The outcome of one emission: the number emit returns, the heap, the
    listeners it called in order, each with whether its callback threw, and
    the listeners reported on console.error. *)
Record Emitted : Type := mkEmitted {
  returned : nat;
  heap : Heap;
  calls : list (Listener * bool);
  errors : list Listener
}.

(** executeListener: the try block and its catch. *)
Definition executeListener (eventName : string) (data : Data) (listener : Listener)
    (acc : Emitted) : Emitted :=
  match call (callback listener) (context listener) data eventName (heap acc) with
  | Normal h =>
      let h :=
        if once listener then set_bus h (snd (off (bus h) eventName (callback listener)))
        else h in
      mkEmitted (S (returned acc)) h (calls acc ++ [(listener, false)]) (errors acc)
  | Abrupt h =>
      mkEmitted (returned acc) h (calls acc ++ [(listener, true)]) (errors acc ++ [listener])
  end.

(** [listeners.forEach(executeListener)] *)
Definition forEach (eventName : string) (data : Data) (listeners : list Listener)
    (acc : Emitted) : Emitted :=
  fold_left (fun acc listener => executeListener eventName data listener acc) listeners acc.

Definition emit (eventName : string) (data : Data) (async : bool) (h : Heap) : Emitted :=
  match events (bus h) !! eventName with
  | None => mkEmitted 0 h [] []
  | Some registered =>
      let listeners := registered in
      if async
      then mkEmitted 0 (mkHeap (bus h) (timers h ++ [mkTask eventName data listeners]) (app h))
             [] []
      else forEach eventName data listeners (mkEmitted 0 h [] [])
  end.

(** The timer task of an asynchronous emit, when the event loop runs it;
    its count goes to the closure's [notifiedCount], which nobody reads. *)
Definition runTimer (h : Heap) : Emitted :=
  match timers h with
  | [] => mkEmitted 0 h [] []
  | task :: rest =>
      forEach (task_event task) (task_data task) (task_listeners task)
        (mkEmitted 0 (mkHeap (bus h) rest (app h)) [] [])
  end.

(** The listeners whose callback threw. *)
Definition failed_calls (cs : list (Listener * bool)) : list Listener :=
  map fst (List.filter snd cs).

(** The listeners whose callback returned. *)
Definition completed_calls (cs : list (Listener * bool)) : list Listener :=
  map fst (List.filter (fun c => negb (snd c)) cs).

End Emit.

Arguments Task : clear implicits.
Arguments Heap : clear implicits.
Arguments Emitted : clear implicits.

End EventBus.

(** ** TrendLinePrimitive *)
Module TrendLinePrimitive.

Record t : Type := mk {
  drawingData : option Drawing.t;
  options : Options.t
}.

(** LightweightCharts.LineStyle.Solid *)
Definition Solid : Options.LineStyle := Options.StyleCode 0.

Definition defaults : Options.t :=
  Options.mk (Some 2%float) (Some "#FF6B6B") None (Some Solid)
    None None None None None None None None None None None None.

(** [...drawingData?.options] *)
Definition optionsOf (drawingData : option Drawing.t) : Options.t :=
  match drawingData with
  | Some d => Drawing.options d
  | None => Options.empty
  end.

Definition new (drawingData : option Drawing.t) : t :=
  mk drawingData (Options.spread defaults (optionsOf drawingData)).

(** [v !== undefined] *)
Definition defined (v : Js.value) : bool :=
  match v with
  | Js.Undefined => false
  | _ => true
  end.

Definition isValid (this : t) : bool :=
  match drawingData this with
  | Some d =>
      match Drawing.startPoint d, Drawing.endPoint d with
      | Some s, Some e =>
          defined (Point.time s) && defined (Point.price s)
          && defined (Point.time e) && defined (Point.price e)
      | _, _ => false
      end
  | None => false
  end.

(** drawLabel, given the screen positions of the two anchors. *)
Definition drawLabel (this : t) (startX startY endX endY : float) : TrendLineTool.labelled :=
  match drawingData this with
  | None => TrendLineTool.LabelTypeError
  | Some d =>
      match Js.truthy (Drawing.priceDifference d), Drawing.startPoint d with
      | true, Some s =>
          let midX := ((startX + endX) / 2)%float in
          let midY := ((startY + endY) / 2)%float in
          let priceDiff := Js.toNumber (Drawing.priceDifference d) in
          TrendLineTool.Label
            (TrendLineTool.mkLabel (Js.toFixed priceDiff 2)
               (Js.toFixed (priceDiff / Js.toNumber (Point.price s) * 100)%float 2)
               midX midY)
      | _, _ => TrendLineTool.NoLabel
      end
  end.

(** The label part of drawTrendLine: the host maps the anchors to the
    screen ([timeToCoordinate], [priceToCoordinate]); a [Null] coordinate
    skips the frame. *)
Definition drawTrendLine_label (this : t)
    (timeToCoordinate priceToCoordinate : Js.value -> Js.value) : TrendLineTool.labelled :=
  match drawingData this with
  | None => TrendLineTool.NoLabel
  | Some d =>
      match Drawing.startPoint d, Drawing.endPoint d with
      | Some s, Some e =>
          let startX := timeToCoordinate (Point.time s) in
          let startY := priceToCoordinate (Point.price s) in
          let endX := timeToCoordinate (Point.time e) in
          let endY := priceToCoordinate (Point.price e) in
          if Js.notNull startX && Js.notNull startY && Js.notNull endX && Js.notNull endY
          then
            let dx := (Js.toNumber endX - Js.toNumber startX)%float in
            let dy := (Js.toNumber endY - Js.toNumber startY)%float in
            let lineLength := sqrt (dx * dx + dy * dy)%float in
            if (50 <? lineLength)%float && Js.truthy (Drawing.priceDifference d)
            then drawLabel this (Js.toNumber startX) (Js.toNumber startY)
                   (Js.toNumber endX) (Js.toNumber endY)
            else TrendLineTool.NoLabel
          else TrendLineTool.NoLabel
      | _, _ => TrendLineTool.NoLabel
      end
  end.

End TrendLinePrimitive.

(** ** DrawingManager (the primitive-based manager, with the navigation
    lock) *)
Module DrawingManager.

Definition DrawingId : Type := string.

(** A value of the drawings map, and equally a record of an import
    array: any of the keys may be missing. *)
Record Entry : Type := mkEntry {
  id : option DrawingId;
  tool : option string;
  data : option Drawing.t;
  primitive : option nat;     (* the TrendLinePrimitive object, by identity *)
  timestamp : Js.value
}.

(** [{ id: drawingId, ...drawingData }] *)
Definition withId (drawingId : DrawingId) (drawingData : Entry) : Entry :=
  mkEntry (Options.over (Some drawingId) (id drawingData)) (tool drawingData)
    (data drawingData) (primitive drawingData) (timestamp drawingData).

(** The insertion-ordered Map of drawings. *)
Module DrawingMap.

Definition t : Type := list (DrawingId * Entry).

Fixpoint get (m : t) (k : DrawingId) : option Entry :=
  match m with
  | [] => None
  | (k', v) :: rest => if String.eqb k' k then Some v else get rest k
  end.

Definition has (m : t) (k : DrawingId) : bool := Js.present (get m k).

(** An existing key keeps its place; a new one goes last. *)
Fixpoint set (m : t) (k : DrawingId) (v : Entry) : t :=
  match m with
  | [] => [(k, v)]
  | (k', v') :: rest =>
      if String.eqb k' k then (k', v) :: rest else (k', v') :: set rest k v
  end.

Fixpoint delete (m : t) (k : DrawingId) : t :=
  match m with
  | [] => []
  | (k', v') :: rest =>
      if String.eqb k' k then rest else (k', v') :: delete rest k
  end.

Definition values (m : t) : list Entry := map snd m.
Definition keys (m : t) : list DrawingId := map fst m.
Definition size (m : t) : nat := length m.

End DrawingMap.

(** The calls the manager makes on the host chart: applyOptions with the
    disabled and with the original navigation options, applyOptions({}),
    and attaching and detaching a primitive on the series. *)
Inductive HostCall : Type :=
| LockNavigation
| UnlockNavigation
| Repaint
| AttachPrimitive (p : nat)
| DetachPrimitive (p : nat).

(** What the manager does not control. *)
Record Env : Type := mkEnv {
  chart : bool;                               (* this.chart.chart and the series exist *)
  throws : HostCall -> bool;                  (* the host call throws *)
  rectLeft : float;
  rectTop : float;
  screenToTime : float -> Js.value;           (* the coordinateMapper, its catch included *)
  screenToPrice : float -> Js.value;
  LightweightCharts : bool;                   (* the library global is defined *)
  TrendLineToolDefined : bool;                (* typeof TrendLineTool !== 'undefined' *)
  Date_now : nat -> float;                    (* the n-th reading of the clock *)
  generateDrawingId : nat -> DrawingId        (* the n-th id drawn from clock and Math.random *)
}.

Inductive Payload : Type :=
| NoPayload
| ToolPayload (tool : string)
| StartedPayload (tool : string) (coords : Point.t)
| MovePayload (tool : string) (coords : Point.t) (isDrawing : bool)
| CompletedPayload (tool : string) (coords : Point.t) (primitive : bool)
| CancelledPayload (tool : string)
| RemovedPayload (drawingId : DrawingId)
| ImportedPayload (count : nat).

Record State : Type := mkState {
  isActive : bool;
  currentTool : option nat;                   (* a tool object, by reference *)
  drawings : DrawingMap.t;
  currentDrawing : option Drawing.t;
  isDrawing : bool;
  options : Options.t;
  originalNavigationOptions : bool;           (* cached, or null *)
  navigationLocked : bool;
  tools : gmap string nat;                    (* the registry *)
  listening : bool;                           (* the container's mouse and touch listeners *)
  cursor : string;
  objects : gmap nat BaseTool.t;              (* the tool objects *)
  primitives : gmap nat TrendLinePrimitive.t; (* the primitive objects *)
  host : list HostCall;                       (* the host calls that went through *)
  emitted : list (string * Payload);          (* eventBus.emit, in order *)
  console : list string;
  reads : nat                                 (* clock and id readings so far *)
}.

Definition set_isActive (v : bool) (s : State) : State :=
  mkState v (currentTool s) (drawings s) (currentDrawing s) (isDrawing s) (options s)
    (originalNavigationOptions s) (navigationLocked s) (tools s) (listening s) (cursor s)
    (objects s) (primitives s) (host s) (emitted s) (console s) (reads s).

Definition set_currentTool (v : option nat) (s : State) : State :=
  mkState (isActive s) v (drawings s) (currentDrawing s) (isDrawing s) (options s)
    (originalNavigationOptions s) (navigationLocked s) (tools s) (listening s) (cursor s)
    (objects s) (primitives s) (host s) (emitted s) (console s) (reads s).

Definition set_drawings (v : DrawingMap.t) (s : State) : State :=
  mkState (isActive s) (currentTool s) v (currentDrawing s) (isDrawing s) (options s)
    (originalNavigationOptions s) (navigationLocked s) (tools s) (listening s) (cursor s)
    (objects s) (primitives s) (host s) (emitted s) (console s) (reads s).

Definition set_currentDrawing (v : option Drawing.t) (s : State) : State :=
  mkState (isActive s) (currentTool s) (drawings s) v (isDrawing s) (options s)
    (originalNavigationOptions s) (navigationLocked s) (tools s) (listening s) (cursor s)
    (objects s) (primitives s) (host s) (emitted s) (console s) (reads s).

Definition set_isDrawing (v : bool) (s : State) : State :=
  mkState (isActive s) (currentTool s) (drawings s) (currentDrawing s) v (options s)
    (originalNavigationOptions s) (navigationLocked s) (tools s) (listening s) (cursor s)
    (objects s) (primitives s) (host s) (emitted s) (console s) (reads s).

Definition set_options (v : Options.t) (s : State) : State :=
  mkState (isActive s) (currentTool s) (drawings s) (currentDrawing s) (isDrawing s) v
    (originalNavigationOptions s) (navigationLocked s) (tools s) (listening s) (cursor s)
    (objects s) (primitives s) (host s) (emitted s) (console s) (reads s).

Definition set_originalNavigationOptions (v : bool) (s : State) : State :=
  mkState (isActive s) (currentTool s) (drawings s) (currentDrawing s) (isDrawing s)
    (options s) v (navigationLocked s) (tools s) (listening s) (cursor s) (objects s)
    (primitives s) (host s) (emitted s) (console s) (reads s).

Definition set_navigationLocked (v : bool) (s : State) : State :=
  mkState (isActive s) (currentTool s) (drawings s) (currentDrawing s) (isDrawing s)
    (options s) (originalNavigationOptions s) v (tools s) (listening s) (cursor s)
    (objects s) (primitives s) (host s) (emitted s) (console s) (reads s).

Definition set_tools (v : gmap string nat) (s : State) : State :=
  mkState (isActive s) (currentTool s) (drawings s) (currentDrawing s) (isDrawing s)
    (options s) (originalNavigationOptions s) (navigationLocked s) v (listening s)
    (cursor s) (objects s) (primitives s) (host s) (emitted s) (console s) (reads s).

Definition set_listening (v : bool) (s : State) : State :=
  mkState (isActive s) (currentTool s) (drawings s) (currentDrawing s) (isDrawing s)
    (options s) (originalNavigationOptions s) (navigationLocked s) (tools s) v (cursor s)
    (objects s) (primitives s) (host s) (emitted s) (console s) (reads s).

Definition set_cursor (v : string) (s : State) : State :=
  mkState (isActive s) (currentTool s) (drawings s) (currentDrawing s) (isDrawing s)
    (options s) (originalNavigationOptions s) (navigationLocked s) (tools s) (listening s) v
    (objects s) (primitives s) (host s) (emitted s) (console s) (reads s).

Definition set_objects (v : gmap nat BaseTool.t) (s : State) : State :=
  mkState (isActive s) (currentTool s) (drawings s) (currentDrawing s) (isDrawing s)
    (options s) (originalNavigationOptions s) (navigationLocked s) (tools s) (listening s)
    (cursor s) v (primitives s) (host s) (emitted s) (console s) (reads s).

Definition set_primitives (v : gmap nat TrendLinePrimitive.t) (s : State) : State :=
  mkState (isActive s) (currentTool s) (drawings s) (currentDrawing s) (isDrawing s)
    (options s) (originalNavigationOptions s) (navigationLocked s) (tools s) (listening s)
    (cursor s) (objects s) v (host s) (emitted s) (console s) (reads s).

Definition set_host (v : list HostCall) (s : State) : State :=
  mkState (isActive s) (currentTool s) (drawings s) (currentDrawing s) (isDrawing s)
    (options s) (originalNavigationOptions s) (navigationLocked s) (tools s) (listening s)
    (cursor s) (objects s) (primitives s) v (emitted s) (console s) (reads s).

Definition set_emitted (v : list (string * Payload)) (s : State) : State :=
  mkState (isActive s) (currentTool s) (drawings s) (currentDrawing s) (isDrawing s)
    (options s) (originalNavigationOptions s) (navigationLocked s) (tools s) (listening s)
    (cursor s) (objects s) (primitives s) (host s) v (console s) (reads s).

Definition set_console (v : list string) (s : State) : State :=
  mkState (isActive s) (currentTool s) (drawings s) (currentDrawing s) (isDrawing s)
    (options s) (originalNavigationOptions s) (navigationLocked s) (tools s) (listening s)
    (cursor s) (objects s) (primitives s) (host s) (emitted s) v (reads s).

Definition set_reads (v : nat) (s : State) : State :=
  mkState (isActive s) (currentTool s) (drawings s) (currentDrawing s) (isDrawing s)
    (options s) (originalNavigationOptions s) (navigationLocked s) (tools s) (listening s)
    (cursor s) (objects s) (primitives s) (host s) (emitted s) (console s) v.

(** *** Methods run on the state and may throw; what they assigned
    before a throw stays assigned. *)
Inductive result (A : Type) : Type :=
| Ok (a : A) (s : State)
| Throw (s : State).
Arguments Ok {A} a s.
Arguments Throw {A} s.

Definition M (A : Type) : Type := State -> result A.

Definition ret {A : Type} (a : A) : M A := fun s => Ok a s.

Definition bind {A B : Type} (m : M A) (k : A -> M B) : M B :=
  fun s =>
    match m s with
    | Ok a s' => k a s'
    | Throw s' => Throw s'
    end.

Definition throw {A : Type} : M A := fun s => Throw s.
Definition get : M State := fun s => Ok s s.
Definition modify (f : State -> State) : M unit := fun s => Ok tt (f s).

(** The state a method leaves, however it ends. *)
Definition final {A : Type} (r : result A) : State :=
  match r with
  | Ok _ s | Throw s => s
  end.

Definition thrown {A : Type} (r : result A) : bool :=
  match r with
  | Ok _ _ => false
  | Throw _ => true
  end.

Local Notation "x <- m ;; k" := (bind m (fun x => k))
  (at level 100, m at next level, k at level 200, right associativity).
Local Notation "m ;; k" := (bind m (fun _ => k))
  (at level 100, k at level 200, right associativity).

Record MouseEvent : Type := mkMouseEvent { clientX : float; clientY : float }.

(** What arrives on 'drawing-tool-selected': a tool name or a tool
    object. *)
Inductive ToolSelection : Type :=
| ByName (toolName : string)
| ByObject (tool : option nat).

(** String.prototype.toLowerCase on the ASCII letters. *)
Definition lower (c : Ascii.ascii) : Ascii.ascii :=
  let n := Ascii.nat_of_ascii c in
  if (65 <=? n)%nat && (n <=? 90)%nat then Ascii.ascii_of_nat (n + 32) else c.

Fixpoint toLowerCase (s : string) : string :=
  match s with
  | EmptyString => EmptyString
  | String c rest => String (lower c) (toLowerCase rest)
  end.

(** A blank object, read through a reference nothing was stored at. *)
Definition blank : BaseTool.t := BaseTool.mk BaseTool.TrendLineTool "" Options.empty false "".

(** The tool object behind a reference. *)
Definition object (s : State) (ref : nat) : BaseTool.t :=
  default blank (objects s !! ref).

Section Methods.

Variable env : Env.

Definition log (msg : string) : M unit :=
  modify (fun s => set_console (console s ++ [msg]) s).

(** eventBus.emit; the bus catches what its listeners throw, so this
    returns whoever listens. *)
Definition emit (name : string) (payload : Payload) : M unit :=
  modify (fun s => set_emitted (emitted s ++ [(name, payload)]) s).

(** A method call on this.chart.chart or on the series: a TypeError when
    the chart is missing, and whatever the host throws. *)
Definition hostCall (c : HostCall) : M unit :=
  fun s =>
    if negb (chart env) || throws env c then Throw s
    else Ok tt (set_host (host s ++ [c]) s).

Definition readClock : M float :=
  fun s => Ok (Date_now env (reads s)) (set_reads (S (reads s)) s).

Definition newDrawingId : M DrawingId :=
  fun s => Ok (generateDrawingId env (reads s)) (set_reads (S (reads s)) s).

Definition updateObject (ref : nat) (f : BaseTool.t -> BaseTool.t) : M unit :=
  modify (fun s => set_objects (<[ref := f (object s ref)]> (objects s)) s).

Definition disableNavigation : M unit :=
  s <- get ;;
  if negb (chart env) || navigationLocked s then ret tt
  else
    hostCall LockNavigation ;;
    modify (set_navigationLocked true) ;;
    log "DrawingManager: Chart navigation locked".

Definition restoreNavigation : M unit :=
  s <- get ;;
  if negb (chart env) || negb (navigationLocked s) then ret tt
  else
    (if originalNavigationOptions s then hostCall UnlockNavigation else ret tt) ;;
    modify (set_navigationLocked false) ;;
    log "DrawingManager: Chart navigation unlocked".

Definition addChartEventListeners : M unit := modify (set_listening true).
Definition removeChartEventListeners : M unit := modify (set_listening false).

(** [a || b] on strings. *)
Definition orString (a b : string) : string :=
  if String.eqb a "" then b else a.

Definition setActiveTool (tool : option nat) : M unit :=
  s <- get ;;
  match currentTool s with
  | Some current =>
      updateObject current BaseTool.deactivate ;;
      removeChartEventListeners ;;
      restoreNavigation
  | None => ret tt
  end ;;
  modify (set_currentTool tool) ;;
  modify (set_isActive (Js.present tool)) ;;
  match tool with
  | Some t =>
      updateObject t BaseTool.activate ;;
      s <- get ;;
      modify (set_cursor (orString (BaseTool.getCursor (object s t)) "crosshair")) ;;
      addChartEventListeners ;;
      emit "drawing-tool-activated" (ToolPayload (BaseTool.getName (object s t)))
  | None =>
      modify (set_cursor "default") ;;
      removeChartEventListeners ;;
      emit "drawing-tool-deactivated" NoPayload
  end.

Definition screenToChart (event : MouseEvent) : Point.t :=
  let x := (clientX event - rectLeft env)%float in
  let y := (clientY event - rectTop env)%float in
  Point.mk (screenToTime env x) (screenToPrice env y) (Js.Num x) (Js.Num y).

Definition handleMouseDown (event : MouseEvent) : M unit :=
  s <- get ;;
  match isActive s, currentTool s with
  | true, Some t =>
      let coords := screenToChart event in
      modify (set_isDrawing true) ;;
      now <- readClock ;;
      modify (set_currentDrawing
                (Some (Tool.startDrawing (object s t) coords (options s) now))) ;;
      disableNavigation ;;
      emit "drawing-started" (StartedPayload (BaseTool.getName (object s t)) coords)
  | _, _ => ret tt
  end.

Definition handleMouseMove (event : MouseEvent) : M unit :=
  s <- get ;;
  match isActive s, currentTool s with
  | true, Some t =>
      let coords := screenToChart event in
      match isDrawing s, currentDrawing s with
      | true, Some drawing =>
          modify (set_currentDrawing (Some (Tool.updateDrawing (object s t) drawing coords)))
      | _, _ => updateObject t (fun tool => Tool.onHover tool coords)
      end ;;
      emit "drawing-mouse-move"
        (MovePayload (BaseTool.getName (object s t)) coords (isDrawing s))
  | _, _ => ret tt
  end.

(** The primitive object is allocated at an address the heap does not
    use yet. *)
Definition createTrendLinePrimitive (drawingData : Drawing.t) : M (option nat) :=
  match Drawing.startPoint drawingData, Drawing.endPoint drawingData with
  | Some _, Some _ =>
      if LightweightCharts env
      then
        s <- get ;;
        let p := fresh (dom (primitives s)) in
        modify (set_primitives
                  (<[p := TrendLinePrimitive.new (Some drawingData)]> (primitives s))) ;;
        ret (Some p)
      else
        log "DrawingManager: Failed to create TrendLine primitive:" ;;
        ret None
  | _, _ =>
      log "DrawingManager: Invalid drawing data for primitive creation" ;;
      ret None
  end.

Definition handleMouseUp (event : MouseEvent) : M unit :=
  s <- get ;;
  match isDrawing s, currentDrawing s with
  | true, Some drawing =>
      let coords := screenToChart event in
      match currentTool s with
      | None => throw
      | Some t =>
          let tool := object s t in
          match Tool.finishDrawing tool drawing coords with
          | Abrupt d => modify (set_currentDrawing (Some d)) ;; throw
          | Normal d =>
              modify (set_currentDrawing (Some d)) ;;
              let toolName := BaseTool.getName tool in
              primitive <-
                (if String.eqb toolName "TrendLine" || String.eqb toolName "trendline"
                 then createTrendLinePrimitive d
                 else ret None) ;;
              match primitive with
              | Some p =>
                  drawingId <- newDrawingId ;;
                  now <- readClock ;;
                  modify (fun s =>
                            set_drawings
                              (DrawingMap.set (drawings s) drawingId
                                 (mkEntry (Some drawingId) (Some toolName) (Some d) (Some p)
                                    (Js.Num now))) s) ;;
                  hostCall (AttachPrimitive p) ;;
                  hostCall Repaint ;;
                  log "DrawingManager: Created and attached primitive"
              | None => ret tt
              end ;;
              modify (set_isDrawing false) ;;
              modify (set_currentDrawing None) ;;
              restoreNavigation ;;
              emit "drawing-completed" (CompletedPayload toolName coords (Js.present primitive))
          end
      end
  | _, _ => ret tt
  end.

(** The class of this manager defines no scheduleRedraw (the canvas
    manager does): calling it is a TypeError. *)
Definition scheduleRedraw : M unit := throw.

Definition handleMouseLeave : M unit :=
  s <- get ;;
  if isDrawing s && Js.present (currentDrawing s)
  then
    modify (set_isDrawing false) ;;
    modify (set_currentDrawing None) ;;
    scheduleRedraw ;;
    restoreNavigation ;;
    s <- get ;;
    emit "drawing-cancelled"
      (CancelledPayload
         match currentTool s with
         | Some t => BaseTool.getName (object s t)
         | None => "unknown"
         end)
  else ret tt.

Definition handleTouchStart (touches : list MouseEvent) : M unit :=
  match touches with
  | [touch] => handleMouseDown touch
  | _ => ret tt
  end.

Definition handleTouchMove (touches : list MouseEvent) : M unit :=
  match touches with
  | [touch] => handleMouseMove touch
  | _ => ret tt
  end.

Definition handleTouchEnd (changedTouches : list MouseEvent) : M unit :=
  match changedTouches with
  | touch :: _ => handleMouseUp touch
  | [] => throw
  end.

Definition getToolInstance (toolName : string) : M (option nat) :=
  if String.eqb toolName "" then ret None
  else
    s <- get ;;
    match Options.over (tools s !! toLowerCase toolName) (tools s !! toolName) with
    | Some tool => ret (Some tool)
    | None =>
        if (String.eqb toolName "trendline" || String.eqb toolName "TrendLine")
           && TrendLineToolDefined env
        then
          let trendLineTool := fresh (dom (objects s)) in
          modify (set_objects (<[trendLineTool := TrendLineTool.new Options.empty]> (objects s))) ;;
          modify (fun s => set_tools (<["trendline" := trendLineTool]> (tools s)) s) ;;
          ret (Some trendLineTool)
        else
          log "DrawingManager: Tool not found in registry" ;;
          ret None
    end.

(** The listeners of setupEventBusListeners for tool selection. *)
Definition onToolSelected (toolNameOrObject : ToolSelection) : M unit :=
  match toolNameOrObject with
  | ByName toolName => tool <- getToolInstance toolName ;; setActiveTool tool
  | ByObject tool => setActiveTool tool
  end.

Definition onToolDeselected : M unit := setActiveTool None.

(** [this.drawings.forEach(drawing => ... detachPrimitive ...)] *)
Fixpoint detachAll (entries : list Entry) : M unit :=
  match entries with
  | [] => ret tt
  | drawing :: rest =>
      match primitive drawing with
      | Some p => hostCall (DetachPrimitive p)
      | None => ret tt
      end ;;
      detachAll rest
  end.

Definition clearAllDrawings : M unit :=
  s <- get ;;
  detachAll (DrawingMap.values (drawings s)) ;;
  modify (set_drawings []) ;;
  modify (set_isDrawing false) ;;
  modify (set_currentDrawing None) ;;
  hostCall Repaint ;;
  emit "all-drawings-cleared" NoPayload.

Definition removeDrawing (drawingId : DrawingId) : M unit :=
  s <- get ;;
  match DrawingMap.get (drawings s) drawingId with
  | Some drawing =>
      match primitive drawing with
      | Some p => hostCall (DetachPrimitive p)
      | None => ret tt
      end ;;
      modify (fun s => set_drawings (DrawingMap.delete (drawings s) drawingId) s) ;;
      hostCall Repaint ;;
      emit "drawing-removed" (RemovedPayload drawingId)
  | None => ret tt
  end.

Definition exportDrawings (s : State) : list Entry :=
  map (fun drawing => mkEntry None (tool drawing) (data drawing) None (timestamp drawing))
      (DrawingMap.values (drawings s)).

(** [drawingsData.forEach(...)] of importDrawings. *)
Fixpoint importEach (drawingsData : list Entry) : M unit :=
  match drawingsData with
  | [] => ret tt
  | drawingData :: rest =>
      drawingId <- newDrawingId ;;
      modify (fun s =>
                set_drawings (DrawingMap.set (drawings s) drawingId (withId drawingId drawingData)) s) ;;
      importEach rest
  end.

(** importDrawings; [None] is an argument that is not an array. *)
Definition importDrawings (drawingsData : option (list Entry)) : M unit :=
  match drawingsData with
  | None => ret tt
  | Some records =>
      importEach records ;;
      hostCall Repaint ;;
      emit "drawings-imported" (ImportedPayload (length records))
  end.

Definition destroy : M unit :=
  restoreNavigation ;;
  clearAllDrawings ;;
  removeChartEventListeners ;;
  modify (set_drawings []) ;;
  modify (set_currentTool None) ;;
  modify (set_currentDrawing None) ;;
  modify (set_isActive false) ;;
  modify (set_originalNavigationOptions false) ;;
  modify (set_navigationLocked false) ;;
  log "DrawingManager: Destroyed".

(** The defaults of the constructor. *)
Definition defaults : Options.t :=
  Options.mk (Some 2%float) (Some "#FF6B6B") (Some "rgba(255, 107, 107, 0.1)") None
    None None None None None None (Some true) (Some true) (Some true) (Some 100%float)
    None None.

(** The constructor: options merged over the defaults, the trend line
    tool registered when its class is loaded, navigation defaults cached. *)
Definition new (options : Options.t) : State :=
  let registered := TrendLineToolDefined env in
  mkState false None [] None false (Options.spread defaults options) true false
    (if registered then {["trendline" := 0]} else ∅) false ""
    (if registered then {[0 := TrendLineTool.new Options.empty]} else ∅) ∅
    [] [] [] 0.

(** *** Gestures

    The container delivers a pointer event to its handler only while the
    listeners are attached; a handler that throws is over, and the page
    goes on from the state it left. *)
Definition deliver (handler : M unit) : M unit :=
  s <- get ;;
  if listening s then handler else ret tt.

Definition after (handler : M unit) (s : State) : State := final (handler s).

(** What may happen between pointer-down and the end of the gesture. *)
Inductive Middle : Type :=
| Move (event : MouseEvent)
| TouchMoved (touches : list MouseEvent)
| Press (event : MouseEvent).

Definition middle (m : Middle) : M unit :=
  match m with
  | Move event => deliver (handleMouseMove event)
  | TouchMoved touches => deliver (handleTouchMove touches)
  | Press event => deliver (handleMouseDown event)
  end.

(** How a gesture ends. *)
Inductive Exit : Type :=
| Commit (event : MouseEvent)               (* pointer-up *)
| TouchCommit (touch : MouseEvent) (others : list MouseEvent)   (* touchend: at least one touch *)
| Cancel                                    (* pointer-leave *)
| Switch (selection : ToolSelection)        (* 'drawing-tool-selected' *)
| Deselect                                  (* 'drawing-tool-deselected' *)
| Destroy.

Definition exit (e : Exit) : M unit :=
  match e with
  | Commit event => deliver (handleMouseUp event)
  | TouchCommit touch others => deliver (handleTouchEnd (touch :: others))
  | Cancel => deliver handleMouseLeave
  | Switch selection => onToolSelected selection
  | Deselect => onToolDeselected
  | Destroy => destroy
  end.

Definition gesture (down : MouseEvent) (middles : list Middle) (e : Exit) (s : State) : State :=
  after (exit e)
    (fold_left (fun s m => after (middle m) s) middles
       (after (deliver (handleMouseDown down)) s)).

End Methods.

(** The lock transitions the manager reports on the console. *)
Definition count (msg : string) (lines : list string) : nat :=
  length (List.filter (String.eqb msg) lines).

Definition acquisitions (s : State) : nat :=
  count "DrawingManager: Chart navigation locked" (console s).

Definition releases (s : State) : nat :=
  count "DrawingManager: Chart navigation unlocked" (console s).

End DrawingManager.

(** ** Toolbar *)
Module Toolbar.

Record State : Type := mk {
  currentTool : option string;
  activeButton : option string;               (* the tool button that carries 'active' *)
  stateDrawing : bool;                        (* the container's 'state-drawing' class *)
  isVisible : bool
}.

(** The ids of the tool buttons. *)
Definition tools : list string := ["trendline"; "horizontal"; "fibonacci"].

Definition new : State := mk None None false true.

(** A character that ends or breaks the quoted string of the selector
    text [data-tool="toolId"]: the quote, the backslash and the line
    breaks. *)
Definition breaks (c : Ascii.ascii) : bool :=
  let n := Ascii.nat_of_ascii c in
  Nat.eqb n 34 || Nat.eqb n 92 || Nat.eqb n 10 || Nat.eqb n 12 || Nat.eqb n 13.

Fixpoint plain (toolId : string) : bool :=
  match toolId with
  | EmptyString => true
  | String c rest => negb (breaks c) && plain rest
  end.

(** What querySelector answers: an element or null, or a SyntaxError. *)
Inductive Selected : Type :=
| Element (button : option string)
| SyntaxError.

Section Document.

(** What the document's selector parser makes of the text when [toolId]
    holds one of those characters: a SyntaxError, or the tool button the
    text selects as the parser reads it. *)
Variable parsed : string -> Selected.

(** [this.container.querySelector(`[data-tool="${toolId}"]`)].  The
    elements of the toolbar that carry data-tool are its tool buttons, one
    per tool id; a text without those characters is a valid selector that
    compares the attribute with [toolId]. *)
Definition querySelector (toolId : string) : Selected :=
  if plain toolId
  then Element (if existsb (String.eqb toolId) tools then Some toolId else None)
  else parsed toolId.

(** The button updateActiveTool looks for: none for a falsy id. *)
Definition buttonOf (toolId : option string) : Selected :=
  match toolId with
  | Some toolName => if String.eqb toolName "" then Element None else querySelector toolName
  | None => Element None
  end.

(** updateActiveTool: every button loses 'active', then the button of
    [toolId], when the document has one, gets it; the SyntaxError of
    querySelector leaves every button without it. *)
Definition updateActiveTool (toolId : option string) (this : State) : completion State :=
  match buttonOf toolId with
  | Element button =>
      Normal (mk (currentTool this) button (stateDrawing this) (isVisible this))
  | SyntaxError =>
      Abrupt (mk (currentTool this) None (stateDrawing this) (isVisible this))
  end.

Definition deselectAllTools (this : State) : completion State := updateActiveTool None this.

End Document.

Definition set_currentTool (v : option string) (this : State) : State :=
  mk v (activeButton this) (stateDrawing this) (isVisible this).

Definition set_stateDrawing (v : bool) (this : State) : State :=
  mk (currentTool this) (activeButton this) v (isVisible this).

End Toolbar.

(** ** The page: the toolbar and the manager on one event bus *)
Module Page.

Record App : Type := mkApp {
  toolbar : Toolbar.State;
  manager : DrawingManager.State
}.

(** What the events of the page carry. *)
Inductive Data : Type :=
| NoData
| ToolId (toolId : string)
| ToolObject (tool : option nat).

Definition Heap : Type := EventBus.Heap Data App.

Definition withManager (h : Heap) (m : DrawingManager.State) : Heap :=
  EventBus.mkHeap (EventBus.bus h) (EventBus.timers h)
    (mkApp (toolbar (EventBus.app h)) m).

Definition withToolbar (h : Heap) (t : Toolbar.State) : Heap :=
  EventBus.mkHeap (EventBus.bus h) (EventBus.timers h)
    (mkApp t (manager (EventBus.app h))).

(** The callbacks the two constructors subscribe, in the order of
    setupEventBusListeners and bindEvents. *)
Definition manager_range_changed : nat := 0.
Definition manager_tool_selected : nat := 1.
Definition manager_tool_deselected : nat := 2.
Definition manager_clear_all : nat := 3.
Definition manager_undo : nat := 4.
Definition manager_redo : nat := 5.
Definition toolbar_tool_selected : nat := 6.
Definition toolbar_drawing_started : nat := 7.
Definition toolbar_drawing_finished : nat := 8.

Definition subscribe (eventName : string) (cb : nat) (bus : EventBus.t) : EventBus.t :=
  EventBus.on bus eventName cb false 0 None.

Definition wired : EventBus.t :=
  subscribe "drawing:finished" toolbar_drawing_finished
    (subscribe "drawing:started" toolbar_drawing_started
       (subscribe "drawing-tool-selected" toolbar_tool_selected
          (subscribe "redo-drawing" manager_redo
             (subscribe "undo-drawing" manager_undo
                (subscribe "clear-all-drawings" manager_clear_all
                   (subscribe "drawing-tool-deselected" manager_tool_deselected
                      (subscribe "drawing-tool-selected" manager_tool_selected
                         (subscribe "chart-visible-range-changed" manager_range_changed
                            EventBus.new)))))))).

Section Wiring.

Variable parsed : string -> Toolbar.Selected.
Variable env : DrawingManager.Env.

(** A method of the manager run as a callback. *)
Definition inManager (m : DrawingManager.M unit) (h : Heap) : completion Heap :=
  match m (manager (EventBus.app h)) with
  | DrawingManager.Ok _ s => Normal (withManager h s)
  | DrawingManager.Throw s => Abrupt (withManager h s)
  end.

(** A method of the toolbar run on the page. *)
Definition inToolbar (m : Toolbar.State -> completion Toolbar.State) (h : Heap)
    : completion Heap :=
  match m (toolbar (EventBus.app h)) with
  | Normal t => Normal (withToolbar h t)
  | Abrupt t => Abrupt (withToolbar h t)
  end.

(** [typeof toolNameOrObject === 'string'] *)
Definition selection (data : Data) : DrawingManager.ToolSelection :=
  match data with
  | ToolId toolId => DrawingManager.ByName toolId
  | ToolObject tool => DrawingManager.ByObject tool
  | NoData => DrawingManager.ByObject None
  end.

(** [toolId] as updateActiveTool tests it; a tool object is truthy, but
    the text made of it names no button. *)
Definition toolIdOf (data : Data) : option string :=
  match data with
  | ToolId toolId => Some toolId
  | _ => None
  end.

(** What each callback does.  The manager's undo and redo methods do not
    exist, and neither does its scheduleRedraw: those callbacks throw. *)
Definition call (cb : nat) (context : option nat) (data : Data) (eventName : string)
    (h : Heap) : completion Heap :=
  match cb with
  | 0 => inManager DrawingManager.scheduleRedraw h
  | 1 => inManager (DrawingManager.onToolSelected env (selection data)) h
  | 2 => inManager (DrawingManager.onToolDeselected env) h
  | 3 => inManager (DrawingManager.clearAllDrawings env) h
  | 4 => inManager DrawingManager.throw h
  | 5 => inManager DrawingManager.throw h
  | 6 => inToolbar (Toolbar.updateActiveTool parsed (toolIdOf data)) h
  | 7 => Normal (withToolbar h (Toolbar.set_stateDrawing true (toolbar (EventBus.app h))))
  | 8 => Normal (withToolbar h (Toolbar.set_stateDrawing false (toolbar (EventBus.app h))))
  | _ => Normal h
  end.

(** The lines of selectTool after the toggle: the id is stored, the
    buttons are updated, and only then is the event emitted. *)
Definition selectOther (toolId : string) (h : Heap) : completion Heap :=
  let h := withToolbar h (Toolbar.set_currentTool (Some toolId) (toolbar (EventBus.app h))) in
  match inToolbar (Toolbar.updateActiveTool parsed (Some toolId)) h with
  | Normal h =>
      Normal (EventBus.heap (EventBus.emit call "drawing-tool-selected" (ToolId toolId) false h))
  | Abrupt h => Abrupt h
  end.

(** Toolbar.selectTool; what updateActiveTool throws goes to the caller. *)
Definition selectTool (toolId : string) (h : Heap) : completion Heap :=
  match Toolbar.currentTool (toolbar (EventBus.app h)) with
  | Some current =>
      if String.eqb current toolId
      then
        match inToolbar (Toolbar.deselectAllTools parsed) h with
        | Normal h =>
            let h := EventBus.heap (EventBus.emit call "drawing-tool-deselected" NoData false h) in
            Normal (withToolbar h (Toolbar.set_currentTool None (toolbar (EventBus.app h))))
        | Abrupt h => Abrupt h
        end
      else selectOther toolId h
  | None => selectOther toolId h
  end.

(** The page once both constructors have run. *)
Definition start : Heap :=
  EventBus.mkHeap wired [] (mkApp Toolbar.new (DrawingManager.new env Options.empty)).

End Wiring.

End Page.

(** ** OHLC data points *)
Module Ohlc.

(** The [time] property: the date string of the CSV, the Unix time the
    parser computes from it, or nothing. *)
Inductive Time : Type :=
| TimeString (s : string)
| TimeNumber (f : float)
| TimeNull
| TimeUndefined.

Record t : Type := mk {
  time : Time;
  open : Js.value;
  high : Js.value;
  low : Js.value;
  close : Js.value;
  volume : Js.value
}.

End Ohlc.

(** ** Utils *)
Module Utils.

(** validateOHLC: the typeof tests, then the five comparisons. *)
Definition validateOHLC (item : Ohlc.t) : bool :=
  match Ohlc.time item, Ohlc.open item, Ohlc.high item, Ohlc.low item, Ohlc.close item with
  | Ohlc.TimeString _, Js.Num open, Js.Num high, Js.Num low, Js.Num close =>
      (low <=? high)%float && (open <=? high)%float && (close <=? high)%float
      && (low <=? open)%float && (low <=? close)%float
  | _, _, _, _, _ => false
  end.

(** The forEach of calculatePriceRange; a bound compared with a property
    that is not a number is compared with its ToNumber. *)
Fixpoint priceRangeFrom (data : list Ohlc.t) (min max : Js.value) : Js.value * Js.value :=
  match data with
  | [] => (min, max)
  | item :: rest =>
      let min := if (Js.toNumber (Ohlc.low item) <? Js.toNumber min)%float
                 then Ohlc.low item else min in
      let max := if (Js.toNumber max <? Js.toNumber (Ohlc.high item))%float
                 then Ohlc.high item else max in
      priceRangeFrom rest min max
  end.

(** calculatePriceRange; [None] is a missing array. *)
Definition calculatePriceRange (data : option (list Ohlc.t)) : Js.value * Js.value :=
  match data with
  | None | Some [] => (Js.Num 0, Js.Num 0)
  | Some items => priceRangeFrom items (Js.Num infinity) (Js.Num neg_infinity)
  end.

End Utils.

(** ** DataProcessor *)
Module DataProcessor.

(** [s.split(sep)] for a one-character separator. *)
Fixpoint split (sep : ascii) (s : string) : list string :=
  match s with
  | EmptyString => [EmptyString]
  | String c rest =>
      if Ascii.eqb c sep then EmptyString :: split sep rest
      else match split sep rest with
           | first :: others => String c first :: others
           | [] => [String c EmptyString]
           end
  end.

(** What parseCSV writes with console.warn, by line number. *)
Inductive Warning : Type :=
| InsufficientColumns (line : nat)
| InvalidNumericValues (line : nat)
| InvalidRelationships (line : nat)
| InvalidDataPoint (line : nat) (dataPoint : Ohlc.t).

(** What validateDataIntegrity lists in [errors]. *)
Inductive IntegrityError : Type :=
| NoDataToValidate
| InvalidPointAt (index : nat) (item : Ohlc.t)
| OutOfOrderAt (index : nat).

(** The object validateDataIntegrity returns; the two counts are missing
    from the answer to empty data. *)
Record Integrity : Type := mkIntegrity {
  valid : bool;
  errors : list IntegrityError;
  invalidPoints : option nat;
  validPoints : option nat
}.

Section Host.

(** The built-ins of the host: String.prototype.trim, parseFloat,
    parseInt, and [new Date(v).getTime()]. *)
Variable trim : string -> string.
Variable parseFloat : string -> float.
Variable parseInt : string -> float.
Variable Date_getTime : Ohlc.Time -> float.

(** formatDateTimeForTradingView: the Unix time in seconds; the Date
    constructor does not throw, so the catch is never entered. *)
Definition formatDateTimeForTradingView (datetime : string) : Ohlc.Time :=
  Ohlc.TimeNumber (Js.Math_floor (Date_getTime (Ohlc.TimeString datetime) / 1000)%float).

(** [columns[n]] where the column exists. *)
Definition column (columns : list string) (n : nat) : string := nth n columns "".

(** One turn of the loop of parseCSV over line [i]: the data point it
    pushes, if any, and what it warns. *)
Definition parseLine (i : nat) (raw : string) : option Ohlc.t * list Warning :=
  let line := trim raw in
  if String.eqb line "" then (None, [])
  else
    let columns := split "009"%char line in
    if (length columns <? 5)%nat then (None, [InsufficientColumns (i + 1)])
    else
      let datetime := trim (column columns 0) in
      let open := parseFloat (column columns 1) in
      let high := parseFloat (column columns 2) in
      let low := parseFloat (column columns 3) in
      let close := parseFloat (column columns 4) in
      let volume :=
        match nth_error columns 5 with
        | Some c => if String.eqb c "" then 0%float else parseInt c
        | None => 0%float
        end in
      if is_nan open || is_nan high || is_nan low || is_nan close
      then (None, [InvalidNumericValues (i + 1)])
      else if (high <? low)%float || (high <? open)%float || (high <? close)%float
              || (open <? low)%float || (close <? low)%float
      then (None, [InvalidRelationships (i + 1)])
      else
        let dataPoint :=
          Ohlc.mk (formatDateTimeForTradingView datetime) (Js.Num open) (Js.Num high)
            (Js.Num low) (Js.Num close) (Js.Num volume) in
        if Utils.validateOHLC dataPoint then (Some dataPoint, [])
        else (None, [InvalidDataPoint (i + 1) dataPoint]).

(** The for loop of parseCSV, from line [i] on. *)
Fixpoint parseLines (i : nat) (lines : list string) (data : list Ohlc.t)
    (console : list Warning) : list Ohlc.t * list Warning :=
  match lines with
  | [] => (data, console)
  | raw :: rest =>
      let '(pushed, warned) := parseLine i raw in
      parseLines (S i) rest
        match pushed with
        | Some dataPoint => data ++ [dataPoint]
        | None => data
        end
        (console ++ warned)
  end.

(** parseCSV: the data it returns, or [None] when it throws 'No valid
    data points found in CSV file'; and its warnings. *)
Definition parseCSV (csvText : string) : option (list Ohlc.t) * list Warning :=
  let lines :=
    List.filter (fun line => negb (String.eqb (trim line) "")) (split "010"%char csvText) in
  let '(data, console) := parseLines 0 lines [] [] in
  (match data with
   | [] => None
   | _ => Some data
   end, console).

(** convertToTradingViewFormat: the volume is left out. *)
Definition convertToTradingViewFormat (data : list Ohlc.t) : list Ohlc.t :=
  map (fun item => Ohlc.mk (Ohlc.time item) (Ohlc.open item) (Ohlc.high item) (Ohlc.low item)
                     (Ohlc.close item) Js.Undefined)
      data.

(** [index % sampleRate === 0] for an integer rate: the remainder by zero
    is NaN. *)
Definition sampled (index : nat) (sampleRate : Z) : bool :=
  if (sampleRate =? 0)%Z then false
  else (Z.rem (Z.of_nat index) sampleRate =? 0)%Z.

(** [data.filter((_, index) => ...)] from index [index] on. *)
Fixpoint sampleFrom {A : Type} (index : nat) (data : list A) (sampleRate : Z) : list A :=
  match data with
  | [] => []
  | item :: rest =>
      if sampled index sampleRate then item :: sampleFrom (S index) rest sampleRate
      else sampleFrom (S index) rest sampleRate
  end.

(** sampleData; [None] is a missing array. *)
Definition sampleData {A : Type} (data : option (list A)) (sampleRate : Z) : list A :=
  match data with
  | None => []
  | Some items => sampleFrom 0 items sampleRate
  end.

(** The forEach of validateDataIntegrity from index [index] on;
    [previous] is [data[index - 1]]. *)
Fixpoint integrityFrom (index : nat) (previous : option Ohlc.t) (data : list Ohlc.t)
    (errors : list IntegrityError) (invalidPoints : nat) : list IntegrityError * nat :=
  match data with
  | [] => (errors, invalidPoints)
  | item :: rest =>
      let '(errors, invalidPoints) :=
        if Utils.validateOHLC item then (errors, invalidPoints)
        else
          (if (S invalidPoints <=? 5)%nat then errors ++ [InvalidPointAt index item] else errors,
           S invalidPoints) in
      let errors :=
        match previous with
        | Some before =>
            if (Date_getTime (Ohlc.time item) <=? Date_getTime (Ohlc.time before))%float
            then errors ++ [OutOfOrderAt index]
            else errors
        | None => errors
        end in
      integrityFrom (S index) (Some item) rest errors invalidPoints
  end.

Definition validateDataIntegrity (data : option (list Ohlc.t)) : Integrity :=
  match data with
  | None | Some [] => mkIntegrity false [NoDataToValidate] None None
  | Some items =>
      let '(errors, invalidPoints) := integrityFrom 0 None items [] 0 in
      mkIntegrity (Nat.eqb (length errors) 0) errors (Some invalidPoints)
        (Some (length items - invalidPoints))
  end.

End Host.

End DataProcessor.

(** * Properties of the tools *)
Module ToolFacts.

(** The price a level table gives for a ratio. *)
Definition priceAt (levels : Drawing.levelsProp) (ratio : float) : option float :=
  match levels with
  | Drawing.LevelTable table =>
      match List.filter (fun lv => (Level.level lv =? ratio)%float) table with
      | lv :: _ => Some (Level.price lv)
      | [] => None
      end
  | _ => None
  end.

(** A Fibonacci drawing dragged from price 100 to price 200, as the tool
    builds it on pointer-down and finalizes it on pointer-up. *)
Definition fib_100_200 : Drawing.t :=
  let tool := FibRetracementTool.new Options.empty in
  let down := Point.mk (Js.Num 1700000000) (Js.Num 100) (Js.Num 10) (Js.Num 300) in
  let up := Point.mk (Js.Num 1700090000) (Js.Num 200) (Js.Num 250) (Js.Num 120) in
  completed
    (Tool.finishDrawing tool (Tool.startDrawing tool down Options.empty 1764000000000) up).

Lemma calculateFibLevels_map (this : BaseTool.t) (s e : Point.t) (options : Options.t) :
  FibRetracementTool.calculateFibLevels this (Some s) (Some e) options
  = map (fun l =>
           Level.mk l (Js.toFixed (l * 100)%float 1)
             (Js.toNumber (Point.price s)
              + (Js.toNumber (Js.nullish (Point.price e) (Point.price s))
                 - Js.toNumber (Point.price s)) * l)%float
             (FibRetracementTool.levelColor this options l))
        (FibRetracementTool.levelOptions this options).
Proof. reflexivity. Qed.

Lemma levelOptions_default (user : Options.t) :
  Options.levels user = None ->
  FibRetracementTool.levelOptions (FibRetracementTool.new user)
    (BaseTool.options (FibRetracementTool.new user))
  = [0; 0.236; 0.382; 0.5; 0.618; 0.786; 1]%float.
Proof.
  intros Hu. unfold FibRetracementTool.levelOptions, FibRetracementTool.new, BaseTool.new.
  simpl. rewrite Hu. reflexivity.
Qed.

(** C2. For every start price [s], end price [e] and ratio [l] of the
    configured level set, the level price the FibRetracement tool computes
    is [s + (e - s) * l]: the table lists, in order, each configured ratio
    with that price; the configured set of a tool built without a level
    override is {0, 0.236, 0.382, 0.5, 0.618, 0.786, 1}; and a drawing from
    price 100 to price 200 has 150 at level 0.5, 100 at level 0 and 200 at
    level 1. *)
Theorem fib_level_price_formula :
  (forall (this : BaseTool.t) (options : Options.t) (t0 t1 x0 y0 x1 y1 : Js.value)
          (s e : float),
      map (fun lv => (Level.level lv, Level.price lv))
        (FibRetracementTool.calculateFibLevels this
           (Some (Point.mk t0 (Js.Num s) x0 y0)) (Some (Point.mk t1 (Js.Num e) x1 y1)) options)
      = map (fun l => (l, (s + (e - s) * l)%float))
          (FibRetracementTool.levelOptions this options))
  /\ FibRetracementTool.levelOptions (FibRetracementTool.new Options.empty)
       (BaseTool.options (FibRetracementTool.new Options.empty))
     = [0; 0.236; 0.382; 0.5; 0.618; 0.786; 1]%float
  /\ priceAt (Drawing.levels fib_100_200) 0.5 = Some 150%float
  /\ priceAt (Drawing.levels fib_100_200) 0 = Some 100%float
  /\ priceAt (Drawing.levels fib_100_200) 1 = Some 200%float.
Proof.
  split.
  - intros this options t0 t1 x0 y0 x1 y1 s e.
    rewrite calculateFibLevels_map, map_map. simpl.
    apply map_ext. intros l. reflexivity.
  - split; [apply levelOptions_default; reflexivity|].
    repeat split; vm_compute; reflexivity.
Qed.

(** *** Hit testing *)

(** The distance between two points of the screen. *)
Definition euclid (px py qx qy : float) : float :=
  sqrt ((px - qx) * (px - qx) + (py - qy) * (py - qy))%float.

(** Where a query point projects on the line through the two anchors, as
    a fraction of the way from the first anchor to the second; none when
    the anchors coincide. *)
Definition projection (px py x1 y1 x2 y2 : float) : option float :=
  let lenSq := ((x2 - x1) * (x2 - x1) + (y2 - y1) * (y2 - y1))%float in
  if (lenSq =? 0)%float then None
  else Some (((px - x1) * (x2 - x1) + (py - y1) * (y2 - y1)) / lenSq)%float.

(** The point of the segment nearest to the query: the first anchor when
    the anchors coincide or the query projects before it, the second anchor
    when the query projects beyond it, and the foot of the perpendicular
    when it projects between them. *)
Definition nearest (px py x1 y1 x2 y2 : float) : float * float :=
  match projection px py x1 y1 x2 y2 with
  | None => (x1, y1)
  | Some t =>
      if (t <? 0)%float then (x1, y1)
      else if (1 <? t)%float then (x2, y2)
      else ((x1 + t * (x2 - x1))%float, (y1 + t * (y2 - y1))%float)
  end.

(** The distance from a point to a segment: the distance to the nearest
    point of the segment. *)
Definition segmentDistance (px py x1 y1 x2 y2 : float) : float :=
  euclid px py (fst (nearest px py x1 y1 x2 y2)) (snd (nearest px py x1 y1 x2 y2)).

(** A trend line drawn by the tool between two screen points. *)
Definition line_between (x1 y1 x2 y2 : float) : Drawing.t :=
  let tool := TrendLineTool.new Options.empty in
  let down := Point.mk (Js.Num 1700000000) (Js.Num 50000) (Js.Num x1) (Js.Num y1) in
  let up := Point.mk (Js.Num 1700090000) (Js.Num 50000) (Js.Num x2) (Js.Num y2) in
  completed
    (Tool.finishDrawing tool (Tool.startDrawing tool down Options.empty 1764000000000) up).

(** The trend line whose anchors sit at the screen points (0,0) and
    (100,0). *)
Definition flat_line : Drawing.t :=
  let tool := TrendLineTool.new Options.empty in
  let down := Point.mk (Js.Num 1700000000) (Js.Num 50000) (Js.Num 0) (Js.Num 0) in
  let up := Point.mk (Js.Num 1700090000) (Js.Num 50000) (Js.Num 100) (Js.Num 0) in
  completed
    (Tool.finishDrawing tool (Tool.startDrawing tool down Options.empty 1764000000000) up).

(** C7. TrendLine hit testing answers true exactly when the query point
    is within the tolerance of the segment by pointToLineDistance, or
    within the tolerance plus 5 of either anchor; pointToLineDistance is the
    distance from the query to the segment, that is to the nearest of its
    points: to the first anchor when the anchors coincide or the query
    projects before it, to the second anchor when it projects beyond it, to
    the foot of the perpendicular otherwise.  With anchors at (0,0) and
    (100,0) and tolerance 5, the point (50,2) hits and (50,10) does not, nor
    does (120,0), which is on the line but 20 away from the segment; and
    from the segment from (0,0) to (30,40) the points (11,23), (-3,-4) and
    (33,44) are all 5 away, beside it, before it and beyond it, so that
    (11,23) hits with tolerance 5 while (7,26), 10 away, does not. *)
Theorem trendline_hit_test_tolerance :
  (forall (d : Drawing.t) (p : TrendLineTool.point) (tolerance : float),
      TrendLineTool.isPointInside d p tolerance = true <->
      exists s e,
        Drawing.startPoint d = Some s /\ Drawing.endPoint d = Some e /\
        let x1 := Js.toNumber (Point.screenX s) in
        let y1 := Js.toNumber (Point.screenY s) in
        let x2 := Js.toNumber (Point.screenX e) in
        let y2 := Js.toNumber (Point.screenY e) in
        let px := TrendLineTool.x p in
        let py := TrendLineTool.y p in
        ((TrendLineTool.pointToLineDistance px py x1 y1 x2 y2 <=? tolerance)%float = true
         \/ (sqrt ((px - x1) * (px - x1) + (py - y1) * (py - y1)) <=? tolerance + 5)%float = true
         \/ (sqrt ((px - x2) * (px - x2) + (py - y2) * (py - y2)) <=? tolerance + 5)%float = true))
  /\ TrendLineTool.pointToLineDistance 50 2 0 0 100 0 = 2%float
  /\ TrendLineTool.pointToLineDistance 50 10 0 0 100 0 = 10%float
  /\ TrendLineTool.isPointInside flat_line (TrendLineTool.mkPoint 50 2) 5 = true
  /\ TrendLineTool.isPointInside flat_line (TrendLineTool.mkPoint 50 10) 5 = false
  /\ (forall px py x1 y1 x2 y2 : float,
        TrendLineTool.pointToLineDistance px py x1 y1 x2 y2
        = segmentDistance px py x1 y1 x2 y2)
  /\ TrendLineTool.pointToLineDistance 120 0 0 0 100 0 = 20%float
  /\ TrendLineTool.isPointInside flat_line (TrendLineTool.mkPoint 120 0) 5 = false
  /\ TrendLineTool.pointToLineDistance 11 23 0 0 30 40 = 5%float
  /\ TrendLineTool.pointToLineDistance (-3) (-4) 0 0 30 40 = 5%float
  /\ TrendLineTool.pointToLineDistance 33 44 0 0 30 40 = 5%float
  /\ TrendLineTool.pointToLineDistance 7 26 0 0 30 40 = 10%float
  /\ TrendLineTool.isPointInside (line_between 0 0 30 40) (TrendLineTool.mkPoint 11 23) 5 = true
  /\ TrendLineTool.isPointInside (line_between 0 0 30 40) (TrendLineTool.mkPoint 7 26) 5 = false.
Proof.
  split.
  - intros d p tolerance. unfold TrendLineTool.isPointInside, Js.square.
    destruct (Drawing.startPoint d) as [s|], (Drawing.endPoint d) as [e|]; simpl.
    + rewrite !orb_true_iff. split.
      * intros H. exists s, e. repeat split; try reflexivity. tauto.
      * intros (s' & e' & Hs & He & H). injection Hs as <-. injection He as <-. tauto.
    + split; [discriminate|]. intros (s' & e' & _ & He & _). discriminate.
    + split; [discriminate|]. intros (s' & e' & Hs & _). discriminate.
    + split; [discriminate|]. intros (s' & e' & Hs & _). discriminate.
  - do 4 (split; [vm_compute; reflexivity|]).
    split; [|repeat split; vm_compute; reflexivity].
    intros px py x1 y1 x2 y2.
    unfold TrendLineTool.pointToLineDistance, segmentDistance, nearest, projection, euclid.
    cbv zeta.
    destruct ((x2 - x1) * (x2 - x1) + (y2 - y1) * (y2 - y1) =? 0)%float; cbn [negb].
    + change (-1 <? 0)%float with true. reflexivity.
    + destruct (_ <? 0)%float; [reflexivity|].
      destruct (1 <? _)%float; reflexivity.
Qed.

(** *** Percentage labels *)

(** A trend line drawn from price 0 up to price 10, 100 pixels long. *)
Definition from_zero : Drawing.t :=
  let tool := TrendLineTool.new Options.empty in
  let down := Point.mk (Js.Num 1700000000) (Js.Num 0) (Js.Num 0) (Js.Num 400) in
  let up := Point.mk (Js.Num 1700090000) (Js.Num 10) (Js.Num 100) (Js.Num 400) in
  completed
    (Tool.finishDrawing tool (Tool.startDrawing tool down Options.empty 1764000000000) up).

(** A host whose scales put time [t] at x = t - 1700000000 scaled down, and
    price [p] at y = 400 - p. *)
Definition timeToCoordinate (t : Js.value) : Js.value :=
  Js.Num ((Js.toNumber t - 1700000000) / 900)%float.
Definition priceToCoordinate (p : Js.value) : Js.value :=
  Js.Num (400 - Js.toNumber p)%float.

(** C8, as stated, fails: a line whose start anchor has price 0 gets its
    label, in the tool and in the primitive, and the percentage in it is
    10 / 0 * 100, which is +Infinity. *)
Lemma zero_start_price_label_is_drawn :
  Drawing.domain (Drawing.startPoint from_zero) = Some (Js.Num 1700000000, Js.Num 0)
  /\ TrendLineTool.draw_label from_zero
     = TrendLineTool.Label
         (TrendLineTool.mkLabel (Js.toFixed 10 2) (Js.toFixed infinity 2) 50 400)
  /\ TrendLinePrimitive.drawTrendLine_label (TrendLinePrimitive.new (Some from_zero))
       timeToCoordinate priceToCoordinate
     = TrendLineTool.Label
         (TrendLineTool.mkLabel (Js.toFixed 10 2) (Js.toFixed infinity 2) 50 395).
Proof. repeat split; vm_compute; reflexivity. Qed.

Lemma tool_drawLabel_cases (d : Drawing.t) (s e : Point.t) :
  Drawing.startPoint d = Some s ->
  Drawing.endPoint d = Some e ->
  TrendLineTool.drawLabel d
  = if Js.truthy (Drawing.priceDifference d)
    then TrendLineTool.Label
           (TrendLineTool.mkLabel
              (Js.toFixed (Js.toNumber (Drawing.priceDifference d)) 2)
              (Js.toFixed
                 (Js.toNumber (Drawing.priceDifference d) / Js.toNumber (Point.price s) * 100)%float
                 2)
              ((Js.toNumber (Point.screenX s) + Js.toNumber (Point.screenX e)) / 2)%float
              ((Js.toNumber (Point.screenY s) + Js.toNumber (Point.screenY e)) / 2)%float)
    else TrendLineTool.NoLabel.
Proof.
  intros Hs He. unfold TrendLineTool.drawLabel. rewrite Hs, He.
  destruct (Js.truthy (Drawing.priceDifference d)); reflexivity.
Qed.

Lemma primitive_drawLabel_cases (d : Drawing.t) (s : Point.t) (options : Options.t)
    (startX startY endX endY : float) :
  Drawing.startPoint d = Some s ->
  TrendLinePrimitive.drawLabel (TrendLinePrimitive.mk (Some d) options) startX startY endX endY
  = if Js.truthy (Drawing.priceDifference d)
    then TrendLineTool.Label
           (TrendLineTool.mkLabel
              (Js.toFixed (Js.toNumber (Drawing.priceDifference d)) 2)
              (Js.toFixed
                 (Js.toNumber (Drawing.priceDifference d) / Js.toNumber (Point.price s) * 100)%float
                 2)
              ((startX + endX) / 2)%float ((startY + endY) / 2)%float)
    else TrendLineTool.NoLabel.
Proof.
  intros Hs. unfold TrendLinePrimitive.drawLabel. simpl. rewrite Hs.
  destruct (Js.truthy (Drawing.priceDifference d)); reflexivity.
Qed.

(** C8, amended. The percentage of a label is the price difference
    divided by the start anchor's price, times 100.  The one guard is on
    the price difference: drawLabel draws nothing exactly when
    priceDifference is falsy (zero, NaN or missing), in the tool and in the
    primitive alike; whatever the start price is, zero included, a truthy
    difference gets its label and no exception is raised. *)
Theorem percentage_label_guard (d : Drawing.t) (s e : Point.t) (options : Options.t)
    (startX startY endX endY : float) :
  Drawing.startPoint d = Some s ->
  Drawing.endPoint d = Some e ->
  (TrendLineTool.drawLabel d = TrendLineTool.NoLabel
   <-> Js.truthy (Drawing.priceDifference d) = false)
  /\ (TrendLinePrimitive.drawLabel (TrendLinePrimitive.mk (Some d) options)
        startX startY endX endY = TrendLineTool.NoLabel
      <-> Js.truthy (Drawing.priceDifference d) = false)
  /\ (Js.truthy (Drawing.priceDifference d) = true ->
      exists l l',
        TrendLineTool.drawLabel d = TrendLineTool.Label l
        /\ TrendLinePrimitive.drawLabel (TrendLinePrimitive.mk (Some d) options)
             startX startY endX endY = TrendLineTool.Label l'
        /\ TrendLineTool.percentDiff l
           = Js.toFixed
               (Js.toNumber (Drawing.priceDifference d) / Js.toNumber (Point.price s) * 100)%float
               2
        /\ TrendLineTool.percentDiff l' = TrendLineTool.percentDiff l).
Proof.
  intros Hs He.
  rewrite (tool_drawLabel_cases d s e Hs He).
  rewrite (primitive_drawLabel_cases d s options startX startY endX endY Hs).
  destruct (Js.truthy (Drawing.priceDifference d)).
  - repeat split; try discriminate.
    intros _. eexists. eexists. repeat split.
  - repeat split; try reflexivity. discriminate.
Qed.

Lemma percentage_label_guard_witness :
  (TrendLineTool.drawLabel from_zero = TrendLineTool.NoLabel
   <-> Js.truthy (Drawing.priceDifference from_zero) = false)
  /\ (TrendLinePrimitive.drawLabel (TrendLinePrimitive.mk (Some from_zero) Options.empty)
        0 400 100 390 = TrendLineTool.NoLabel
      <-> Js.truthy (Drawing.priceDifference from_zero) = false)
  /\ (Js.truthy (Drawing.priceDifference from_zero) = true ->
      exists l l',
        TrendLineTool.drawLabel from_zero = TrendLineTool.Label l
        /\ TrendLinePrimitive.drawLabel (TrendLinePrimitive.mk (Some from_zero) Options.empty)
             0 400 100 390 = TrendLineTool.Label l'
        /\ TrendLineTool.percentDiff l
           = Js.toFixed
               (Js.toNumber (Drawing.priceDifference from_zero)
                / Js.toNumber (Point.price (Point.mk (Js.Num 1700000000) (Js.Num 0) (Js.Num 0) (Js.Num 400)))
                * 100)%float
               2
        /\ TrendLineTool.percentDiff l' = TrendLineTool.percentDiff l).
Proof.
  apply (percentage_label_guard from_zero
           (Point.mk (Js.Num 1700000000) (Js.Num 0) (Js.Num 0) (Js.Num 400))
           (Point.mk (Js.Num 1700090000) (Js.Num 10) (Js.Num 100) (Js.Num 400))
           Options.empty 0 400 100 390);
    vm_compute; reflexivity.
Defined.

(** *** Serialization round trip *)

(** deserialize(serialize(d)) for the two tools that define both. *)
Definition trendLineRoundTrip (this : BaseTool.t) (d : Drawing.t)
    (coordinateMapper : Js.value -> Js.value -> Js.value * Js.value) (now : float)
    : option Drawing.t :=
  match TrendLineTool.toJSON d with
  | Some json => TrendLineTool.fromJSON this json coordinateMapper now
  | None => None
  end.

Definition fibRoundTrip (this : BaseTool.t) (d : Drawing.t)
    (coordinateMapper : Js.value -> Js.value -> Js.value * Js.value) (now : float)
    : option Drawing.t :=
  match FibRetracementTool.toJSON d with
  | Some json => FibRetracementTool.fromJSON this json coordinateMapper now
  | None => None
  end.

(** The manager's chartToScreen over the host scales above. *)
Definition chartToScreen (time price : Js.value) : Js.value * Js.value :=
  (timeToCoordinate time, priceToCoordinate price).

(** A trend line from price 100 to price 110, 100 pixels long. *)
Definition rising_line : Drawing.t :=
  let tool := TrendLineTool.new Options.empty in
  let down := Point.mk (Js.Num 1700000000) (Js.Num 100) (Js.Num 0) (Js.Num 300) in
  let up := Point.mk (Js.Num 1700090000) (Js.Num 110) (Js.Num 100) (Js.Num 300) in
  completed
    (Tool.finishDrawing tool (Tool.startDrawing tool down Options.empty 1764000000000) up).

(** The coordinates of the end anchor of a drawing, as a pointer event
    at that anchor would carry them. *)
Definition endCoords (d : Drawing.t) : Point.t :=
  match Drawing.endPoint d with
  | Some e => e
  | None => Point.mk Js.Undefined Js.Undefined Js.Undefined Js.Undefined
  end.

(** C6, as stated, fails: finalizing the anchors of [rising_line] gives
    length 100 and price difference 10, and the drawing that comes back
    from fromJSON(toJSON(...)) has neither property. *)
Lemma trendline_round_trip_loses_derived :
  option_map Drawing.lineLength
    (trendLineRoundTrip (TrendLineTool.new Options.empty) rising_line chartToScreen 1764000000001)
  = Some Js.Undefined
  /\ option_map Drawing.priceDifference
       (trendLineRoundTrip (TrendLineTool.new Options.empty) rising_line chartToScreen
          1764000000001)
     = Some Js.Undefined
  /\ Drawing.lineLength
       (completed (TrendLineTool.finalizeDrawingData rising_line (endCoords rising_line)))
     = Js.Num 100
  /\ Drawing.priceDifference
       (completed (TrendLineTool.finalizeDrawingData rising_line (endCoords rising_line)))
     = Js.Num 10.
Proof. repeat split; vm_compute; reflexivity. Qed.

(** Every derived property of a drawing is unset. *)
Definition no_derived (r : Drawing.t) : Prop :=
  Drawing.lineLength r = Js.Undefined /\ Drawing.angle r = None
  /\ Drawing.slope r = Js.Undefined /\ Drawing.priceDifference r = Js.Undefined
  /\ Drawing.timeDifference r = Js.Undefined /\ Drawing.priceRange r = Js.Undefined.

(** The screen position fromJSON gives an anchor. *)
Definition mapped (coordinateMapper : Js.value -> Js.value -> Js.value * Js.value)
    (p q : option Point.t) : Prop :=
  match p, q with
  | Some a, Some b =>
      (Point.screenX b, Point.screenY b) = coordinateMapper (Point.time a) (Point.price a)
  | _, _ => False
  end.

(** A drawing a tool starts carries every key of the tool's options. *)
Lemma started_keys_within (this : BaseTool.t) (coords : Point.t) (options : Options.t)
    (now : float) :
  Options.keys_within (BaseTool.options this)
    (Drawing.options (Tool.startDrawing this coords options now)).
Proof.
  unfold Tool.startDrawing, Tool.createDrawing.
  destruct (BaseTool.class this); apply Options.keys_within_spread.
Qed.

(** C6, amended. For every drawing [d] with both anchors whose options
    carry every key of the tool's options (as every drawing the tool
    started does), fromJSON(toJSON(d)) is a drawing with [d]'s type, the
    time and price of [d]'s anchors and [d]'s options, with the screen
    position of each anchor taken from the coordinate mapper.  No derived
    property is read from storage: the FibRetracement level table is
    computed again from the anchors with the tool's own options, and line
    length, angle, slope, price difference, time difference and price range
    are left unset by fromJSON rather than computed again. *)
Theorem round_trip_anchors_and_style (this : BaseTool.t) (d : Drawing.t) (s e : Point.t)
    (coordinateMapper : Js.value -> Js.value -> Js.value * Js.value) (now : float) :
  Drawing.startPoint d = Some s ->
  Drawing.endPoint d = Some e ->
  Options.keys_within (BaseTool.options this) (Drawing.options d) ->
  (exists r,
      trendLineRoundTrip this d coordinateMapper now = Some r
      /\ Drawing.type r = Drawing.type d
      /\ Drawing.domain (Drawing.startPoint r) = Drawing.domain (Drawing.startPoint d)
      /\ Drawing.domain (Drawing.endPoint r) = Drawing.domain (Drawing.endPoint d)
      /\ Drawing.options r = Drawing.options d
      /\ mapped coordinateMapper (Drawing.startPoint d) (Drawing.startPoint r)
      /\ mapped coordinateMapper (Drawing.endPoint d) (Drawing.endPoint r)
      /\ Drawing.levels r = Drawing.NoLevels
      /\ no_derived r)
  /\ (exists r,
      fibRoundTrip this d coordinateMapper now = Some r
      /\ Drawing.type r = Drawing.type d
      /\ Drawing.domain (Drawing.startPoint r) = Drawing.domain (Drawing.startPoint d)
      /\ Drawing.domain (Drawing.endPoint r) = Drawing.domain (Drawing.endPoint d)
      /\ Drawing.options r = Drawing.options d
      /\ mapped coordinateMapper (Drawing.startPoint d) (Drawing.startPoint r)
      /\ mapped coordinateMapper (Drawing.endPoint d) (Drawing.endPoint r)
      /\ Drawing.levels r
         = Drawing.LevelTable
             (FibRetracementTool.calculateFibLevels this (Drawing.startPoint d)
                (Drawing.endPoint d) (BaseTool.options this))
      /\ no_derived r).
Proof.
  intros Hs He Hk.
  unfold trendLineRoundTrip, fibRoundTrip, TrendLineTool.toJSON, FibRetracementTool.toJSON.
  rewrite Hs, He. unfold TrendLineTool.fromJSON, FibRetracementTool.fromJSON. simpl.
  rewrite (Options.spread_within _ _ Hk).
  split; eexists; (split; [reflexivity|]); simpl.
  - repeat split; destruct (coordinateMapper _ _); reflexivity.
  - repeat split; try (destruct (coordinateMapper _ _); reflexivity).
Qed.

(** A Fibonacci drawing from price 100 to 200 whose stored options set
    every key of the tool: the one of C2. *)
Lemma round_trip_anchors_and_style_witness :
  (exists r,
      trendLineRoundTrip (FibRetracementTool.new Options.empty) fib_100_200 chartToScreen
        1764000000001 = Some r
      /\ Drawing.type r = Drawing.type fib_100_200
      /\ Drawing.domain (Drawing.startPoint r) = Drawing.domain (Drawing.startPoint fib_100_200)
      /\ Drawing.domain (Drawing.endPoint r) = Drawing.domain (Drawing.endPoint fib_100_200)
      /\ Drawing.options r = Drawing.options fib_100_200
      /\ mapped chartToScreen (Drawing.startPoint fib_100_200) (Drawing.startPoint r)
      /\ mapped chartToScreen (Drawing.endPoint fib_100_200) (Drawing.endPoint r)
      /\ Drawing.levels r = Drawing.NoLevels
      /\ no_derived r)
  /\ (exists r,
      fibRoundTrip (FibRetracementTool.new Options.empty) fib_100_200 chartToScreen
        1764000000001 = Some r
      /\ Drawing.type r = Drawing.type fib_100_200
      /\ Drawing.domain (Drawing.startPoint r) = Drawing.domain (Drawing.startPoint fib_100_200)
      /\ Drawing.domain (Drawing.endPoint r) = Drawing.domain (Drawing.endPoint fib_100_200)
      /\ Drawing.options r = Drawing.options fib_100_200
      /\ mapped chartToScreen (Drawing.startPoint fib_100_200) (Drawing.startPoint r)
      /\ mapped chartToScreen (Drawing.endPoint fib_100_200) (Drawing.endPoint r)
      /\ Drawing.levels r
         = Drawing.LevelTable
             (FibRetracementTool.calculateFibLevels (FibRetracementTool.new Options.empty)
                (Drawing.startPoint fib_100_200) (Drawing.endPoint fib_100_200)
                (BaseTool.options (FibRetracementTool.new Options.empty)))
      /\ no_derived r).
Proof.
  apply (round_trip_anchors_and_style (FibRetracementTool.new Options.empty) fib_100_200
           (Point.mk (Js.Num 1700000000) (Js.Num 100) Js.Undefined Js.Undefined)
           (Point.mk (Js.Num 1700090000) (Js.Num 200) Js.Undefined Js.Undefined)
           chartToScreen 1764000000001).
  - vm_compute; reflexivity.
  - vm_compute; reflexivity.
  - vm_compute. intuition discriminate.
Defined.

End ToolFacts.

(** * Properties of the EventBus *)
Module EventBusFacts.

Import EventBus.

Section Isolation.

Context {Data App : Type}.
Variable call : nat -> option nat -> Data -> string -> Heap Data App -> completion (Heap Data App).

(** The count emit keeps and the console.error log agree with the calls
    made so far. *)
Definition consistent (r : Emitted Data App) : Prop :=
  returned r = length (completed_calls (calls r)) /\ errors r = failed_calls (calls r).

Lemma completed_calls_app (a b : list (Listener * bool)) :
  completed_calls (a ++ b) = completed_calls a ++ completed_calls b.
Proof. unfold completed_calls. rewrite List.filter_app, map_app. reflexivity. Qed.

Lemma failed_calls_app (a b : list (Listener * bool)) :
  failed_calls (a ++ b) = failed_calls a ++ failed_calls b.
Proof. unfold failed_calls. rewrite List.filter_app, map_app. reflexivity. Qed.

Lemma executeListener_calls (eventName : string) (data : Data) (l : Listener)
    (acc : Emitted Data App) :
  calls (executeListener call eventName data l acc)
  = calls acc
    ++ [(l, threw (call (callback l) (context l) data eventName (heap acc)))].
Proof.
  unfold executeListener.
  destruct (call (callback l) (context l) data eventName (heap acc)); reflexivity.
Qed.

Lemma executeListener_consistent (eventName : string) (data : Data) (l : Listener)
    (acc : Emitted Data App) :
  consistent acc -> consistent (executeListener call eventName data l acc).
Proof.
  unfold consistent, executeListener. intros [Hn He].
  destruct (call (callback l) (context l) data eventName (heap acc)); simpl;
    rewrite completed_calls_app, failed_calls_app, length_app; simpl.
  - split; [lia | rewrite app_nil_r; exact He].
  - split; [lia | rewrite He; reflexivity].
Qed.

Lemma forEach_calls (eventName : string) (data : Data) (ls : list Listener) :
  forall acc : Emitted Data App,
    map fst (calls (forEach call eventName data ls acc)) = map fst (calls acc) ++ ls.
Proof.
  induction ls as [|l ls IH]; intros acc; simpl.
  - rewrite app_nil_r. reflexivity.
  - unfold forEach in *. simpl. rewrite IH, executeListener_calls, map_app. simpl.
    rewrite <- app_assoc. reflexivity.
Qed.

Lemma forEach_consistent (eventName : string) (data : Data) (ls : list Listener) :
  forall acc : Emitted Data App,
    consistent acc -> consistent (forEach call eventName data ls acc).
Proof.
  induction ls as [|l ls IH]; intros acc Hacc; simpl; [exact Hacc|].
  unfold forEach in *. simpl. apply IH, executeListener_consistent, Hacc.
Qed.

Lemma consistent_start (h : Heap Data App) : consistent (mkEmitted 0 h [] []).
Proof. split; reflexivity. Qed.

(** The listeners subscribed to an event when it is emitted. *)
Definition subscribed (h : Heap Data App) (eventName : string) : list Listener :=
  default [] (events (bus h) !! eventName).

(** C10, amended. A synchronous emit (the default) calls every listener
    subscribed at the time of the call, in order, whether or not an earlier
    one threw; what a callback throws is caught and reported on
    console.error, so emit itself always returns; and the number it returns
    is the number of listeners whose callback returned without throwing.
    An emit with the async option calls nobody before it returns, returns 0,
    and leaves one timer task that later calls every one of those listeners
    under the same catch. *)
Theorem emit_isolates_listeners (eventName : string) (data : Data) (h : Heap Data App) :
  (let r := emit call eventName data false h in
   map fst (calls r) = subscribed h eventName
   /\ returned r = length (completed_calls (calls r))
   /\ errors r = failed_calls (calls r)
   /\ length (completed_calls (calls r)) + length (failed_calls (calls r))
      = length (subscribed h eventName))
  /\ (let r := emit call eventName data true h in
      returned r = 0
      /\ calls r = []
      /\ bus (heap r) = bus h /\ app (heap r) = app h
      /\ (subscribed h eventName <> [] ->
          timers (heap r) = timers h ++ [mkTask eventName data (subscribed h eventName)])
      /\ (timers h = [] ->
          let later := runTimer call (heap r) in
          map fst (calls later) = subscribed h eventName
          /\ errors later = failed_calls (calls later))).
Proof.
  unfold emit, subscribed.
  destruct (events (bus h) !! eventName) as [registered|] eqn:Hreg; simpl.
  - split.
    + pose proof (forEach_calls eventName data registered (mkEmitted 0 h [] [])) as Hc.
      pose proof (forEach_consistent eventName data registered _ (consistent_start h))
        as [Hn He].
      simpl in Hc. repeat split; try assumption.
      rewrite <- Hc at 3. rewrite length_map.
      unfold completed_calls, failed_calls. rewrite !length_map.
      generalize (calls (forEach call eventName data registered (mkEmitted 0 h [] []))).
      intros cs. induction cs as [|[l b] cs IH]; simpl; [reflexivity|].
      destruct b; simpl; lia.
    + do 4 (split; [reflexivity|]). split; [intros _; reflexivity|].
      intros Ht. rewrite Ht. unfold runTimer. simpl.
      pose proof (forEach_calls eventName data registered
                    (mkEmitted 0 (mkHeap (bus h) [] (app h)) [] [])) as Hc.
      pose proof (forEach_consistent eventName data registered _
                    (consistent_start (mkHeap (bus h) [] (app h)))) as [_ He].
      split; assumption.
  - split; [repeat split|].
    do 4 (split; [reflexivity|]). split; [intros H; contradiction|].
    intros Ht. unfold runTimer. simpl. rewrite Ht. repeat split.
Qed.

End Isolation.

(** A page that counts the calls of its one callback, which never
    throws. *)
Definition counting (cb : nat) (ctx : option nat) (data : unit) (eventName : string)
    (h : Heap unit nat) : completion (Heap unit nat) :=
  Normal (mkHeap (bus h) (timers h) (S (app h))).

Definition ticking : Heap unit nat :=
  mkHeap (on new "tick" 7 false 0 None) [] 0.

(** C10, as stated, fails for an asynchronous emission: the one listener
    of "tick" completes without throwing when the timer runs, and emit had
    returned 0 (a synchronous emit of the same event returns 1). *)
Lemma async_emit_returns_zero :
  returned (emit counting "tick" tt true ticking) = 0
  /\ completed_calls (calls (runTimer counting (heap (emit counting "tick" tt true ticking))))
     = [mkListener 7 false 0 None]
  /\ app (heap (runTimer counting (heap (emit counting "tick" tt true ticking)))) = 1
  /\ returned (emit counting "tick" tt false ticking) = 1.
Proof. repeat split; vm_compute; reflexivity. Qed.

End EventBusFacts.

(** ** DrawingManager (the canvas-overlay manager): its collection
    operations *)
Module CanvasDrawingManager.

Import DrawingManager.

Record State : Type := mkState {
  drawings : DrawingMap.t;
  currentDrawing : option Drawing.t;
  isDrawing : bool;
  animationFrameId : bool;                    (* a redraw is requested *)
  emitted : list (string * Payload);
  reads : nat
}.

(** scheduleRedraw: a pending request is cancelled and a new one made. *)
Definition scheduleRedraw (s : State) : State :=
  mkState (drawings s) (currentDrawing s) (isDrawing s) true (emitted s) (reads s).

Definition emit (name : string) (payload : Payload) (s : State) : State :=
  mkState (drawings s) (currentDrawing s) (isDrawing s) (animationFrameId s)
    (emitted s ++ [(name, payload)]) (reads s).

Definition set_drawings (v : DrawingMap.t) (s : State) : State :=
  mkState v (currentDrawing s) (isDrawing s) (animationFrameId s) (emitted s) (reads s).

Definition removeDrawing (drawingId : DrawingId) (s : State) : State :=
  if DrawingMap.has (drawings s) drawingId
  then
    emit "drawing-removed" (RemovedPayload drawingId)
      (scheduleRedraw (set_drawings (DrawingMap.delete (drawings s) drawingId) s))
  else s.

Definition exportDrawings (s : State) : list Entry :=
  map (fun drawing => mkEntry None (tool drawing) (data drawing) None (timestamp drawing))
      (DrawingMap.values (drawings s)).

Section Importing.

Variable env : Env.

Fixpoint importEach (drawingsData : list Entry) (s : State) : State :=
  match drawingsData with
  | [] => s
  | drawingData :: rest =>
      let drawingId := generateDrawingId env (reads s) in
      importEach rest
        (mkState (DrawingMap.set (drawings s) drawingId (withId drawingId drawingData))
           (currentDrawing s) (isDrawing s) (animationFrameId s) (emitted s) (S (reads s)))
  end.

Definition importDrawings (drawingsData : option (list Entry)) (s : State) : State :=
  match drawingsData with
  | None => s
  | Some records =>
      emit "drawings-imported" (ImportedPayload (length records))
        (scheduleRedraw (importEach records s))
  end.

End Importing.

End CanvasDrawingManager.

(** * Properties of the DrawingManager *)
Module ManagerFacts.

Import DrawingManager.

(** A host chart that is there and whose calls never throw, with linear
    scales, a clock that ticks and ids that differ. *)
Definition sample_id (n : nat) : DrawingId :=
  String.append "drawing_1764000000000_"
    (String (Ascii.ascii_of_nat (97 + n)) EmptyString).

Definition steady : Env :=
  mkEnv true (fun _ => false) 0 0
    (fun x => Js.Num (1700000000 + x * 900)%float)
    (fun y => Js.Num (400 - y)%float)
    true true (fun _ => 1764000000000%float) sample_id.

(** The manager as chart.js constructs it, then armed with the trend
    line tool through the bus. *)
Definition fresh_manager : State := new steady Options.empty.

Definition armed : State :=
  final (onToolSelected steady (ByName "trendline") fresh_manager).

(** One committed trend line: pointer down at (10, 300), up at (110, 290). *)
Definition one_line : State :=
  final (handleMouseUp steady (mkMouseEvent 110 290)
           (final (handleMouseDown steady (mkMouseEvent 10 300) armed))).

(** *** The drawings map *)

Lemma get_delete_other (m : DrawingMap.t) (k k' : DrawingId) :
  k <> k' -> DrawingMap.get (DrawingMap.delete m k) k' = DrawingMap.get m k'.
Proof.
  intros Hne. induction m as [|[k0 v0] m IH]; simpl; [reflexivity|].
  destruct (String.eqb k0 k) eqn:E.
  - apply String.eqb_eq in E. subst k0.
    destruct (String.eqb k k') eqn:E'; [|reflexivity].
    apply String.eqb_eq in E'. contradiction.
  - simpl. rewrite IH. reflexivity.
Qed.

Lemma get_absent (m : DrawingMap.t) (k : DrawingId) :
  ~ List.In k (DrawingMap.keys m) -> DrawingMap.get m k = None.
Proof.
  induction m as [|[k0 v0] m IH]; simpl; [reflexivity|]. intros Hn.
  destruct (String.eqb k0 k) eqn:E.
  - apply String.eqb_eq in E. tauto.
  - apply IH. tauto.
Qed.

Lemma get_delete_same (m : DrawingMap.t) (k : DrawingId) :
  List.NoDup (DrawingMap.keys m) -> DrawingMap.get (DrawingMap.delete m k) k = None.
Proof.
  induction m as [|[k0 v0] m IH]; simpl; [reflexivity|]. intros Hnd.
  apply NoDup_cons_iff in Hnd as [Hn Hnd].
  destruct (String.eqb k0 k) eqn:E.
  - apply String.eqb_eq in E. subst k0. apply get_absent, Hn.
  - simpl. rewrite E. apply IH, Hnd.
Qed.

Lemma set_absent (m : DrawingMap.t) (k : DrawingId) (v : Entry) :
  ~ List.In k (DrawingMap.keys m) -> DrawingMap.set m k v = m ++ [(k, v)].
Proof.
  induction m as [|[k0 v0] m IH]; simpl; [reflexivity|]. intros Hn.
  destruct (String.eqb k0 k) eqn:E.
  - apply String.eqb_eq in E. tauto.
  - rewrite IH by tauto. reflexivity.
Qed.

(** *** removeDrawing *)

(** C9. For an id that is not in the drawings map, removeDrawing (of
    either manager) returns with the whole state as it was: the collection and every stored
    drawing, the host, and the events emitted (none is added).  For an id
    that is in the map, on a host whose calls go through, the entry's
    primitive (when it has one) is detached from the series, then the entry
    is deleted and only that entry, the chart is repainted and
    'drawing-removed' is emitted with the id. *)
Theorem removeDrawing_absent_is_noop (env : Env) (s : State)
    (c : CanvasDrawingManager.State) (drawingId : DrawingId) :
  (DrawingMap.has (drawings s) drawingId = false ->
   removeDrawing env drawingId s = Ok tt s)
  /\ (DrawingMap.has (CanvasDrawingManager.drawings c) drawingId = false ->
      CanvasDrawingManager.removeDrawing drawingId c = c)
  /\ (DrawingMap.has (CanvasDrawingManager.drawings c) drawingId = true ->
      let c' := CanvasDrawingManager.removeDrawing drawingId c in
      CanvasDrawingManager.drawings c'
      = DrawingMap.delete (CanvasDrawingManager.drawings c) drawingId
      /\ CanvasDrawingManager.emitted c'
         = CanvasDrawingManager.emitted c ++ [("drawing-removed", RemovedPayload drawingId)])
  /\ (forall entry : Entry,
        DrawingMap.get (drawings s) drawingId = Some entry ->
        chart env = true ->
        (forall c, throws env c = false) ->
        exists s',
          removeDrawing env drawingId s = Ok tt s'
          /\ drawings s' = DrawingMap.delete (drawings s) drawingId
          /\ (forall k, k <> drawingId ->
                DrawingMap.get (drawings s') k = DrawingMap.get (drawings s) k)
          /\ (List.NoDup (DrawingMap.keys (drawings s)) ->
                DrawingMap.has (drawings s') drawingId = false)
          /\ host s'
             = host s
               ++ match primitive entry with
                  | Some p => [DetachPrimitive p]
                  | None => []
                  end
               ++ [Repaint]
          /\ emitted s' = emitted s ++ [("drawing-removed", RemovedPayload drawingId)]).
Proof.
  split; [|split; [|split]].
  - unfold DrawingMap.has, removeDrawing, bind, get. simpl.
    destruct (DrawingMap.get (drawings s) drawingId); [discriminate|reflexivity].
  - unfold CanvasDrawingManager.removeDrawing. intros H. rewrite H. reflexivity.
  - unfold CanvasDrawingManager.removeDrawing. intros H. rewrite H. split; reflexivity.
  - intros entry Hget Hchart Hok.
    unfold removeDrawing, bind, get, hostCall, modify, emit. simpl.
    rewrite Hget, Hchart. simpl.
    destruct (primitive entry) as [p|]; simpl; rewrite !Hok; simpl.
    + eexists. split; [reflexivity|]. simpl. repeat split.
      * intros k Hk. apply get_delete_other. congruence.
      * intros Hnd. unfold DrawingMap.has. rewrite get_delete_same by exact Hnd. reflexivity.
      * rewrite <- app_assoc. reflexivity.
    + eexists. split; [reflexivity|]. simpl. repeat split.
      * intros k Hk. apply get_delete_other. congruence.
      * intros Hnd. unfold DrawingMap.has. rewrite get_delete_same by exact Hnd. reflexivity.
Qed.

(** *** importDrawings *)

(** A record as exportDrawings writes it, and one whose drawing lacks
    its end anchor. *)
Definition line_record : Entry :=
  mkEntry None (Some "TrendLine") (Some ToolFacts.rising_line) None (Js.Num 1764000000000).

Definition no_end_anchor : Drawing.t :=
  Drawing.mk (Some "TrendLine")
    (Some (Point.mk (Js.Num 1700000000) (Js.Num 100) Js.Undefined Js.Undefined)) None
    Js.Undefined Drawing.NoLevels Options.empty (Js.Num 1764000000000)
    Js.Undefined None Js.Undefined Js.Undefined Js.Undefined Js.Undefined.

Definition broken_record : Entry :=
  mkEntry None (Some "TrendLine") (Some no_end_anchor) None (Js.Num 1764000000000).

Definition batch : list Entry :=
  [line_record; line_record; broken_record; line_record; line_record].

Definition empty_canvas : CanvasDrawingManager.State :=
  CanvasDrawingManager.mkState [] None false false [] 0.

(** C3, as stated, fails: of a batch of 5 records whose third lacks an
    anchor, importDrawings stores all 5, the third among them, in either
    manager; nothing is thrown. *)
Lemma import_stores_malformed_record :
  thrown (importDrawings steady (Some batch) fresh_manager) = false
  /\ DrawingMap.size (drawings (final (importDrawings steady (Some batch) fresh_manager))) = 5
  /\ DrawingMap.get (drawings (final (importDrawings steady (Some batch) fresh_manager)))
       (sample_id 2)
     = Some (withId (sample_id 2) broken_record)
  /\ DrawingMap.size
       (CanvasDrawingManager.drawings
          (CanvasDrawingManager.importDrawings steady (Some batch) empty_canvas)) = 5.
Proof. repeat split; vm_compute; reflexivity. Qed.

(** The entries an import adds: the k-th record under the k-th id
    generated from reading [n] on. *)
Fixpoint imported (env : Env) (n : nat) (records : list Entry) : DrawingMap.t :=
  match records with
  | [] => []
  | r :: rest =>
      (generateDrawingId env n, withId (generateDrawingId env n) r)
      :: imported env (S n) rest
  end.

Lemma imported_length (env : Env) (records : list Entry) :
  forall n, length (imported env n records) = length records.
Proof. induction records as [|r rest IH]; intros n; simpl; [|rewrite IH]; reflexivity. Qed.

Lemma importEach_appends (env : Env) (records : list Entry) :
  forall s : State,
    List.NoDup (DrawingMap.keys (drawings s ++ imported env (reads s) records)) ->
    exists s',
      importEach env records s = Ok tt s'
      /\ drawings s' = drawings s ++ imported env (reads s) records
      /\ emitted s' = emitted s /\ host s' = host s
      /\ navigationLocked s' = navigationLocked s.
Proof.
  induction records as [|r rest IH]; intros s Hnd; simpl.
  - exists s. rewrite app_nil_r. repeat split.
  - unfold bind, newDrawingId, modify. simpl.
    assert (Hfresh : ~ List.In (generateDrawingId env (reads s)) (DrawingMap.keys (drawings s))).
    { unfold DrawingMap.keys in *. rewrite map_app in Hnd. simpl in Hnd.
      apply NoDup_remove_2 in Hnd. intros Hin. apply Hnd, in_or_app. left. exact Hin. }
    rewrite (set_absent _ _ _ Hfresh).
    match goal with
    | |- exists s', importEach env rest ?s1 = _ /\ _ => destruct (IH s1) as (s' & Hrun & Hd & He & Hh & Hl)
    end.
    + simpl. rewrite <- app_assoc. exact Hnd.
    + exists s'. simpl in *. rewrite Hrun, Hd, He, Hh, Hl, <- app_assoc. repeat split.
Qed.

Lemma canvas_importEach_appends (env : Env) (records : list Entry) :
  forall c : CanvasDrawingManager.State,
    List.NoDup
      (DrawingMap.keys
         (CanvasDrawingManager.drawings c
          ++ imported env (CanvasDrawingManager.reads c) records)) ->
    CanvasDrawingManager.drawings (CanvasDrawingManager.importEach env records c)
    = CanvasDrawingManager.drawings c ++ imported env (CanvasDrawingManager.reads c) records
    /\ CanvasDrawingManager.emitted (CanvasDrawingManager.importEach env records c)
       = CanvasDrawingManager.emitted c.
Proof.
  induction records as [|r rest IH]; intros c Hnd; simpl.
  - rewrite app_nil_r. split; reflexivity.
  - assert (Hfresh : ~ List.In (generateDrawingId env (CanvasDrawingManager.reads c))
                       (DrawingMap.keys (CanvasDrawingManager.drawings c))).
    { unfold DrawingMap.keys in *. rewrite map_app in Hnd. simpl in Hnd.
      apply NoDup_remove_2 in Hnd. intros Hin. apply Hnd, in_or_app. left. exact Hin. }
    match goal with
    | |- CanvasDrawingManager.drawings (CanvasDrawingManager.importEach env rest ?c1) = _ /\ _ =>
        destruct (IH c1) as [Hd He]
    end.
    + simpl. rewrite (set_absent _ _ _ Hfresh), <- app_assoc. exact Hnd.
    + rewrite Hd, He. simpl. rewrite (set_absent _ _ _ Hfresh), <- app_assoc. split; reflexivity.
Qed.

(** C3, amended. importDrawings validates nothing: given an array, it
    stores every record, malformed or not, each under a newly generated id
    and after the drawings already there (the ids being new and distinct),
    repaints, and emits 'drawings-imported' with the number of records;
    given anything that is not an array it does nothing.  It throws only if
    the host's repaint does. *)
Theorem importDrawings_stores_every_record (env : Env) (s : State)
    (c : CanvasDrawingManager.State) (records : list Entry) :
  chart env = true ->
  throws env Repaint = false ->
  List.NoDup (DrawingMap.keys (drawings s ++ imported env (reads s) records)) ->
  List.NoDup
    (DrawingMap.keys
       (CanvasDrawingManager.drawings c ++ imported env (CanvasDrawingManager.reads c) records)) ->
  (exists s',
      importDrawings env (Some records) s = Ok tt s'
      /\ drawings s' = drawings s ++ imported env (reads s) records
      /\ DrawingMap.size (drawings s') = DrawingMap.size (drawings s) + length records
      /\ emitted s' = emitted s ++ [("drawings-imported", ImportedPayload (length records))])
  /\ (let c' := CanvasDrawingManager.importDrawings env (Some records) c in
      CanvasDrawingManager.drawings c'
      = CanvasDrawingManager.drawings c ++ imported env (CanvasDrawingManager.reads c) records
      /\ CanvasDrawingManager.emitted c'
         = CanvasDrawingManager.emitted c
           ++ [("drawings-imported", ImportedPayload (length records))])
  /\ importDrawings env None s = Ok tt s
  /\ CanvasDrawingManager.importDrawings env None c = c.
Proof.
  intros Hchart Hok Hnd Hndc. split; [|split; [|split; reflexivity]].
  - destruct (importEach_appends env records s Hnd) as (s1 & Hrun & Hd & He & Hh & Hl).
    unfold importDrawings, bind. rewrite Hrun.
    unfold hostCall, emit, modify. rewrite Hchart, Hok. simpl.
    eexists. split; [reflexivity|]. simpl. rewrite Hd, He.
    repeat split. unfold DrawingMap.size. rewrite length_app, imported_length. reflexivity.
  - destruct (canvas_importEach_appends env records c Hndc) as [Hd He].
    simpl. rewrite Hd, He. split; reflexivity.
Qed.

Lemma importDrawings_stores_every_record_witness :
  (exists s',
      importDrawings steady (Some batch) fresh_manager = Ok tt s'
      /\ drawings s' = drawings fresh_manager ++ imported steady (reads fresh_manager) batch
      /\ DrawingMap.size (drawings s') = DrawingMap.size (drawings fresh_manager) + length batch
      /\ emitted s'
         = emitted fresh_manager ++ [("drawings-imported", ImportedPayload (length batch))])
  /\ (let c' := CanvasDrawingManager.importDrawings steady (Some batch) empty_canvas in
      CanvasDrawingManager.drawings c'
      = CanvasDrawingManager.drawings empty_canvas
        ++ imported steady (CanvasDrawingManager.reads empty_canvas) batch
      /\ CanvasDrawingManager.emitted c'
         = CanvasDrawingManager.emitted empty_canvas
           ++ [("drawings-imported", ImportedPayload (length batch))])
  /\ importDrawings steady None fresh_manager = Ok tt fresh_manager
  /\ CanvasDrawingManager.importDrawings steady None empty_canvas = empty_canvas.
Proof.
  apply (importDrawings_stores_every_record steady fresh_manager empty_canvas batch).
  - reflexivity.
  - reflexivity.
  - vm_compute. repeat constructor; simpl; intuition discriminate.
  - vm_compute. repeat constructor; simpl; intuition discriminate.
Defined.

(** *** exportDrawings *)

(** What TrendLineTool.toJSON writes has no screen coordinate and no
    derived property. *)
Lemma toJSON_domain_only (d json : Drawing.t) :
  TrendLineTool.toJSON d = Some json ->
  Drawing.has_screen (Drawing.startPoint json) = false
  /\ Drawing.has_screen (Drawing.endPoint json) = false
  /\ Drawing.domain (Drawing.startPoint json) = Drawing.domain (Drawing.startPoint d)
  /\ Drawing.domain (Drawing.endPoint json) = Drawing.domain (Drawing.endPoint d)
  /\ ToolFacts.no_derived json.
Proof.
  unfold TrendLineTool.toJSON.
  destruct (Drawing.startPoint d) as [a|] eqn:Ha; [|discriminate].
  destruct (Drawing.endPoint d) as [b|] eqn:Hb; [|discriminate].
  intros H. injection H as <-. simpl. repeat split.
Qed.

(** C4, at the failing input: after one trend line is committed by a
    pointer gesture, the record exportDrawings returns for it carries the
    drawing data object itself, whose anchors have screenX and screenY
    (10, 300) and (110, 290) and whose derived line length is set; the
    tool's own toJSON of the same data has neither. *)
Theorem export_keeps_screen_coordinates :
  map (fun record =>
         match data record with
         | Some d =>
             (option_map (fun a => (Point.screenX a, Point.screenY a)) (Drawing.startPoint d),
              option_map (fun a => (Point.screenX a, Point.screenY a)) (Drawing.endPoint d),
              Js.truthy (Drawing.lineLength d))
         | None => (None, None, false)
         end)
      (exportDrawings one_line)
  = [(Some (Js.Num 10, Js.Num 300), Some (Js.Num 110, Js.Num 290), true)]
  /\ map (fun record =>
            match data record with
            | Some d =>
                match TrendLineTool.toJSON d with
                | Some json =>
                    Drawing.has_screen (Drawing.startPoint json)
                    || Drawing.has_screen (Drawing.endPoint json)
                    || Js.truthy (Drawing.lineLength json)
                | None => true
                end
            | None => true
            end)
         (exportDrawings one_line)
     = [false].
Proof. split; vm_compute; reflexivity. Qed.

(** *** The navigation lock *)

(** A Hoare triple for a method: from a state in [P] it returns into [Q]
    or throws into [E]. *)
Definition hoare {A : Type} (P : State -> Prop) (m : M A) (Q : A -> State -> Prop)
    (E : State -> Prop) : Prop :=
  forall s, P s ->
    match m s with
    | Ok a s' => Q a s'
    | Throw s' => E s'
    end.

Lemma hoare_bind {A B : Type} (P : State -> Prop) (R : A -> State -> Prop)
    (Q : B -> State -> Prop) (E : State -> Prop) (m : M A) (k : A -> M B) :
  hoare P m R E -> (forall a, hoare (R a) (k a) Q E) -> hoare P (bind m k) Q E.
Proof.
  intros Hm Hk s Hs. unfold bind. specialize (Hm s Hs).
  destruct (m s) as [a s'|s']; [apply Hk, Hm | exact Hm].
Qed.

(** What holds of the current state holds of the state a method reads. *)
Lemma hoare_get_bind {B : Type} (P : State -> Prop) (Q : B -> State -> Prop)
    (E : State -> Prop) (k : State -> M B) :
  (forall s0, P s0 -> hoare P (k s0) Q E) -> hoare P (bind get k) Q E.
Proof. intros Hk s Hs. unfold bind, get. apply (Hk s Hs s Hs). Qed.

Lemma hoare_final {A : Type} (P Q : State -> Prop) (E : Prop) (m : M A) (s : State) :
  hoare P m (fun _ => Q) (fun s' => E /\ Q s') -> P s -> Q (final (m s)).
Proof. intros Hm Hs. specialize (Hm s Hs). destruct (m s); simpl; tauto. Qed.

(** A method keeps an invariant, however it ends; it may throw only if
    [E]. *)
Definition keeps {A : Type} (I : State -> Prop) (E : Prop) (m : M A) : Prop :=
  hoare I m (fun _ => I) (fun s => E /\ I s).

Lemma keeps_ret {A : Type} (I : State -> Prop) (E : Prop) (a : A) : keeps I E (ret a).
Proof. intros s Hs. exact Hs. Qed.

Lemma keeps_throw {A : Type} (I : State -> Prop) : keeps I True (@throw A).
Proof. intros s Hs. split; [exact Logic.I | exact Hs]. Qed.

Lemma keeps_bind {A B : Type} (I : State -> Prop) (E : Prop) (m : M A) (k : A -> M B) :
  keeps I E m -> (forall a, keeps I E (k a)) -> keeps I E (bind m k).
Proof. intros Hm Hk. eapply hoare_bind; [exact Hm | exact Hk]. Qed.

Lemma keeps_get_bind {B : Type} (I : State -> Prop) (E : Prop) (k : State -> M B) :
  (forall s0, I s0 -> keeps I E (k s0)) -> keeps I E (bind get k).
Proof. intros Hk. apply hoare_get_bind. exact Hk. Qed.

Lemma keeps_modify (I : State -> Prop) (E : Prop) (f : State -> State) :
  (forall s, I s -> I (f s)) -> keeps I E (modify f).
Proof. intros Hf s Hs. apply Hf, Hs. Qed.

(** What a gesture is about: the flag, the lock and unlock lines on the
    console, and the tool in hand. *)
Definition lockView (s : State) : bool * nat * nat * option nat :=
  (navigationLocked s, acquisitions s, releases s, currentTool s).

(** A method that leaves all of that alone. *)
Definition neutral {A : Type} (E : Prop) (m : M A) : Prop :=
  forall v, keeps (fun s => lockView s = v) E m.

Lemma keeps_neutral {A : Type} (I : State -> Prop) (E : Prop) (m : M A) :
  (forall s s', lockView s = lockView s' -> I s -> I s') ->
  neutral E m -> keeps I E m.
Proof.
  intros HI Hm s Hs. specialize (Hm (lockView s) s eq_refl).
  destruct (m s) as [a s'|s'].
  - apply (HI s s'); [symmetry; exact Hm | exact Hs].
  - destruct Hm as [He Hm]. split; [exact He|]. apply (HI s s'); [symmetry; exact Hm | exact Hs].
Qed.

Lemma count_app (msg : string) (a b : list string) :
  count msg (a ++ b) = count msg a + count msg b.
Proof. unfold count. rewrite List.filter_app, length_app. reflexivity. Qed.

Lemma count_singleton (msg line : string) :
  count msg [line] = if String.eqb msg line then 1 else 0.
Proof. unfold count. simpl. destruct (String.eqb msg line); reflexivity. Qed.

Lemma neutral_modify (E : Prop) (f : State -> State) :
  (forall s, navigationLocked (f s) = navigationLocked s /\ console (f s) = console s
             /\ currentTool (f s) = currentTool s) ->
  neutral E (modify f).
Proof.
  intros Hf v. apply keeps_modify. intros s <-. unfold lockView, acquisitions, releases.
  destruct (Hf s) as (-> & -> & ->). reflexivity.
Qed.

Lemma neutral_log (E : Prop) (msg : string) :
  String.eqb "DrawingManager: Chart navigation locked" msg = false ->
  String.eqb "DrawingManager: Chart navigation unlocked" msg = false ->
  neutral E (log msg).
Proof.
  intros Ha Hr v. apply keeps_modify. intros s <-.
  unfold lockView, acquisitions, releases.
  cbn [navigationLocked console currentTool set_console].
  rewrite !count_app, !count_singleton, Ha, Hr, !Nat.add_0_r. reflexivity.
Qed.

Section Neutral.

(** The host chart: either nothing is assumed of it ([E] is [True]: it
    may throw), or it is there and none of its calls throws. *)
Variable env : Env.
Variable E : Prop.
Hypothesis host : E \/ (chart env = true /\ forall c, throws env c = false).

Lemma neutral_ret {A : Type} (a : A) : neutral E (ret a).
Proof. intros v. apply keeps_ret. Qed.

Lemma neutral_bind {A B : Type} (m : M A) (k : A -> M B) :
  neutral E m -> (forall a, neutral E (k a)) -> neutral E (bind m k).
Proof. intros Hm Hk v. apply keeps_bind; [apply Hm | intros a; apply Hk]. Qed.

Lemma neutral_get_bind {B : Type} (k : State -> M B) :
  (forall s0, neutral E (k s0)) -> neutral E (bind get k).
Proof. intros Hk v. apply keeps_get_bind. intros s0 _. apply Hk. Qed.

Lemma neutral_emit (name : string) (payload : Payload) : neutral E (emit name payload).
Proof. apply neutral_modify. intros s. repeat split. Qed.

Lemma neutral_hostCall (c : HostCall) : neutral E (hostCall env c).
Proof.
  intros v s <-. unfold hostCall.
  destruct host as [He|[Hc Ht]].
  - destruct (negb (chart env) || throws env c); [split; [exact He|]|]; reflexivity.
  - rewrite Hc, Ht. reflexivity.
Qed.

Lemma neutral_readClock : neutral E (readClock env).
Proof. intros v s <-. reflexivity. Qed.

Lemma neutral_newDrawingId : neutral E (newDrawingId env).
Proof. intros v s <-. reflexivity. Qed.

Lemma neutral_updateObject (ref : nat) (f : BaseTool.t -> BaseTool.t) :
  neutral E (updateObject ref f).
Proof. apply neutral_modify. intros s. repeat split. Qed.

Lemma neutral_listeners :
  neutral E addChartEventListeners /\ neutral E removeChartEventListeners.
Proof. split; apply neutral_modify; intros s; repeat split. Qed.

End Neutral.

Lemma neutral_throw {A : Type} : neutral True (@throw A).
Proof. intros v. apply keeps_throw. Qed.

Create HintDb lock discriminated.
#[local] Hint Resolve neutral_ret neutral_throw neutral_emit neutral_hostCall neutral_readClock
  neutral_newDrawingId neutral_updateObject : lock.
#[local] Hint Extern 1 (neutral _ addChartEventListeners) => apply neutral_listeners : lock.
#[local] Hint Extern 1 (neutral _ removeChartEventListeners) => apply neutral_listeners : lock.
#[local] Hint Extern 1 (neutral _ (log _)) => apply neutral_log; reflexivity : lock.

(** One step through the body of a method that leaves the lock alone. *)
Ltac neutral_step :=
  match goal with
  | |- neutral _ (bind get _) => apply neutral_get_bind; intros ?
  | |- neutral _ (bind _ _) => apply neutral_bind; [|intros ?]
  | |- neutral _ (modify _) => apply neutral_modify; intros ?; repeat split
  | |- neutral _ (log _) => apply neutral_log; reflexivity
  | |- neutral _ (if ?b then _ else _) => destruct b
  | |- neutral _ (match ?x with _ => _ end) => destruct x
  | |- neutral _ _ => solve [eauto with lock]
  end.

Section NeutralMethods.

Variable env : Env.
Variable E : Prop.
Hypothesis host : E \/ (chart env = true /\ forall c, throws env c = false).

Lemma neutral_createTrendLinePrimitive (d : Drawing.t) :
  neutral E (createTrendLinePrimitive env d).
Proof. unfold createTrendLinePrimitive. repeat neutral_step. Qed.

Lemma neutral_getToolInstance (toolName : string) : neutral E (getToolInstance env toolName).
Proof. unfold getToolInstance. repeat neutral_step. Qed.

Lemma neutral_detachAll (entries : list Entry) : neutral E (detachAll env entries).
Proof. induction entries as [|e rest IH]; simpl; repeat neutral_step. Qed.

Lemma neutral_handleMouseMove (event : MouseEvent) : neutral E (handleMouseMove env event).
Proof. unfold handleMouseMove. repeat neutral_step. Qed.

Lemma neutral_clearAllDrawings : neutral E (clearAllDrawings env).
Proof.
  unfold clearAllDrawings. repeat neutral_step. apply neutral_detachAll.
Qed.

End NeutralMethods.

#[local] Hint Resolve neutral_createTrendLinePrimitive neutral_getToolInstance
  neutral_detachAll neutral_handleMouseMove neutral_clearAllDrawings : lock.

(** The lock is free, after [n] acquisitions and [r] releases. *)
Definition unlocked (n r : nat) (s : State) : Prop :=
  navigationLocked s = false /\ acquisitions s = n /\ releases s = r.

(** The lock is held, with tool [t] in hand. *)
Definition locked (n r t : nat) (s : State) : Prop :=
  navigationLocked s = true /\ acquisitions s = n /\ releases s = r
  /\ currentTool s = Some t.

Lemma unlocked_view (n r : nat) (s s' : State) :
  lockView s = lockView s' -> unlocked n r s -> unlocked n r s'.
Proof. unfold lockView, unlocked. intros H. injection H as <- <- <- _. tauto. Qed.

Lemma locked_view (n r t : nat) (s s' : State) :
  lockView s = lockView s' -> locked n r t s -> locked n r t s'.
Proof. unfold lockView, locked. intros H. injection H as <- <- <- <-. tauto. Qed.

#[local] Hint Resolve unlocked_view locked_view : lock.

(** An invariant about the lock goes through a state change that
    touches neither the flag nor the console. *)
Ltac fields :=
  cbn [isActive currentTool drawings currentDrawing isDrawing options
       originalNavigationOptions navigationLocked tools listening cursor objects
       primitives host emitted console reads
       set_isActive set_currentTool set_drawings set_currentDrawing set_isDrawing
       set_originalNavigationOptions set_navigationLocked set_tools set_listening
       set_cursor set_objects set_primitives set_host set_emitted set_console set_reads
       final negb orb andb] in *.

Ltac frame :=
  unfold unlocked, locked, acquisitions, releases in *; fields; try tauto.

Ltac keeps_step :=
  match goal with
  | |- keeps _ _ (bind get _) => apply keeps_get_bind; intros ? ?
  | |- keeps _ _ (bind _ _) => apply keeps_bind; [|intros ?]
  | |- keeps _ _ (ret _) => apply keeps_ret
  | |- keeps _ True throw => apply keeps_throw
  | |- keeps _ _ (if ?b then _ else _) => destruct b eqn:?
  | |- keeps _ _ (match ?x with _ => _ end) => destruct x eqn:?
  | |- keeps _ _ (modify _) => apply keeps_modify; intros ? ?; solve [frame]
  | |- keeps _ _ _ => solve [eauto with lock]
  | |- keeps _ _ _ => apply keeps_neutral; [solve [eauto with lock] | solve [eauto with lock]]
  end.

Section Free.

(** Nothing is assumed of the host here. *)
Variable env : Env.
Variables n r : nat.

Lemma quiet_restoreNavigation : keeps (unlocked n r) True (restoreNavigation env).
Proof.
  unfold restoreNavigation. apply keeps_get_bind. intros s0 (Hf & _ & _).
  rewrite Hf, orb_true_r. apply keeps_ret.
Qed.

#[local] Hint Resolve quiet_restoreNavigation : lock.
#[local] Hint Extern 1 (_ \/ _) => left; exact Logic.I : lock.

Lemma quiet_setActiveTool (tool : option nat) : keeps (unlocked n r) True (setActiveTool env tool).
Proof. unfold setActiveTool. repeat keeps_step. Qed.

Lemma quiet_handleMouseUp (event : MouseEvent) :
  keeps (unlocked n r) True (handleMouseUp env event).
Proof. unfold handleMouseUp. repeat keeps_step. Qed.

Lemma quiet_handleMouseLeave : keeps (unlocked n r) True (handleMouseLeave env).
Proof. unfold handleMouseLeave, scheduleRedraw. repeat keeps_step. Qed.

Lemma quiet_destroy : keeps (unlocked n r) True (destroy env).
Proof. unfold destroy. repeat keeps_step. Qed.

#[local] Hint Resolve quiet_setActiveTool quiet_handleMouseUp quiet_handleMouseLeave
  quiet_destroy : lock.

Lemma quiet_exit (e : Exit) : keeps (unlocked n r) True (exit env e).
Proof.
  destruct e; unfold exit, deliver, handleTouchEnd, onToolSelected, onToolDeselected;
    repeat keeps_step.
Qed.

End Free.

(** A drawing that the tool in hand can finalize: it has the anchors the
    tool reads. *)
Definition anchored (tool : BaseTool.t) (d : Drawing.t) : Prop :=
  match BaseTool.class tool with
  | BaseTool.HorizontalLineTool => True
  | _ => Drawing.startPoint d <> None /\ Drawing.endPoint d <> None
  end.

Lemma startDrawing_anchored (tool : BaseTool.t) (coords : Point.t) (options : Options.t)
    (now : float) :
  anchored tool (Tool.startDrawing tool coords options now).
Proof.
  unfold anchored, Tool.startDrawing, Tool.createDrawing.
  destruct (BaseTool.class tool); simpl; try split; congruence.
Qed.

Lemma updateDrawing_anchored (tool : BaseTool.t) (d : Drawing.t) (coords : Point.t) :
  anchored tool d -> anchored tool (Tool.updateDrawing tool d coords).
Proof.
  unfold anchored, Tool.updateDrawing, Tool.updateDrawingData,
    TrendLineTool.updateDrawingData, FibRetracementTool.updateDrawingData.
  destruct (BaseTool.class tool); [|tauto|];
    intros [Hs He]; destruct (Drawing.endPoint d); simpl; try split; congruence.
Qed.

Lemma finishDrawing_anchored (tool : BaseTool.t) (d : Drawing.t) (coords : Point.t) :
  anchored tool d -> exists d', Tool.finishDrawing tool d coords = Normal d'.
Proof.
  unfold anchored, Tool.finishDrawing, Tool.finalizeDrawingData,
    TrendLineTool.finalizeDrawingData, FibRetracementTool.finalizeDrawingData,
    HorizontalLineTool.finalizeDrawingData,
    TrendLineTool.updateDrawingData, FibRetracementTool.updateDrawingData.
  destruct (BaseTool.class tool).
  - intros [Hs He]. destruct (Drawing.endPoint d) as [e|]; [|congruence]. simpl.
    destruct (Drawing.startPoint d) as [a|]; [|congruence]. eexists. reflexivity.
  - intros _. eexists. reflexivity.
  - intros [Hs He]. destruct (Drawing.endPoint d) as [e|]; [|congruence]. simpl.
    destruct (Drawing.startPoint d) as [a|]; [|congruence]. eexists. reflexivity.
Qed.

(** A gesture is under way and holds the lock. *)
Definition held (env : Env) (n r : nat) (s : State) : Prop :=
  chart env = true /\ navigationLocked s = true /\ acquisitions s = n /\ releases s = r
  /\ listening s = true /\ isDrawing s = true
  /\ exists t d, currentTool s = Some t /\ currentDrawing s = Some d
                 /\ anchored (object s t) d.

(** No pointer-down can take the lock. *)
Definition idle (env : Env) (s : State) : Prop :=
  chart env = false \/ listening s = false \/ isActive s = false \/ currentTool s = None.

Lemma held_locked (env : Env) (n r : nat) (s : State) :
  held env n r s -> exists t, locked n r t s.
Proof. intros (_ & Hl & Ha & Hr & _ & _ & t & d & Ht & _). exists t. repeat split; assumption. Qed.

Section Held.

(** The host chart is there and none of its calls throws. *)
Variable env : Env.
Hypothesis chart_there : chart env = true.
Hypothesis no_throw : forall c, throws env c = false.

Let host : False \/ (chart env = true /\ forall c, throws env c = false) :=
  or_intror (conj chart_there no_throw).

Variables n r : nat.

Lemma seq_keeps_then {A B : Type} (I : State -> Prop) (Q : B -> State -> Prop)
    (m : M A) (k : A -> M B) :
  keeps I False m -> (forall a, hoare I (k a) Q (fun _ => False)) ->
  hoare I (bind m k) Q (fun _ => False).
Proof.
  intros Hm Hk. eapply hoare_bind; [|exact Hk].
  intros s Hs. specialize (Hm s Hs). destruct (m s); tauto.
Qed.

Lemma seq_then_keeps {A B : Type} (P I : State -> Prop) (m : M A) (k : A -> M B) :
  hoare P m (fun _ => I) (fun _ => False) -> (forall a, keeps I False (k a)) ->
  hoare P (bind m k) (fun _ => I) (fun _ => False).
Proof.
  intros Hm Hk. eapply hoare_bind; [exact Hm|].
  intros a s Hs. specialize (Hk a s Hs). destruct (k a s); tauto.
Qed.

Lemma release_restoreNavigation (t : nat) :
  hoare (locked n r t) (restoreNavigation env) (fun _ => unlocked n (S r)) (fun _ => False).
Proof.
  unfold restoreNavigation. apply hoare_get_bind. intros s0 (Hl & _).
  rewrite chart_there, Hl. simpl.
  apply seq_keeps_then; [repeat keeps_step|]. intros _ s (Hs & Ha & Hr & _).
  unfold bind, modify, log, unlocked, acquisitions, releases in *. simpl.
  rewrite !count_app, !count_singleton. simpl. repeat split; lia.
Qed.

Lemma release_setActiveTool (t : nat) (tool : option nat) :
  hoare (locked n r t) (setActiveTool env tool) (fun _ => unlocked n (S r)) (fun _ => False).
Proof.
  unfold setActiveTool. apply hoare_get_bind. intros s0 (_ & _ & _ & Ht). rewrite Ht.
  apply seq_then_keeps.
  - do 2 (apply seq_keeps_then; [repeat keeps_step | intros _]).
    apply release_restoreNavigation.
  - intros _. repeat keeps_step.
Qed.

Lemma release_destroy (t : nat) :
  hoare (locked n r t) (destroy env) (fun _ => unlocked n (S r)) (fun _ => False).
Proof.
  unfold destroy. apply seq_then_keeps; [apply release_restoreNavigation|].
  intros _. repeat keeps_step.
Qed.

Lemma release_handleMouseUp (event : MouseEvent) :
  hoare (held env n r) (handleMouseUp env event) (fun _ => unlocked n (S r)) (fun _ => False).
Proof.
  intros s Hheld. destruct (held_locked _ _ _ _ Hheld) as [t Hlocked].
  destruct Hheld as (_ & _ & _ & _ & _ & Hd & t' & d & Ht & Hcd & Hanch).
  assert (t' = t) as -> by (destruct Hlocked as (_ & _ & _ & Ht'); congruence).
  unfold handleMouseUp. unfold bind at 1. unfold get at 1. rewrite Hd, Hcd, Ht.
  destruct (finishDrawing_anchored _ _ (screenToChart env event) Hanch) as [d' ->].
  match goal with
  | |- match ?body s with _ => _ end =>
      cut (hoare (locked n r t) body (fun _ => unlocked n (S r)) (fun _ => False));
        [intros T; exact (T s Hlocked)|]
  end.
  repeat (apply seq_keeps_then; [solve [repeat keeps_step] | intros ?]).
  apply seq_then_keeps; [apply release_restoreNavigation|].
  intros _. repeat keeps_step.
Qed.

Lemma release_exit (e : Exit) :
  e <> Cancel ->
  hoare (held env n r) (exit env e) (fun _ => unlocked n (S r)) (fun _ => False).
Proof.
  intros Hne s Hheld. destruct (held_locked _ _ _ _ Hheld) as [t Hlocked].
  assert (Hlis : listening s = true) by (destruct Hheld as (_ & _ & _ & _ & H & _); exact H).
  destruct e as [event|touch rest| |selection| |]; simpl.
  - unfold deliver, bind at 1, get at 1. rewrite Hlis.
    apply release_handleMouseUp, Hheld.
  - unfold deliver, bind at 1, get at 1. rewrite Hlis.
    apply release_handleMouseUp, Hheld.
  - contradiction.
  - revert s Hlocked Hheld Hlis. intros s Hlocked _ _. revert s Hlocked.
    change (hoare (locked n r t) (onToolSelected env selection)
              (fun _ => unlocked n (S r)) (fun _ => False)).
    unfold onToolSelected. destruct selection as [toolName|tool].
    + apply seq_keeps_then; [repeat keeps_step|]. intros tool. apply release_setActiveTool.
    + apply release_setActiveTool.
  - apply (release_setActiveTool t None s Hlocked).
  - apply (release_destroy t s Hlocked).
Qed.

End Held.

(** Pointer-down on a free lock either starts a gesture that holds it, or
    leaves it free in a state where no pointer-down can take it. *)
Lemma press_takes_lock (env : Env) (n r : nat) (event : MouseEvent) (s : State) :
  (forall c, throws env c = false) ->
  unlocked n r s ->
  let s1 := after (deliver (handleMouseDown env event)) s in
  held env (S n) r s1 \/ (unlocked n r s1 /\ idle env s1).
Proof.
  intros Hok (Hf & Ha & Hr).
  unfold after, deliver, handleMouseDown, disableNavigation, hostCall, readClock, emit, log,
    modify, bind, get, ret, held, unlocked, idle, acquisitions, releases in *.
  destruct (listening s) eqn:Hl; [|right; fields; tauto].
  destruct (isActive s) eqn:Hact; [|right; fields; tauto].
  destruct (currentTool s) as [t|] eqn:Ht; [|right; fields; tauto].
  fields. rewrite Hf, Hok, !orb_false_r.
  destruct (chart env) eqn:Hc; fields.
  - left. rewrite !count_app, !count_singleton. simpl String.eqb. cbv iota.
    repeat split; try assumption; try lia.
    exists t. eexists. repeat split; [exact Ht|]. apply startDrawing_anchored.
  - right. tauto.
Qed.

Lemma after_deliver_ret (s : State) : after (deliver (ret tt)) s = s.
Proof. unfold after, deliver, bind, get, ret. destruct (listening s); reflexivity. Qed.

Lemma middle_keeps_held (env : Env) (n r : nat) (m : Middle) (s : State) :
  held env n r s -> held env n r (after (middle env m) s).
Proof.
  intros H0. pose proof H0 as (Hc & Hl & Ha & Hr & Hlis & Hd & t & d & Ht & Hcd & Hanch).
  assert (Hmove : forall event, held env n r (after (deliver (handleMouseMove env event)) s)).
  { intros event.
    unfold after, deliver, handleMouseMove, updateObject, emit, modify, bind, get, ret,
      held, acquisitions, releases in *.
    rewrite Hlis, Ht, Hd, Hcd. destruct (isActive s); fields.
    - repeat split; try assumption. exists t. eexists.
      repeat split; [exact Ht|]. apply updateDrawing_anchored, Hanch.
    - repeat split; try assumption. exists t, d. repeat split; assumption. }
  destruct m as [event|touches|event]; simpl.
  - apply Hmove.
  - destruct touches as [|touch [|]].
    + rewrite after_deliver_ret. exact H0.
    + apply Hmove.
    + rewrite after_deliver_ret. exact H0.
  - unfold after, deliver, handleMouseDown, disableNavigation, hostCall, readClock, emit, log,
      modify, bind, get, ret, held, acquisitions, releases in *.
    rewrite Hlis, Ht. destruct (isActive s); fields.
    + rewrite Hl, orb_true_r. fields.
      repeat split; try assumption. exists t. eexists.
      repeat split; [exact Ht|]. apply startDrawing_anchored.
    + repeat split; try assumption. exists t, d. repeat split; assumption.
Qed.

Lemma middle_keeps_idle (env : Env) (n r : nat) (m : Middle) (s : State) :
  unlocked n r s /\ idle env s ->
  unlocked n r (after (middle env m) s) /\ idle env (after (middle env m) s).
Proof.
  intros H0. pose proof H0 as [(Hf & Ha & Hr) Hidle].
  assert (Hmove : forall event,
             unlocked n r (after (deliver (handleMouseMove env event)) s)
             /\ idle env (after (deliver (handleMouseMove env event)) s)).
  { intros event.
    unfold after, deliver, handleMouseMove, updateObject, emit, modify, bind, get, ret,
      unlocked, idle, acquisitions, releases in *.
    destruct (listening s) eqn:Hlis; [|fields; tauto].
    destruct (isActive s) eqn:Hact; [|fields; tauto].
    destruct (currentTool s) as [t|] eqn:Ht; [|fields; tauto].
    destruct (isDrawing s); [destruct (currentDrawing s)|]; fields; rewrite ?Hlis, ?Hact, ?Ht;
      tauto. }
  destruct m as [event|touches|event]; simpl.
  - apply Hmove.
  - destruct touches as [|touch [|]].
    + rewrite after_deliver_ret. exact H0.
    + apply Hmove.
    + rewrite after_deliver_ret. exact H0.
  - unfold after, deliver, handleMouseDown, disableNavigation, hostCall, readClock, emit, log,
      modify, bind, get, ret, unlocked, idle, acquisitions, releases in *.
    destruct (listening s) eqn:Hlis; [|fields; tauto].
    destruct (isActive s) eqn:Hact; [|fields; tauto].
    destruct (currentTool s) as [t|] eqn:Ht; [|fields; tauto].
    destruct Hidle as [Hc|[?|[?|?]]]; try congruence.
    fields. rewrite Hc. fields. rewrite ?Hlis, ?Hact, ?Ht. tauto.
Qed.

Lemma middles_keep_held (env : Env) (n r : nat) (middles : list Middle) :
  forall s, held env n r s ->
            held env n r (fold_left (fun s m => after (middle env m) s) middles s).
Proof.
  induction middles as [|m rest IH]; intros s Hs; simpl; [exact Hs|].
  apply IH, middle_keeps_held, Hs.
Qed.

Lemma middles_keep_idle (env : Env) (n r : nat) (middles : list Middle) :
  forall s, unlocked n r s /\ idle env s ->
            unlocked n r (fold_left (fun s m => after (middle env m) s) middles s).
Proof.
  induction middles as [|m rest IH]; intros s Hs; simpl; [apply Hs|].
  apply IH, middle_keeps_idle, Hs.
Qed.

(** The host chart of [steady], except that its repaint throws. *)
Definition repaint_throws : Env :=
  mkEnv true (fun c => match c with Repaint => true | _ => false end) 0 0
    (fun x => Js.Num (1700000000 + x * 900)%float)
    (fun y => Js.Num (400 - y)%float)
    true true (fun _ => 1764000000000%float) sample_id.

(** C1, as stated, fails: when the host's repaint throws during commit,
    handleMouseUp stops there; the drawing is stored, the gesture is still
    marked as drawing, and navigationLocked is left true. *)
Lemma repaint_throw_keeps_lock :
  navigationLocked armed = false
  /\ navigationLocked
       (gesture repaint_throws (mkMouseEvent 10 300) [Move (mkMouseEvent 60 295)]
          (Commit (mkMouseEvent 110 290)) armed) = true
  /\ DrawingMap.size
       (drawings
          (gesture repaint_throws (mkMouseEvent 10 300) [Move (mkMouseEvent 60 295)]
             (Commit (mkMouseEvent 110 290)) armed)) = 1
  /\ releases
       (gesture repaint_throws (mkMouseEvent 10 300) [Move (mkMouseEvent 60 295)]
          (Commit (mkMouseEvent 110 290)) armed) = 0.
Proof. repeat split; vm_compute; reflexivity. Qed.

(** The cancel path: handleMouseLeave calls scheduleRedraw, which this
    class does not define, before it reaches restoreNavigation; the gesture
    is discarded and the lock stays. *)
Lemma cancel_stops_before_release :
  thrown (handleMouseLeave steady
            (after (deliver (handleMouseDown steady (mkMouseEvent 10 300)))
               armed)) = true
  /\ navigationLocked
       (gesture steady (mkMouseEvent 10 300) [] Cancel armed) = true
  /\ isDrawing
       (gesture steady (mkMouseEvent 10 300) [] Cancel armed) = false.
Proof. repeat split; vm_compute; reflexivity. Qed.

(** C1, amended. On a host chart whose calls do not throw, every gesture
    that starts with the lock free (pointer-down, then any pointer moves
    and further pointer-downs) and ends by commit (pointer-up or touch end),
    by a tool being selected or deselected mid-gesture, or by destroy,
    leaves navigationLocked false; during it the lock is acquired at most
    once, and released exactly as often as it was acquired. *)
Theorem navigation_lock_released (env : Env) (s : State) (down : MouseEvent)
    (middles : list Middle) (e : Exit) :
  (forall c, throws env c = false) ->
  navigationLocked s = false ->
  e <> Cancel ->
  let s' := gesture env down middles e s in
  navigationLocked s' = false
  /\ acquisitions s' <= S (acquisitions s)
  /\ releases s' - releases s = acquisitions s' - acquisitions s
  /\ releases s <= releases s'.
Proof.
  intros Hok Hfree Hne s'. subst s'. unfold gesture.
  assert (Hs : unlocked (acquisitions s) (releases s) s) by (repeat split; assumption).
  destruct (press_takes_lock env _ _ down s Hok Hs) as [Hheld|Hidle].
  - apply (middles_keep_held _ _ _ middles) in Hheld.
    assert (Hc : chart env = true) by (destruct Hheld as (H & _); exact H).
    pose proof (release_exit env Hc Hok _ _ e Hne _ Hheld) as Hexit.
    set (mid := fold_left _ middles _) in *. unfold after.
    destruct (exit env e mid) as [[] s'|s']; [|contradiction].
    destruct Hexit as (H1 & H2 & H3). cbn [final]. rewrite H1, H2, H3.
    generalize (acquisitions s) (releases s). clear. intros a b.
    split; [reflexivity | lia].
  - apply (middles_keep_idle _ _ _ middles) in Hidle.
    pose proof (hoare_final _ _ _ _ _ (quiet_exit env _ _ e) Hidle) as (H1 & H2 & H3).
    set (mid := fold_left _ middles _) in *. unfold after.
    rewrite H1, H2, H3.
    generalize (acquisitions s) (releases s). clear. intros a b.
    split; [reflexivity | lia].
Qed.

Lemma navigation_lock_released_witness :
  let s' := gesture steady (mkMouseEvent 10 300)
              [Move (mkMouseEvent 60 295); Press (mkMouseEvent 20 300)]
              (Commit (mkMouseEvent 110 290)) armed in
  navigationLocked s' = false
  /\ acquisitions s' <= S (acquisitions armed)
  /\ releases s' - releases armed = acquisitions s' - acquisitions armed
  /\ releases armed <= releases s'.
Proof.
  apply (navigation_lock_released steady armed (mkMouseEvent 10 300)
           [Move (mkMouseEvent 60 295); Press (mkMouseEvent 20 300)]
           (Commit (mkMouseEvent 110 290))).
  - intros c. reflexivity.
  - reflexivity.
  - discriminate.
Defined.

End ManagerFacts.

(** * Properties of the page: tool selection *)
Module PageFacts.
Import DrawingManager.

(** The signal setActiveTool ends with. *)
Definition signal (s : State) (tool : option nat) : string * Payload :=
  match tool with
  | Some t => ("drawing-tool-activated", ToolPayload (BaseTool.name (object s t)))
  | None => ("drawing-tool-deactivated", NoPayload)
  end.

(** What setActiveTool leaves behind. *)
Definition switched (s : State) (tool : option nat) (s' : State) : Prop :=
  currentTool s' = tool /\
  isActive s' = Js.present tool /\
  listening s' = Js.present tool /\
  emitted s' = emitted s ++ [signal s tool] /\
  (forall t, tool = Some t -> BaseTool.isActive (object s' t) = true) /\
  (forall prior, currentTool s = Some prior -> tool <> Some prior ->
     BaseTool.isActive (object s' prior) = false).

Lemma setActiveTool_switched (env : Env) (tool : option nat) (s : State) :
  throws env UnlockNavigation = false ->
  exists s', setActiveTool env tool s = Ok tt s' /\ switched s tool s'.
Proof.
  intros Hhost. unfold setActiveTool, restoreNavigation, hostCall, updateObject,
    removeChartEventListeners, addChartEventListeners, emit, log, bind, get, modify, ret,
    switched, signal, object.
  rewrite Hhost.
  destruct (currentTool s) as [prior|] eqn:Hc; ManagerFacts.fields;
    destruct (chart env); ManagerFacts.fields;
    try (destruct (navigationLocked s); ManagerFacts.fields);
    try (destruct (originalNavigationOptions s); ManagerFacts.fields);
    destruct tool as [t|]; ManagerFacts.fields;
    eexists; (split; [reflexivity|]); ManagerFacts.fields;
    cbn [Js.present BaseTool.getName].
  all: repeat split; try congruence; intros; simplify_eq.
  all: try (destruct (decide (prior = t)) as [->|?]).
  all: repeat (rewrite lookup_insert_eq || (rewrite lookup_insert_ne by congruence)).
  all: try reflexivity.
Qed.

(** getToolInstance never throws, and leaves the active tool and the
    emitted signals as they were. *)
Lemma getToolInstance_frame (env : Env) (toolId : string) (s : State) :
  exists tool s1, getToolInstance env toolId s = Ok tool s1
    /\ currentTool s1 = currentTool s /\ emitted s1 = emitted s.
Proof.
  unfold getToolInstance, log, bind, get, modify, ret.
  destruct (String.eqb toolId ""); [eauto|].
  destruct (Options.over _ _); [eauto|].
  destruct (_ && _); eexists; eexists; (split; [reflexivity|]); split; reflexivity.
Qed.

Definition managerOf (h : Page.Heap) : State := Page.manager (EventBus.app h).
Definition toolbarOf (h : Page.Heap) : Toolbar.State := Page.toolbar (EventBus.app h).

(** Who listens to the two selection events on the page. *)
Lemma wired_deselected :
  EventBus.events Page.wired !! "drawing-tool-deselected"
  = Some [EventBus.mkListener Page.manager_tool_deselected false 0 None].
Proof. vm_compute. reflexivity. Qed.

Lemma wired_selected :
  EventBus.events Page.wired !! "drawing-tool-selected"
  = Some [EventBus.mkListener Page.manager_tool_selected false 0 None;
          EventBus.mkListener Page.toolbar_tool_selected false 0 None].
Proof. vm_compute. reflexivity. Qed.

(** The page after the 'drawing-tool-deselected' event. *)
Lemma emit_deselected (parsed : string -> Toolbar.Selected) (env : Env) (h : Page.Heap) :
  EventBus.bus h = Page.wired ->
  throws env UnlockNavigation = false ->
  exists s',
    setActiveTool env None (managerOf h) = Ok tt s'
    /\ EventBus.heap
         (EventBus.emit (Page.call parsed env) "drawing-tool-deselected" Page.NoData false h)
       = Page.withManager h s'.
Proof.
  intros Hbus Hhost.
  destruct (setActiveTool_switched env None (managerOf h) Hhost) as (s' & Hrun & _).
  exists s'. split; [exact Hrun|].
  unfold EventBus.emit. rewrite Hbus, wired_deselected.
  unfold EventBus.forEach, EventBus.executeListener. cbn [fold_left EventBus.callback EventBus.once EventBus.heap EventBus.context].
  unfold Page.manager_tool_deselected, Page.call, Page.inManager, onToolDeselected.
  unfold managerOf in Hrun. rewrite Hrun. reflexivity.
Qed.

(** The page after the 'drawing-tool-selected' event with a tool id: the
    manager's listener runs first, then the toolbar's, whose throw the bus
    catches. *)
Lemma emit_selected (parsed : string -> Toolbar.Selected) (env : Env) (h : Page.Heap)
    (toolId : string) :
  EventBus.bus h = Page.wired ->
  throws env UnlockNavigation = false ->
  exists tool resolved s',
    getToolInstance env toolId (managerOf h) = Ok tool resolved
    /\ setActiveTool env tool resolved = Ok tt s'
    /\ EventBus.heap
         (EventBus.emit (Page.call parsed env) "drawing-tool-selected" (Page.ToolId toolId)
            false h)
       = Page.withToolbar (Page.withManager h s')
           (completed (Toolbar.updateActiveTool parsed (Some toolId) (toolbarOf h))).
Proof.
  intros Hbus Hhost.
  destruct (getToolInstance_frame env toolId (managerOf h)) as (tool & resolved & Hget & _).
  destruct (setActiveTool_switched env tool resolved Hhost) as (s' & Hrun & _).
  exists tool, resolved, s'. split; [exact Hget|]. split; [exact Hrun|].
  unfold EventBus.emit. rewrite Hbus, wired_selected.
  unfold EventBus.forEach, EventBus.executeListener.
  cbn [fold_left EventBus.callback EventBus.once EventBus.heap EventBus.context].
  unfold Page.manager_tool_selected, Page.toolbar_tool_selected.
  cbn [Page.call Page.selection].
  unfold Page.inManager, onToolSelected, bind.
  unfold managerOf in Hget. rewrite Hget, Hrun.
  cbn [EventBus.heap EventBus.once Page.toolIdOf].
  unfold Page.inToolbar, toolbarOf. cbn [Page.withManager EventBus.app Page.toolbar].
  destruct (Toolbar.updateActiveTool parsed (Some toolId) (Page.toolbar (EventBus.app h)));
    reflexivity.
Qed.

(** The text of an id without a quote, a backslash or a line break is a
    selector: looking for its button does not throw. *)
Lemma plain_id_is_looked_up (parsed : string -> Toolbar.Selected) (toolId : string) :
  Toolbar.plain toolId = true ->
  Toolbar.buttonOf parsed (Some toolId) <> Toolbar.SyntaxError.
Proof.
  intros Hplain. unfold Toolbar.buttonOf, Toolbar.querySelector. rewrite Hplain.
  destruct (String.eqb toolId ""); congruence.
Qed.

(** The toggle is the toolbar's: setActiveTool itself, handed the tool that
    is already current, deactivates it and activates it again. *)
Lemma setActiveTool_same_tool_rearms :
  currentTool ManagerFacts.armed = Some 0
  /\ currentTool (final (setActiveTool ManagerFacts.steady (Some 0) ManagerFacts.armed)) = Some 0
  /\ isActive (final (setActiveTool ManagerFacts.steady (Some 0) ManagerFacts.armed)) = true
  /\ emitted (final (setActiveTool ManagerFacts.steady (Some 0) ManagerFacts.armed))
     = [("drawing-tool-activated", ToolPayload "TrendLine");
        ("drawing-tool-activated", ToolPayload "TrendLine")].
Proof. repeat split; vm_compute; reflexivity. Qed.

(** A document, as far as the pages below ask it: the text made of an id
    with a stray quote is no selector. *)
Definition strict (toolId : string) : Toolbar.Selected := Toolbar.SyntaxError.

(** The page of [ManagerFacts.steady] with the trend line tool selected
    from the toolbar. *)
Definition trendline_selected : Page.Heap :=
  completed (Page.selectTool strict ManagerFacts.steady "trendline"
               (Page.start ManagerFacts.steady)).

(** C5, as stated, fails: with the trend line tool active, selecting the
    toolbar's 'horizontal' tool deactivates the trend line tool and
    activates nothing; the manager is idle and has emitted the
    deactivation signal, while the toolbar shows 'horizontal'. *)
Lemma unregistered_tool_is_not_activated :
  currentTool (managerOf trendline_selected) = Some 0
  /\ BaseTool.isActive (object (managerOf trendline_selected) 0) = true
  /\ threw (Page.selectTool strict ManagerFacts.steady "horizontal" trendline_selected) = false
  /\ Toolbar.currentTool
       (toolbarOf
          (completed (Page.selectTool strict ManagerFacts.steady "horizontal" trendline_selected)))
     = Some "horizontal"
  /\ currentTool
       (managerOf
          (completed (Page.selectTool strict ManagerFacts.steady "horizontal" trendline_selected)))
     = None
  /\ isActive
       (managerOf
          (completed (Page.selectTool strict ManagerFacts.steady "horizontal" trendline_selected)))
     = false
  /\ BaseTool.isActive
       (object
          (managerOf
             (completed
                (Page.selectTool strict ManagerFacts.steady "horizontal" trendline_selected)))
          0)
     = false
  /\ emitted
       (managerOf
          (completed (Page.selectTool strict ManagerFacts.steady "horizontal" trendline_selected)))
     = [("drawing-tool-activated", ToolPayload "TrendLine");
        ("drawing-tool-deactivated", NoPayload)].
Proof. repeat split; vm_compute; reflexivity. Qed.

(** C5 (amended): on the page, with a host whose unlock does not throw,
    Toolbar.selectTool of the toolbar's current tool returns and leaves the
    manager idle (no current tool, inactive, not listening, the prior tool
    deactivated, 'drawing-tool-deactivated' emitted) and the toolbar
    without a current tool.  selectTool of any other id whose button
    querySelector can look for without a SyntaxError returns and hands the
    manager whatever getToolInstance resolves the id to: the prior tool is
    deactivated, a resolved tool becomes the current tool, is activated and
    'drawing-tool-activated' is emitted with its name, and an id that does
    not resolve leaves the manager idle.  Where that lookup throws,
    selectTool throws before the event is emitted: the manager is as it
    was, prior tool included, while the toolbar has stored the id and
    cleared its buttons.  The lookup does not throw for an id without a
    quote, a backslash or a line break. *)
Theorem toolbar_selection_toggles_or_switches (parsed : string -> Toolbar.Selected)
    (env : Env) (h : Page.Heap) (toolId : string) :
  EventBus.bus h = Page.wired ->
  throws env UnlockNavigation = false ->
  (Toolbar.currentTool (toolbarOf h) = Some toolId ->
   exists h',
     Page.selectTool parsed env toolId h = Normal h'
     /\ switched (managerOf h) None (managerOf h')
     /\ Toolbar.currentTool (toolbarOf h') = None
     /\ Toolbar.activeButton (toolbarOf h') = None)
  /\ (Toolbar.currentTool (toolbarOf h) <> Some toolId ->
      Toolbar.buttonOf parsed (Some toolId) <> Toolbar.SyntaxError ->
      exists h' tool resolved,
        Page.selectTool parsed env toolId h = Normal h'
        /\ getToolInstance env toolId (managerOf h) = Ok tool resolved
        /\ currentTool resolved = currentTool (managerOf h)
        /\ emitted resolved = emitted (managerOf h)
        /\ switched resolved tool (managerOf h')
        /\ Toolbar.currentTool (toolbarOf h') = Some toolId)
  /\ (Toolbar.currentTool (toolbarOf h) <> Some toolId ->
      Toolbar.buttonOf parsed (Some toolId) = Toolbar.SyntaxError ->
      exists h',
        Page.selectTool parsed env toolId h = Abrupt h'
        /\ managerOf h' = managerOf h
        /\ Toolbar.currentTool (toolbarOf h') = Some toolId
        /\ Toolbar.activeButton (toolbarOf h') = None)
  /\ (Toolbar.plain toolId = true ->
      Toolbar.buttonOf parsed (Some toolId) <> Toolbar.SyntaxError).
Proof.
  intros Hbus Hhost.
  assert (Hother : Toolbar.currentTool (toolbarOf h) <> Some toolId ->
                   Page.selectTool parsed env toolId h = Page.selectOther parsed env toolId h).
  { intros Hcur. unfold Page.selectTool. fold (toolbarOf h).
    destruct (Toolbar.currentTool (toolbarOf h)) as [current|]; [|reflexivity].
    destruct (String.eqb current toolId) eqn:E; [|reflexivity].
    apply String.eqb_eq in E. congruence. }
  split; [|split; [|split]].
  - intros Hcur. unfold Page.selectTool. fold (toolbarOf h). rewrite Hcur, String.eqb_refl.
    unfold Page.inToolbar, Toolbar.deselectAllTools, Toolbar.updateActiveTool.
    cbn [Toolbar.buttonOf]. cbv zeta.
    set (h1 := Page.withToolbar h _).
    destruct (emit_deselected parsed env h1 Hbus Hhost) as (s' & Hrun & ->).
    destruct (setActiveTool_switched env None (managerOf h1) Hhost) as (s'' & Hrun' & Hsw).
    assert (s'' = s') as -> by congruence.
    eexists. split; [reflexivity|]. split; [exact Hsw|]. split; reflexivity.
  - intros Hcur Hfound. rewrite (Hother Hcur).
    unfold Page.selectOther, Page.inToolbar, Toolbar.updateActiveTool. cbv zeta.
    cbn [Page.withToolbar EventBus.app Page.toolbar].
    destruct (Toolbar.buttonOf parsed (Some toolId)) as [button|] eqn:Hb; [|congruence].
    set (h2 := Page.withToolbar (Page.withToolbar h _) _).
    destruct (emit_selected parsed env h2 toolId Hbus Hhost)
      as (tool & resolved & s' & Hget & Hrun & Hheap).
    destruct (getToolInstance_frame env toolId (managerOf h2))
      as (tool' & resolved' & Hget' & Hcur' & Hem').
    assert (tool' = tool /\ resolved' = resolved) as [-> ->]
      by (split; congruence).
    destruct (setActiveTool_switched env tool resolved Hhost) as (s'' & Hrun' & Hsw).
    assert (s'' = s') as -> by congruence.
    eexists. exists tool, resolved. split; [reflexivity|]. rewrite Hheap.
    split; [exact Hget|]. split; [exact Hcur'|].
    split; [exact Hem'|]. split; [exact Hsw|].
    unfold Toolbar.updateActiveTool. rewrite Hb. reflexivity.
  - intros Hcur Hthrows. rewrite (Hother Hcur).
    unfold Page.selectOther, Page.inToolbar, Toolbar.updateActiveTool. cbv zeta.
    rewrite Hthrows. eexists. split; [reflexivity|]. repeat split.
  - apply plain_id_is_looked_up.
Qed.

(** The toolbar's 'horizontal' selected after the trend line: the manager
    is idle. *)
Definition horizontal_selected : Page.Heap :=
  completed (Page.selectTool strict ManagerFacts.steady "horizontal" trendline_selected).

(** An id with a stray quote in it. *)
Definition stray_quote : string := String "a" (String "034" (String "b" EmptyString)).

Lemma toolbar_selection_toggles_or_switches_witness :
  (exists h',
     Page.selectTool strict ManagerFacts.steady "trendline" trendline_selected = Normal h'
     /\ switched (managerOf trendline_selected) None (managerOf h')
     /\ Toolbar.currentTool (toolbarOf h') = None
     /\ Toolbar.activeButton (toolbarOf h') = None)
  /\ (exists h' tool resolved,
        Page.selectTool strict ManagerFacts.steady "trendline" horizontal_selected = Normal h'
        /\ getToolInstance ManagerFacts.steady "trendline" (managerOf horizontal_selected)
           = Ok tool resolved
        /\ currentTool resolved = currentTool (managerOf horizontal_selected)
        /\ emitted resolved = emitted (managerOf horizontal_selected)
        /\ switched resolved tool (managerOf h')
        /\ Toolbar.currentTool (toolbarOf h') = Some "trendline")
  /\ (exists h',
        Page.selectTool strict ManagerFacts.steady stray_quote trendline_selected = Abrupt h'
        /\ managerOf h' = managerOf trendline_selected
        /\ Toolbar.currentTool (toolbarOf h') = Some stray_quote
        /\ Toolbar.activeButton (toolbarOf h') = None).
Proof.
  split; [|split].
  - apply (toolbar_selection_toggles_or_switches strict ManagerFacts.steady trendline_selected
             "trendline").
    + vm_compute; reflexivity.
    + reflexivity.
    + vm_compute; reflexivity.
  - apply (toolbar_selection_toggles_or_switches strict ManagerFacts.steady horizontal_selected
             "trendline").
    + vm_compute; reflexivity.
    + reflexivity.
    + vm_compute; congruence.
    + vm_compute; congruence.
  - apply (toolbar_selection_toggles_or_switches strict ManagerFacts.steady trendline_selected
             stray_quote).
    + vm_compute; reflexivity.
    + reflexivity.
    + vm_compute; congruence.
    + vm_compute; reflexivity.
Defined.

End PageFacts.

(** * Properties of the EventBus: subscriptions *)
Module SubscriptionFacts.
Import EventBus.

(** The listeners of an event, in call order. *)
Definition listeners (this : t) (eventName : string) : list Listener :=
  default [] (events this !! eventName).

(** Call order is by non-increasing priority. *)
Definition ordered (ls : list Listener) : Prop :=
  StronglySorted (fun a b => (priority b <= priority a)%Z) ls.

Lemma insert_by_priority_length (l : Listener) (ls : list Listener) :
  length (insert_by_priority l ls) = S (length ls).
Proof.
  induction ls as [|x xs IH]; simpl; [reflexivity|].
  destruct (priority x <=? priority l)%Z; simpl; [reflexivity | rewrite IH; reflexivity].
Qed.

Lemma sort_length (ls : list Listener) : length (sort ls) = length ls.
Proof.
  induction ls as [|x xs IH]; simpl; [reflexivity|].
  rewrite insert_by_priority_length, IH. reflexivity.
Qed.

Lemma sort_snoc (l : Listener) (ls : list Listener) :
  sort (ls ++ [l]) = fold_right insert_by_priority [l] ls.
Proof. unfold sort. rewrite fold_right_app. reflexivity. Qed.

(** Where a new listener lands among ordered ones. *)
Definition placed (l : Listener) (ls : list Listener) : list Listener :=
  List.filter (fun x => (priority l <=? priority x)%Z) ls
  ++ l :: List.filter (fun x => (priority x <? priority l)%Z) ls.

Lemma filter_all {A : Type} (f : A -> bool) (xs : list A) :
  Forall (fun x => f x = true) xs -> List.filter f xs = xs.
Proof.
  induction 1 as [|x xs Hx _ IH]; simpl; [reflexivity|]. rewrite Hx, IH. reflexivity.
Qed.

Lemma filter_none {A : Type} (f : A -> bool) (xs : list A) :
  Forall (fun x => f x = false) xs -> List.filter f xs = [].
Proof.
  induction 1 as [|x xs Hx _ IH]; simpl; [reflexivity|]. rewrite Hx, IH. reflexivity.
Qed.

Lemma insert_ordered (l : Listener) (ls : list Listener) :
  ordered ls -> fold_right insert_by_priority [l] ls = placed l ls.
Proof.
  unfold placed. induction 1 as [|x xs Hs IH Hx]; [reflexivity|].
  cbn [fold_right]. rewrite IH. cbn [List.filter].
  destruct (priority l <=? priority x)%Z eqn:Hle.
  - assert ((priority x <? priority l)%Z = false) as -> by lia.
    simpl.
    destruct (List.filter (fun y => (priority l <=? priority y)%Z) xs) as [|y ys] eqn:Hf.
    + simpl. rewrite Hle. reflexivity.
    + simpl.
      assert (List.In y xs) as Hin.
      { apply (proj1 (filter_In (fun y => (priority l <=? priority y)%Z) y xs)).
        rewrite Hf. left. reflexivity. }
      rewrite List.Forall_forall in Hx. specialize (Hx y Hin).
      assert ((priority y <=? priority x)%Z = true) as -> by lia. reflexivity.
  - assert ((priority x <? priority l)%Z = true) as -> by lia.
    assert (Forall (fun y => (priority l <=? priority y)%Z = false) xs) as Hnone.
    { rewrite List.Forall_forall in *. intros y Hy. specialize (Hx y Hy). lia. }
    assert (Forall (fun y => (priority y <? priority l)%Z = true) xs) as Hall.
    { rewrite List.Forall_forall in *. intros y Hy. specialize (Hx y Hy). lia. }
    rewrite (filter_none _ _ Hnone), (filter_all _ _ Hall).
    simpl. rewrite Hle.
    destruct xs as [|y ys]; [reflexivity|].
    simpl.
    assert ((priority y <=? priority x)%Z = true) as ->.
    { inversion Hx; subst. lia. }
    reflexivity.
Qed.

Lemma placed_ordered (l : Listener) (ls : list Listener) :
  ordered ls -> ordered (placed l ls).
Proof.
  unfold placed, ordered. induction 1 as [|x xs Hs IH Hx]; simpl.
  - repeat constructor.
  - destruct (priority l <=? priority x)%Z eqn:Hle.
    + assert ((priority x <? priority l)%Z = false) as -> by lia.
      simpl. constructor; [exact IH|].
      rewrite List.Forall_forall in *. intros y Hy.
      apply in_app_or in Hy. destruct Hy as [Hy|[<-|Hy]].
      * apply filter_In in Hy. apply Hx, Hy.
      * lia.
      * apply filter_In in Hy. apply Hx, Hy.
    + assert ((priority x <? priority l)%Z = true) as -> by lia.
      assert (Forall (fun y => (priority l <=? priority y)%Z = false) xs) as Hnone.
      { rewrite List.Forall_forall in *. intros y Hy. specialize (Hx y Hy). lia. }
      rewrite (filter_none _ _ Hnone) in *. simpl in *.
      inversion IH as [|? ? Hs' Hl]; subst.
      constructor.
      * constructor; [exact Hs'|].
        rewrite List.Forall_forall in *. intros y Hy. apply filter_In in Hy. apply Hx, Hy.
      * constructor; [lia|]. exact Hl.
Qed.

Lemma listeners_on (this : t) (e : string) (cb : nat) (o : bool) (p : Z) (c : option nat)
    (e' : string) :
  listeners (on this e cb o p c) e'
  = if String.eqb e e' then sort (listeners this e ++ [mkListener cb o p c])
    else listeners this e'.
Proof.
  unfold listeners, on. cbn [events set_events].
  destruct (String.eqb e e') eqn:E.
  - apply String.eqb_eq in E. subst. rewrite lookup_insert_eq. reflexivity.
  - apply String.eqb_neq in E. rewrite lookup_insert_ne by exact E. reflexivity.
Qed.

Lemma listeners_off (this : t) (e : string) (cb : nat) (e' : string) :
  listeners (snd (off this e cb)) e'
  = if String.eqb e e'
    then match remove_first cb (listeners this e) with
         | Some rest => rest
         | None => listeners this e
         end
    else listeners this e'.
Proof.
  unfold listeners, off.
  destruct (String.eqb e e') eqn:E.
  - apply String.eqb_eq in E. subst e'.
    destruct (events this !! e) as [ls|] eqn:Hl; simpl; [|rewrite Hl; reflexivity].
    destruct (remove_first cb ls) as [[|r rest]|]; simpl.
    + rewrite lookup_delete_eq. reflexivity.
    + rewrite lookup_insert_eq. reflexivity.
    + rewrite Hl. reflexivity.
  - apply String.eqb_neq in E.
    destruct (events this !! e) as [ls|] eqn:Hl; simpl; [|reflexivity].
    destruct (remove_first cb ls) as [[|r rest]|]; simpl.
    + rewrite lookup_delete_ne by exact E. reflexivity.
    + rewrite lookup_insert_ne by exact E. reflexivity.
    + reflexivity.
Qed.

Lemma remove_first_found (cb : nat) (l1 : list Listener) (x : Listener) (l2 : list Listener) :
  Forall (fun y => callback y <> cb) l1 -> callback x = cb ->
  remove_first cb (l1 ++ x :: l2) = Some (l1 ++ l2).
Proof.
  intros H1 Hx. induction H1 as [|y ys Hy _ IH]; simpl.
  - rewrite Hx, Nat.eqb_refl. reflexivity.
  - apply Nat.eqb_neq in Hy. rewrite Hy, IH. reflexivity.
Qed.

Lemma remove_first_cases (cb : nat) (ls : list Listener) :
  match remove_first cb ls with
  | Some rest =>
      exists l1 x l2, ls = l1 ++ x :: l2 /\ callback x = cb
                      /\ Forall (fun y => callback y <> cb) l1 /\ rest = l1 ++ l2
  | None => Forall (fun y => callback y <> cb) ls
  end.
Proof.
  induction ls as [|y ys IH]; simpl; [constructor|].
  destruct (Nat.eqb (callback y) cb) eqn:E.
  - apply Nat.eqb_eq in E. exists [], y, ys. repeat split; [exact E | constructor].
  - apply Nat.eqb_neq in E. destruct (remove_first cb ys) as [rest|].
    + destruct IH as (l1 & x & l2 & -> & Hx & H1 & ->).
      exists (y :: l1), x, l2. repeat split; [exact Hx | constructor; assumption].
    + constructor; assumption.
Qed.

Lemma partition_ordered (p : Z) (ls : list Listener) :
  ordered ls ->
  List.filter (fun x => (p <=? priority x)%Z) ls
  ++ List.filter (fun x => (priority x <? p)%Z) ls = ls.
Proof.
  induction 1 as [|x xs Hs IH Hx]; simpl; [reflexivity|].
  destruct (p <=? priority x)%Z eqn:Hle.
  - assert ((priority x <? p)%Z = false) as -> by lia. simpl. rewrite IH. reflexivity.
  - assert ((priority x <? p)%Z = true) as -> by lia.
    assert (Forall (fun y => (p <=? priority y)%Z = false) xs) as Hnone.
    { rewrite List.Forall_forall in *. intros y Hy. specialize (Hx y Hy). lia. }
    assert (Forall (fun y => (priority y <? p)%Z = true) xs) as Hall.
    { rewrite List.Forall_forall in *. intros y Hy. specialize (Hx y Hy). lia. }
    rewrite (filter_none _ _ Hnone), (filter_all _ _ Hall). reflexivity.
Qed.

(** ** Subscribing *)

(** X1. A new listener is called after every listener of higher or equal
    priority and before every listener of lower priority; the call order
    stays by priority, and the other events keep their listeners. *)
Theorem on_orders_by_priority (this : t) (e : string) (cb : nat) (o : bool) (p : Z)
    (c : option nat) :
  ordered (listeners this e) ->
  listeners (on this e cb o p c) e
  = List.filter (fun x => (p <=? priority x)%Z) (listeners this e)
    ++ mkListener cb o p c :: List.filter (fun x => (priority x <? p)%Z) (listeners this e)
  /\ ordered (listeners (on this e cb o p c) e)
  /\ (forall e', e' <> e -> listeners (on this e cb o p c) e' = listeners this e').
Proof.
  intros Hord. rewrite listeners_on, String.eqb_refl, sort_snoc, (insert_ordered _ _ Hord).
  split; [reflexivity|]. split.
  - apply (placed_ordered _ _ Hord).
  - intros e' Hne. rewrite listeners_on.
    destruct (String.eqb e e') eqn:E; [|reflexivity].
    apply String.eqb_eq in E. congruence.
Qed.

(** A bus with one listener of priority 0 and one of priority 5 on
    "tick". *)
Definition two_listeners : t := on (on new "tick" 1 false 0 None) "tick" 2 false 5 None.

Lemma on_orders_by_priority_witness :
  listeners (on two_listeners "tick" 3 true 5 None) "tick"
  = List.filter (fun x => (5 <=? priority x)%Z) (listeners two_listeners "tick")
    ++ mkListener 3 true 5 None
       :: List.filter (fun x => (priority x <? 5)%Z) (listeners two_listeners "tick")
  /\ ordered (listeners (on two_listeners "tick" 3 true 5 None) "tick")
  /\ (forall e', e' <> "tick" ->
        listeners (on two_listeners "tick" 3 true 5 None) e' = listeners two_listeners e').
Proof.
  apply (on_orders_by_priority two_listeners "tick" 3 true 5 None).
  unfold ordered. vm_compute. repeat constructor; discriminate.
Defined.

(** X2. on never turns a subscription down: the event has one listener more,
    whatever maxListeners is, and no other event is touched. *)
Theorem on_never_refuses (this : t) (e : string) (cb : nat) (o : bool) (p : Z)
    (c : option nat) :
  getListenerCount (on this e cb o p c) e = S (getListenerCount this e)
  /\ List.In (mkListener cb o p c) (listeners (on this e cb o p c) e)
  /\ maxListeners (on this e cb o p c) = maxListeners this
  /\ (forall e', e' <> e -> events (on this e cb o p c) !! e' = events this !! e').
Proof.
  split; [|split; [|split]].
  - unfold getListenerCount, on. cbn [events set_events]. rewrite lookup_insert_eq.
    rewrite sort_length, length_app. simpl.
    destruct (events this !! e); simpl; lia.
  - rewrite listeners_on, String.eqb_refl, sort_snoc.
    induction (listeners this e) as [|x xs IH]; simpl; [left; reflexivity|].
    revert IH. generalize (foldr insert_by_priority [mkListener cb o p c] xs). intros ys.
    induction ys as [|y ys IHy]; simpl; [intros []|].
    intros [<-|Hin]; destruct (priority y <=? priority x)%Z; simpl; auto.
  - reflexivity.
  - intros e' Hne. unfold on. cbn [events set_events].
    rewrite lookup_insert_ne by congruence. reflexivity.
Qed.

(** X3. off removes the first subscription of the callback in call order and
    only that one; removing the last listener removes the event; without a
    subscription of the callback it answers false and changes nothing. *)
Theorem off_removes_first_subscription (this : t) (e : string) (cb : nat) :
  (fst (off this e cb) = true ->
   exists l1 x l2,
     listeners this e = l1 ++ x :: l2 /\ callback x = cb
     /\ Forall (fun y => callback y <> cb) l1
     /\ listeners (snd (off this e cb)) e = l1 ++ l2
     /\ (l1 ++ l2 = [] -> events (snd (off this e cb)) !! e = None))
  /\ (fst (off this e cb) = false ->
      snd (off this e cb) = this /\ Forall (fun y => callback y <> cb) (listeners this e))
  /\ (forall e', e' <> e -> listeners (snd (off this e cb)) e' = listeners this e').
Proof.
  split; [|split].
  - intros Hfst. rewrite listeners_off, String.eqb_refl.
    unfold off, listeners in *.
    destruct (events this !! e) as [ls|] eqn:Hl; simpl in *; [|discriminate].
    pose proof (remove_first_cases cb ls) as Hcases.
    destruct (remove_first cb ls) as [rest|]; [|destruct (events this !! e); discriminate].
    destruct Hcases as (l1 & x & l2 & -> & Hx & H1 & ->).
    exists l1, x, l2. repeat split; try assumption.
    intros Hnil. rewrite Hnil. simpl. apply lookup_delete_eq.
  - intros Hfst. unfold off, listeners in *.
    destruct (events this !! e) as [ls|] eqn:Hl; simpl in *; [|split; [reflexivity|constructor]].
    pose proof (remove_first_cases cb ls) as Hcases.
    destruct (remove_first cb ls) as [[|r rest]|]; simpl in *; try discriminate.
    split; [reflexivity | exact Hcases].
  - intros e' Hne. rewrite listeners_off.
    destruct (String.eqb e e') eqn:E; [|reflexivity].
    apply String.eqb_eq in E. congruence.
Qed.

(** X4. Subscribing a callback the event does not have yet and unsubscribing
    it again gives the bus back. *)
Theorem on_then_off_restores (this : t) (e : string) (cb : nat) (o : bool) (p : Z)
    (c : option nat) :
  ordered (listeners this e) ->
  Forall (fun l => callback l <> cb) (listeners this e) ->
  events this !! e <> Some [] ->
  off (on this e cb o p c) e cb = (true, this).
Proof.
  intros Hord Hcb Hne.
  assert (remove_first cb (sort (listeners this e ++ [mkListener cb o p c]))
          = Some (listeners this e)) as Hrm.
  { rewrite sort_snoc, (insert_ordered _ _ Hord). unfold placed.
    rewrite remove_first_found.
    - cbn [priority]. rewrite (partition_ordered _ _ Hord). reflexivity.
    - rewrite List.Forall_forall in *. intros y Hy. apply filter_In in Hy. apply Hcb, Hy.
    - reflexivity. }
  unfold off, on. cbn [events set_events]. rewrite lookup_insert_eq.
  change (default [] (events this !! e)) with (listeners this e). rewrite Hrm.
  destruct this as [ev mx dbg]. unfold listeners in *.
  cbn [events maxListeners debugMode set_events] in *.
  destruct (ev !! e) as [[|l ls]|] eqn:Hl; simpl; [congruence| |].
  - rewrite insert_insert_eq. rewrite (insert_id ev e (l :: ls) Hl). reflexivity.
  - rewrite delete_insert_eq. rewrite (delete_id ev e Hl). reflexivity.
Qed.

Lemma on_then_off_restores_witness :
  off (on two_listeners "tick" 3 true 5 None) "tick" 3 = (true, two_listeners).
Proof.
  apply (on_then_off_restores two_listeners "tick" 3 true 5 None).
  - unfold ordered. vm_compute. repeat constructor; discriminate.
  - vm_compute. repeat constructor; discriminate.
  - vm_compute. discriminate.
Defined.

(** ** Once listeners *)

Section Once.

Context {Data App : Type}.
Variable call : nat -> option nat -> Data -> string -> Heap Data App -> completion (Heap Data App).

(** The called listeners that stay subscribed: those not subscribed with
    once, and those whose callback threw. *)
Definition survivors (cs : list (Listener * bool)) : list Listener :=
  map fst (List.filter (fun c => negb (once (fst c)) || snd c) cs).

Lemma survivors_snoc (cs : list (Listener * bool)) (l : Listener) (b : bool) :
  survivors (cs ++ [(l, b)])
  = survivors cs ++ (if negb (once l) || b then [l] else []).
Proof.
  unfold survivors. rewrite List.filter_app, map_app. simpl.
  destruct (negb (once l) || b); reflexivity.
Qed.

Lemma forEach_survivors (e : string) (data : Data) (ls : list Listener) :
  (forall cb ctx d n h, bus (completed (call cb ctx d n h)) = bus h) ->
  forall acc : Emitted Data App,
    listeners (bus (heap acc)) e = survivors (calls acc) ++ ls ->
    List.NoDup (map callback (survivors (calls acc) ++ ls)) ->
    listeners (bus (heap (forEach call e data ls acc))) e
    = survivors (calls (forEach call e data ls acc))
    /\ (forall e', e' <> e ->
          listeners (bus (heap (forEach call e data ls acc))) e'
          = listeners (bus (heap acc)) e').
Proof.
  intros Hbus. induction ls as [|l ls IH]; intros acc Hls Hnd.
  - simpl. rewrite app_nil_r in Hls. split; [exact Hls | reflexivity].
  - unfold forEach in *. cbn [fold_left].
    set (acc' := executeListener call e data l acc).
    assert (Hcalls : calls acc'
                     = calls acc ++ [(l, threw (call (callback l) (context l) data e (heap acc)))]).
    { unfold acc', executeListener.
      destruct (call (callback l) (context l) data e (heap acc)); reflexivity. }
    assert (Hfresh : Forall (fun y => callback y <> callback l) (survivors (calls acc))).
    { rewrite map_app in Hnd. simpl in Hnd. apply NoDup_remove_2 in Hnd.
      rewrite List.Forall_forall. intros y Hy Heq. apply Hnd, in_or_app. left.
      rewrite <- Heq. apply in_map, Hy. }
    assert (Hstep : forall e',
               listeners (bus (heap acc')) e'
               = if String.eqb e e'
                 then survivors (calls acc') ++ ls
                 else listeners (bus (heap acc)) e').
    { intros e'. rewrite Hcalls, survivors_snoc. unfold acc', executeListener.
      pose proof (Hbus (callback l) (context l) data e (heap acc)) as Hb.
      destruct (call (callback l) (context l) data e (heap acc)) as [h'|h']; simpl in Hb;
        cbn [heap threw].
      - destruct (once l); cbn [negb orb].
        + unfold set_bus. cbn [bus]. rewrite listeners_off, Hb, Hls.
          rewrite (remove_first_found _ _ _ _ Hfresh eq_refl), app_nil_r.
          destruct (String.eqb e e'); reflexivity.
        + rewrite Hb. destruct (String.eqb e e') eqn:E; [|reflexivity].
          apply String.eqb_eq in E. subst e'. rewrite Hls, <- app_assoc. reflexivity.
      - rewrite orb_true_r, Hb. destruct (String.eqb e e') eqn:E; [|reflexivity].
        apply String.eqb_eq in E. subst e'. rewrite Hls, <- app_assoc. reflexivity. }
    destruct (IH acc') as [He Hother].
    + rewrite Hstep, String.eqb_refl. reflexivity.
    + rewrite Hcalls, survivors_snoc.
      destruct (negb (once l) || threw (call (callback l) (context l) data e (heap acc))).
      * rewrite <- app_assoc. exact Hnd.
      * rewrite app_nil_r. rewrite !map_app in *. simpl in Hnd.
        apply NoDup_remove_1 in Hnd. exact Hnd.
    + split; [exact He|]. intros e' Hne. rewrite (Hother e' Hne), Hstep.
      destruct (String.eqb e e') eqn:E; [|reflexivity].
      apply String.eqb_eq in E. congruence.
Qed.

(** X5. After a synchronous emit whose callbacks leave the bus alone, the
    event's listeners are those that were called and either were not
    subscribed with once or threw: a once listener is unsubscribed only after
    its callback returned. *)
Theorem once_listener_removed_after_return (e : string) (data : Data) (h : Heap Data App) :
  (forall cb ctx d n h, bus (completed (call cb ctx d n h)) = bus h) ->
  List.NoDup (map callback (listeners (bus h) e)) ->
  listeners (bus (heap (emit call e data false h))) e
  = survivors (calls (emit call e data false h))
  /\ (forall e', e' <> e ->
        listeners (bus (heap (emit call e data false h))) e' = listeners (bus h) e').
Proof.
  intros Hbus Hnd. unfold emit, listeners in *.
  destruct (events (bus h) !! e) as [registered|] eqn:Hreg; cbn [default] in *.
  - apply (forEach_survivors e data registered Hbus (mkEmitted 0 h [] [])).
    + unfold listeners. cbn [heap calls]. rewrite Hreg. reflexivity.
    + exact Hnd.
  - cbn [heap calls]. rewrite Hreg. split; reflexivity.
Qed.

End Once.

(** On "tick": a once listener, and a listener subscribed for good. *)
Definition once_and_always : Heap unit nat :=
  mkHeap (on (once_ new "tick" 1 0 None) "tick" 2 false 0 None) [] 0.

Lemma once_listener_removed_after_return_witness :
  listeners (bus (heap (emit EventBusFacts.counting "tick" tt false once_and_always))) "tick"
  = survivors (calls (emit EventBusFacts.counting "tick" tt false once_and_always))
  /\ (forall e', e' <> "tick" ->
        listeners (bus (heap (emit EventBusFacts.counting "tick" tt false once_and_always))) e'
        = listeners (bus once_and_always) e').
Proof.
  apply (once_listener_removed_after_return EventBusFacts.counting "tick" tt once_and_always).
  - intros cb ctx d n h. reflexivity.
  - vm_compute. repeat constructor; simpl; intuition discriminate.
Defined.

(** ** Clearing *)

(** X6. clear of a named event removes that event and no other; clear
    without a name, or with the empty name, removes every event; and the
    clear of a namespaced bus called without a name is the latter: it
    removes the listeners of the whole bus, those outside the namespace
    included. *)
Theorem clear_scope (this : t) (namespace e e' : string) :
  (e <> "" ->
   listeners (clear this (Some e)) e = []
   /\ (e' <> e -> listeners (clear this (Some e)) e' = listeners this e'))
  /\ listeners (clear this None) e' = []
  /\ listeners (clear this (Some "")) e' = []
  /\ listeners (Namespace.clear this namespace None) e' = []
  /\ (e <> "" ->
      listeners (Namespace.clear this namespace (Some e)) (scoped namespace e) = []
      /\ (e' <> scoped namespace e ->
          listeners (Namespace.clear this namespace (Some e)) e' = listeners this e')).
Proof.
  unfold Namespace.clear, clear, listeners. repeat split.
  - destruct (String.eqb e "") eqn:E; [apply String.eqb_eq in E; congruence|].
    cbn [events set_events]. rewrite lookup_delete_eq. reflexivity.
  - intros Hne. destruct (String.eqb e "") eqn:E; [apply String.eqb_eq in E; congruence|].
    cbn [events set_events]. rewrite lookup_delete_ne by congruence. reflexivity.
  - destruct (String.eqb e "") eqn:E; [apply String.eqb_eq in E; congruence|].
    assert (String.eqb (scoped namespace e) "" = false) as ->.
    { apply String.eqb_neq. unfold scoped. destruct namespace; discriminate. }
    cbn [events set_events]. rewrite lookup_delete_eq. reflexivity.
  - intros Hne. destruct (String.eqb e "") eqn:E; [apply String.eqb_eq in E; congruence|].
    assert (String.eqb (scoped namespace e) "" = false) as ->.
    { apply String.eqb_neq. unfold scoped. destruct namespace; discriminate. }
    cbn [events set_events]. rewrite lookup_delete_ne by congruence. reflexivity.
Qed.

(** ** The shape of a bus *)

(** Every event's listeners are in call order by priority, and no event
    is kept with an empty listener list. *)
Definition wellformed (this : t) : Prop :=
  forall e, ordered (listeners this e) /\ events this !! e <> Some [].

Lemma ordered_remove (l1 : list Listener) (x : Listener) (l2 : list Listener) :
  ordered (l1 ++ x :: l2) -> ordered (l1 ++ l2).
Proof.
  unfold ordered. induction l1 as [|y ys IH]; simpl; intros H.
  - inversion H; assumption.
  - inversion H as [|? ? Hs Hy]; subst. constructor; [apply IH, Hs|].
    rewrite List.Forall_forall in *. intros z Hz. apply Hy.
    apply in_app_or in Hz. apply in_or_app. destruct Hz; [left | right; right]; assumption.
Qed.

(** X7. The bus is well formed when created and stays so under on, off and
    clear. *)
Theorem bus_stays_wellformed (this : t) (e : string) (cb : nat) (o : bool) (p : Z)
    (c : option nat) (name : option string) :
  wellformed this ->
  wellformed new
  /\ wellformed (on this e cb o p c)
  /\ wellformed (snd (off this e cb))
  /\ wellformed (clear this name).
Proof.
  intros Hwf. split; [|split; [|split]].
  - intros e'. unfold listeners, new. cbn [events]. rewrite lookup_empty.
    split; [constructor | discriminate].
  - intros e'. destruct (Hwf e') as [Ho Hn]. destruct (Hwf e) as [Hoe _]. split.
    + rewrite listeners_on. destruct (String.eqb e e'); [|exact Ho].
      rewrite sort_snoc, (insert_ordered _ _ Hoe). apply (placed_ordered _ _ Hoe).
    + unfold on. cbn [events set_events].
      destruct (String.eqb e e') eqn:E.
      * apply String.eqb_eq in E. subst e'. rewrite lookup_insert_eq.
        intros Hnil. injection Hnil as Hnil. apply (f_equal (@length _)) in Hnil.
        rewrite sort_length, length_app in Hnil. simpl in Hnil. lia.
      * apply String.eqb_neq in E. rewrite lookup_insert_ne by exact E. exact Hn.
  - intros e'. destruct (Hwf e') as [Ho Hn]. destruct (Hwf e) as [Hoe _]. split.
    + rewrite listeners_off. destruct (String.eqb e e'); [|exact Ho].
      pose proof (remove_first_cases cb (listeners this e)) as Hc.
      destruct (remove_first cb (listeners this e)) as [rest|]; [|exact Hoe].
      destruct Hc as (l1 & x & l2 & Heq & _ & _ & ->). rewrite Heq in Hoe.
      apply (ordered_remove _ _ _ Hoe).
    + unfold off. destruct (events this !! e) as [ls|] eqn:Hl; [|exact Hn].
      destruct (remove_first cb ls) as [[|r rest]|]; cbn [snd events set_events]; [| |exact Hn].
      * destruct (String.eqb e e') eqn:E.
        -- apply String.eqb_eq in E. subst e'. rewrite lookup_delete_eq. discriminate.
        -- apply String.eqb_neq in E. rewrite lookup_delete_ne by exact E. exact Hn.
      * destruct (String.eqb e e') eqn:E.
        -- apply String.eqb_eq in E. subst e'. rewrite lookup_insert_eq. discriminate.
        -- apply String.eqb_neq in E. rewrite lookup_insert_ne by exact E. exact Hn.
  - intros e'. destruct (Hwf e') as [Ho Hn].
    assert (Hall : forall e0, ordered (listeners (set_events this ∅) e0)
                              /\ events (set_events this ∅) !! e0 <> Some []).
    { intros e0. unfold listeners. cbn [events set_events]. rewrite lookup_empty.
      split; [constructor | discriminate]. }
    unfold clear. destruct name as [n|]; [|apply Hall].
    destruct (String.eqb n ""); [apply Hall|].
    unfold listeners. cbn [events set_events].
    destruct (String.eqb n e') eqn:E.
    + apply String.eqb_eq in E. subst e'. rewrite lookup_delete_eq.
      split; [constructor | discriminate].
    + apply String.eqb_neq in E. rewrite lookup_delete_ne by exact E. split; assumption.
Qed.

Lemma bus_stays_wellformed_witness :
  wellformed new
  /\ wellformed (on new "tick" 1 false 0 None)
  /\ wellformed (snd (off new "tick" 1))
  /\ wellformed (clear new (Some "tick")).
Proof.
  apply (bus_stays_wellformed new "tick" 1 false 0 None (Some "tick")).
  intros e. unfold listeners, new. cbn [events]. rewrite lookup_empty.
  split; [constructor | discriminate].
Defined.

End SubscriptionFacts.

(** * The order on JavaScript numbers *)
Module FloatOrder.

Definition lt (a b : spec_float) : Prop := SFcompare a b = Some Lt.

Ltac cmp :=
  repeat match goal with
         | |- context [(?a ?= ?b)%Z] => destruct (Z.compare_spec a b)
         | H : context [(?a ?= ?b)%Z] |- _ => destruct (Z.compare_spec a b)
         | |- context [PosDef.Pos.compare_cont Eq ?a ?b] =>
             change (PosDef.Pos.compare_cont Eq a b) with (Pos.compare a b);
             destruct (Pos.compare_spec a b)
         | H : context [PosDef.Pos.compare_cont Eq ?a ?b] |- _ =>
             change (PosDef.Pos.compare_cont Eq a b) with (Pos.compare a b) in H;
             destruct (Pos.compare_spec a b)
         end.

Lemma SFcompare_trans (a b c : spec_float) :
  SFcompare a b = Some Lt -> SFcompare b c = Some Lt -> SFcompare a c = Some Lt.
Proof.
  destruct a as [sa|sa| |sa ma ea], b as [sb|sb| |sb mb eb], c as [sc|sc| |sc mc ec];
    simpl; try discriminate;
    repeat match goal with s : bool |- _ => destruct s end; simpl;
    try discriminate; try reflexivity; intros H1 H2;
    cmp; simpl in *; try discriminate; try reflexivity; subst; try lia.
Qed.

Lemma ltb_trans (x y z : float) :
  (x <? y)%float = true -> (y <? z)%float = true -> (x <? z)%float = true.
Proof.
  rewrite !FloatAxioms.ltb_spec. unfold SFltb.
  pose proof (SFcompare_trans (Prim2SF x) (Prim2SF y) (Prim2SF z)) as T.
  destruct (SFcompare (Prim2SF x) (Prim2SF y)) as [[]|]; try discriminate.
  destruct (SFcompare (Prim2SF y) (Prim2SF z)) as [[]|]; try discriminate.
  intros _ _. rewrite T; reflexivity.
Qed.

Lemma SFcompare_refl (a : spec_float) : a <> S754_nan -> SFcompare a a = Some Eq.
Proof.
  destruct a as [s|s| |s m e]; simpl; intros H; try congruence.
  - destruct s; reflexivity.
  - rewrite Z.compare_refl.
    change (PosDef.Pos.compare_cont Eq m m) with (Pos.compare m m).
    rewrite Pos.compare_refl. destruct s; reflexivity.
Qed.

Lemma is_nan_spec (x : float) : is_nan x = true <-> Prim2SF x = S754_nan.
Proof.
  unfold is_nan. rewrite FloatAxioms.eqb_spec. unfold SFeqb. split.
  - intros H. destruct (Prim2SF x) eqn:E; try reflexivity;
      rewrite SFcompare_refl in H by congruence; discriminate.
  - intros ->. reflexivity.
Qed.

Lemma leb_not_nan (x y : float) :
  (x <=? y)%float = true -> is_nan x = false /\ is_nan y = false.
Proof.
  rewrite FloatAxioms.leb_spec. unfold SFleb. intros H.
  split; apply not_true_is_false; intros E; apply is_nan_spec in E; rewrite E in H;
    [|destruct (Prim2SF x)]; discriminate.
Qed.

Lemma ltb_not_nan (x y : float) :
  (x <? y)%float = true -> is_nan x = false /\ is_nan y = false.
Proof.
  rewrite FloatAxioms.ltb_spec. unfold SFltb. intros H.
  split; apply not_true_is_false; intros E; apply is_nan_spec in E; rewrite E in H;
    [|destruct (Prim2SF x)]; discriminate.
Qed.

Lemma ltb_irrefl (x : float) : (x <? x)%float = false.
Proof.
  rewrite FloatAxioms.ltb_spec. unfold SFltb.
  destruct (Prim2SF x) as [s|s| |s m e] eqn:E; try reflexivity.
  - destruct s; reflexivity.
  - rewrite SFcompare_refl by congruence. reflexivity.
Qed.

End FloatOrder.

(** * Properties of the data pipeline *)
Module DataFacts.

Import DataProcessor.

(** X8. validateOHLC accepts only an item whose time is a string and whose
    four prices are numbers, none of them NaN, with the low at or below the
    open and the close and these at or below the high. *)
Theorem validateOHLC_accepts (item : Ohlc.t) :
  Utils.validateOHLC item = true ->
  exists s open high low close,
    Ohlc.time item = Ohlc.TimeString s
    /\ Ohlc.open item = Js.Num open /\ Ohlc.high item = Js.Num high
    /\ Ohlc.low item = Js.Num low /\ Ohlc.close item = Js.Num close
    /\ is_nan open = false /\ is_nan high = false /\ is_nan low = false /\ is_nan close = false
    /\ (low <=? open)%float = true /\ (open <=? high)%float = true
    /\ (low <=? close)%float = true /\ (close <=? high)%float = true.
Proof.
  unfold Utils.validateOHLC. intros H.
  destruct (Ohlc.time item) as [s| | |]; try discriminate.
  destruct (Ohlc.open item) as [| |o]; try discriminate.
  destruct (Ohlc.high item) as [| |h]; try discriminate.
  destruct (Ohlc.low item) as [| |l]; try discriminate.
  destruct (Ohlc.close item) as [| |c]; try discriminate.
  rewrite !andb_true_iff in H. destruct H as ((((Hlh & Hoh) & Hch) & Hlo) & Hlc).
  destruct (FloatOrder.leb_not_nan _ _ Hlo) as [Nl No].
  destruct (FloatOrder.leb_not_nan _ _ Hch) as [Nc Nh].
  exists s, o, h, l, c. repeat split; assumption.
Qed.

(** The first line of the data file, with its date as the file has it. *)
Definition first_candle : Ohlc.t :=
  Ohlc.mk (Ohlc.TimeString "2019-12-03 06:15") (Js.Num 7241.6) (Js.Num 7248.5)
    (Js.Num 7237.6) (Js.Num 7237.6) (Js.Num 4).

Lemma validateOHLC_accepts_witness :
  exists s open high low close,
    Ohlc.time first_candle = Ohlc.TimeString s
    /\ Ohlc.open first_candle = Js.Num open /\ Ohlc.high first_candle = Js.Num high
    /\ Ohlc.low first_candle = Js.Num low /\ Ohlc.close first_candle = Js.Num close
    /\ is_nan open = false /\ is_nan high = false /\ is_nan low = false /\ is_nan close = false
    /\ (low <=? open)%float = true /\ (open <=? high)%float = true
    /\ (low <=? close)%float = true /\ (close <=? high)%float = true.
Proof. apply (validateOHLC_accepts first_candle). reflexivity. Defined.

Section Parsing.

Variable trim : string -> string.
Variable parseFloat : string -> float.
Variable parseInt : string -> float.
Variable Date_getTime : Ohlc.Time -> float.

Lemma parseLine_pushes_nothing (i : nat) (raw : string) :
  fst (parseLine trim parseFloat parseInt Date_getTime i raw) = None.
Proof.
  unfold parseLine.
  destruct (String.eqb (trim raw) ""); [reflexivity|].
  destruct (length (split "009" (trim raw)) <? 5)%nat; [reflexivity|].
  destruct (_ || _); [reflexivity|].
  destruct (_ || _); reflexivity.
Qed.

Lemma parseLines_keeps_data (lines : list string) :
  forall i data console,
    fst (parseLines trim parseFloat parseInt Date_getTime i lines data console) = data.
Proof.
  induction lines as [|raw rest IH]; intros i data console; simpl; [reflexivity|].
  pose proof (parseLine_pushes_nothing i raw) as Hp.
  destruct (parseLine trim parseFloat parseInt Date_getTime i raw) as [pushed warned].
  simpl in Hp. subst pushed. apply IH.
Qed.

(** X9. parseCSV never returns: the data point of a line carries the Unix
    time formatDateTimeForTradingView computes, a number, while validateOHLC
    asks for a string; so no line is ever pushed and every text ends in the
    throw of 'No valid data points found in CSV file'. *)
Theorem parseCSV_never_returns (csvText : string) :
  fst (parseCSV trim parseFloat parseInt Date_getTime csvText) = None.
Proof.
  unfold parseCSV.
  pose proof (parseLines_keeps_data
                (List.filter (fun line => negb (String.eqb (trim line) ""))
                   (split "010" csvText)) 0 [] []) as Hk.
  destruct (parseLines _ _ _ _ _ _ _ _) as [data console]. simpl in Hk. subst data.
  reflexivity.
Qed.

End Parsing.

(** *** Sampling *)

Lemma sampled_remainder (sampleRate : Z) (r q j : nat) :
  r = Z.abs_nat sampleRate -> sampleRate <> 0%Z -> (j < r)%nat ->
  sampled (q * r + j) sampleRate = Nat.eqb j 0.
Proof.
  intros -> Hr Hj. unfold sampled.
  assert ((sampleRate =? 0)%Z = false) as -> by lia.
  rewrite <- (Z.rem_abs_r _ _ Hr).
  rewrite Z.rem_mod_nonneg by lia.
  replace (Z.abs sampleRate) with (Z.of_nat (Z.abs_nat sampleRate)) by lia.
  rewrite <- Nat2Z.inj_mod.
  rewrite Nat.add_comm, Nat.Div0.mod_add, Nat.mod_small by exact Hj.
  destruct j; reflexivity.
Qed.

Lemma sampleFrom_nth {A : Type} (sampleRate : Z) (r : nat) (data : list A) :
  r = Z.abs_nat sampleRate -> sampleRate <> 0%Z ->
  forall (q j k : nat),
    (j < r)%nat ->
    nth_error (sampleFrom (q * r + j) data sampleRate) k
    = nth_error data ((if Nat.eqb j 0 then 0 else r - j) + k * r).
Proof.
  intros Er Hr.
  induction data as [|x xs IH]; intros q j k Hj.
  - simpl. destruct k; destruct (_ + _)%nat; reflexivity.
  - cbn [sampleFrom]. rewrite (sampled_remainder sampleRate r q j Er Hr Hj).
    assert (Hnext :
      forall k', nth_error (sampleFrom (S (q * r + j)) xs sampleRate) k'
                 = nth_error xs ((if Nat.eqb (S j) r then 0 else r - S j) + k' * r)).
    { intros k'. destruct (Nat.eqb (S j) r) eqn:E.
      - apply Nat.eqb_eq in E.
        replace (S (q * r + j)) with (S q * r + 0)%nat by (simpl; lia).
        rewrite IH by lia. reflexivity.
      - apply Nat.eqb_neq in E.
        replace (S (q * r + j)) with (q * r + S j)%nat by lia.
        rewrite IH by lia. reflexivity. }
    destruct j as [|j]; cbn [Nat.eqb].
    + destruct k as [|k]; [reflexivity|].
      cbn [nth_error]. rewrite Hnext.
      destruct (Nat.eqb 1 r) eqn:E.
      * apply Nat.eqb_eq in E. rewrite <- E.
        replace (0 + S k * 1)%nat with (S (0 + k * 1)) by lia. reflexivity.
      * apply Nat.eqb_neq in E. simpl.
        replace (r + k * r)%nat with (S (r - 1 + k * r)) by lia. reflexivity.
    + rewrite Hnext.
      destruct (Nat.eqb (S (S j)) r) eqn:E.
      * apply Nat.eqb_eq in E. rewrite <- E.
        replace (S (S j) - S j + k * S (S j))%nat with (S (k * S (S j))) by lia.
        reflexivity.
      * apply Nat.eqb_neq in E.
        replace (r - S j + k * r)%nat with (S (r - S (S j) + k * r)) by lia.
        reflexivity.
Qed.

(** X10. sampleData with an integer rate n other than 0 keeps exactly the
    items at the indices 0, |n|, 2|n|, ... in their order (so the first item
    always stays); with rate 0 the remainder is NaN and nothing is kept; and
    missing data gives the empty array. *)
Theorem sampleData_every_nth {A : Type} (data : list A) (sampleRate : Z) :
  (sampleRate <> 0%Z ->
   forall k, nth_error (sampleData (Some data) sampleRate) k
             = nth_error data (k * Z.abs_nat sampleRate))
  /\ sampleData (Some data) 0 = []
  /\ sampleData (@None (list A)) sampleRate = [].
Proof.
  split; [|split; [|reflexivity]].
  - intros Hr k. unfold sampleData.
    pose proof (sampleFrom_nth sampleRate _ data eq_refl Hr 0 0 k) as H.
    simpl in H. apply H. lia.
  - unfold sampleData. generalize 0%nat.
    induction data as [|x xs IH]; intros i; simpl; [reflexivity | apply IH].
Qed.

(** *** The price range *)

(** From bounds that no earlier item crosses, the loop ends with bounds
    that no item crosses. *)
Lemma priceRangeFrom_bounds (data : list Ohlc.t) :
  forall (seen : list Ohlc.t) (min max : Js.value),
    Forall (fun item => (Js.toNumber (Ohlc.low item) <? Js.toNumber min)%float = false
                        /\ (Js.toNumber max <? Js.toNumber (Ohlc.high item))%float = false) seen ->
    Forall (fun item =>
              (Js.toNumber (Ohlc.low item)
               <? Js.toNumber (fst (Utils.priceRangeFrom data min max)))%float = false
              /\ (Js.toNumber (snd (Utils.priceRangeFrom data min max))
                  <? Js.toNumber (Ohlc.high item))%float = false)
           (seen ++ data).
Proof.
  induction data as [|item rest IH]; intros seen min max Hseen.
  - simpl. rewrite app_nil_r. exact Hseen.
  - cbn [Utils.priceRangeFrom].
    replace (seen ++ item :: rest) with ((seen ++ [item]) ++ rest)
      by (rewrite <- app_assoc; reflexivity).
    apply IH. apply Forall_app. split.
    + rewrite List.Forall_forall in *.
      intros old Hold. destruct (Hseen old Hold) as [Hlo Hhi]. split.
      * destruct (Js.toNumber (Ohlc.low item) <? Js.toNumber min)%float eqn:E; [|exact Hlo].
        apply not_true_is_false. intros Hlt.
        rewrite (FloatOrder.ltb_trans _ _ _ Hlt E) in Hlo. discriminate.
      * destruct (Js.toNumber max <? Js.toNumber (Ohlc.high item))%float eqn:E; [|exact Hhi].
        apply not_true_is_false. intros Hlt.
        rewrite (FloatOrder.ltb_trans _ _ _ E Hlt) in Hhi. discriminate.
    + constructor; [|constructor]. split.
      * destruct (Js.toNumber (Ohlc.low item) <? Js.toNumber min)%float eqn:E;
          [apply FloatOrder.ltb_irrefl | exact E].
      * destruct (Js.toNumber max <? Js.toNumber (Ohlc.high item))%float eqn:E;
          [apply FloatOrder.ltb_irrefl | exact E].
Qed.

Lemma priceRangeFrom_attained (data : list Ohlc.t) :
  forall min max : Js.value,
    (fst (Utils.priceRangeFrom data min max) = min
     \/ exists item, List.In item data /\ fst (Utils.priceRangeFrom data min max) = Ohlc.low item)
    /\ (snd (Utils.priceRangeFrom data min max) = max
        \/ exists item, List.In item data
                        /\ snd (Utils.priceRangeFrom data min max) = Ohlc.high item).
Proof.
  induction data as [|item rest IH]; intros min max; [split; left; reflexivity|].
  cbn [Utils.priceRangeFrom].
  match goal with
  | |- context [Utils.priceRangeFrom rest ?a ?b] => destruct (IH a b) as [Hmin Hmax]
  end.
  split.
  - destruct Hmin as [->|(x & Hin & ->)].
    + destruct (_ <? _)%float; [right; exists item; split; [left|]; reflexivity | left; reflexivity].
    + right. exists x. split; [right; exact Hin | reflexivity].
  - destruct Hmax as [->|(x & Hin & ->)].
    + destruct (Js.toNumber max <? _)%float;
        [right; exists item; split; [left|]; reflexivity | left; reflexivity].
    + right. exists x. split; [right; exact Hin | reflexivity].
Qed.

(** X11. calculatePriceRange of data that is not empty returns bounds that no
    item crosses (no low compares below the minimum, no high above the
    maximum), each of them the low or high of an item, or still the
    infinity it started from when no item compared beyond it, as when every
    price is NaN; of empty or missing data it returns 0 and 0. *)
Theorem calculatePriceRange_bounds (data : list Ohlc.t) :
  (data <> [] ->
   Forall (fun item =>
             (Js.toNumber (Ohlc.low item)
              <? Js.toNumber (fst (Utils.calculatePriceRange (Some data))))%float = false
             /\ (Js.toNumber (snd (Utils.calculatePriceRange (Some data)))
                 <? Js.toNumber (Ohlc.high item))%float = false) data
   /\ (fst (Utils.calculatePriceRange (Some data)) = Js.Num infinity
       \/ exists item, List.In item data
                       /\ fst (Utils.calculatePriceRange (Some data)) = Ohlc.low item)
   /\ (snd (Utils.calculatePriceRange (Some data)) = Js.Num neg_infinity
       \/ exists item, List.In item data
                       /\ snd (Utils.calculatePriceRange (Some data)) = Ohlc.high item))
  /\ Utils.calculatePriceRange (Some []) = (Js.Num 0, Js.Num 0)
  /\ Utils.calculatePriceRange None = (Js.Num 0, Js.Num 0).
Proof.
  split; [|split; reflexivity].
  intros Hne. destruct data as [|item rest]; [congruence|].
  unfold Utils.calculatePriceRange. split.
  - apply (priceRangeFrom_bounds (item :: rest) [] (Js.Num infinity) (Js.Num neg_infinity)).
    constructor.
  - apply priceRangeFrom_attained.
Qed.

(** *** Data integrity *)

Section Integrity.

Variable Date_getTime : Ohlc.Time -> float.

(** No item's date compares at or before the date of the item before
    it, [before] being the item ahead of the list. *)
Fixpoint ascending (before : option Ohlc.t) (data : list Ohlc.t) : Prop :=
  match data with
  | [] => True
  | item :: rest =>
      match before with
      | Some b =>
          (Date_getTime (Ohlc.time item) <=? Date_getTime (Ohlc.time b))%float = false
      | None => True
      end
      /\ ascending (Some item) rest
  end.

Definition invalid (data : list Ohlc.t) : list Ohlc.t :=
  List.filter (fun item => negb (Utils.validateOHLC item)) data.

Definition isInvalidPoint (e : IntegrityError) : bool :=
  match e with
  | InvalidPointAt _ _ => true
  | _ => false
  end.

Definition reported (errors : list IntegrityError) : nat :=
  length (List.filter isInvalidPoint errors).

Lemma reported_app (a b : list IntegrityError) : reported (a ++ b) = reported a + reported b.
Proof. unfold reported. rewrite List.filter_app, length_app. reflexivity. Qed.

Lemma integrityFrom_spec (data : list Ohlc.t) :
  forall index before errors n,
    exists more,
      integrityFrom Date_getTime index before data errors n
      = (errors ++ more, n + length (invalid data))
      /\ reported more = Nat.min 5 (n + length (invalid data)) - Nat.min 5 n
      /\ (n < 5 -> (more = [] <-> invalid data = [] /\ ascending before data)).
Proof.
  induction data as [|item rest IH]; intros index before errors n.
  - exists []. cbn [integrityFrom invalid List.filter length ascending].
    rewrite app_nil_r, Nat.add_0_r, Nat.sub_diag. repeat split; auto.
  - cbn [integrityFrom invalid List.filter ascending].
    destruct (Utils.validateOHLC item) eqn:Hv; cbn [negb].
    + destruct before as [b|].
      * destruct (Date_getTime (Ohlc.time item) <=? Date_getTime (Ohlc.time b))%float eqn:Hd.
        -- destruct (IH (S index) (Some item) (errors ++ [OutOfOrderAt index]) n)
             as (more & -> & Hrep & Hiff).
           exists (OutOfOrderAt index :: more). rewrite <- app_assoc. split; [reflexivity|].
           split; [exact Hrep|]. intros _. split; [discriminate|].
           intros (_ & Hf & _). discriminate.
        -- destruct (IH (S index) (Some item) errors n) as (more & -> & Hrep & Hiff).
           exists more. split; [reflexivity|]. split; [exact Hrep|].
           fold (invalid rest). tauto.
      * destruct (IH (S index) (Some item) errors n) as (more & -> & Hrep & Hiff).
        exists more. split; [reflexivity|]. split; [exact Hrep|].
        fold (invalid rest). tauto.
    + fold (invalid rest). cbn [length].
      set (errors1 := if (S n <=? 5)%nat then errors ++ [InvalidPointAt index item] else errors).
      set (errors2 :=
             match before with
             | Some b =>
                 if (Date_getTime (Ohlc.time item) <=? Date_getTime (Ohlc.time b))%float
                 then errors1 ++ [OutOfOrderAt index] else errors1
             | None => errors1
             end).
      destruct (IH (S index) (Some item) errors2 (S n)) as (more & -> & Hrep & _).
      assert (exists first, errors2 = errors ++ first
                            /\ reported first = Nat.min 5 (S n) - Nat.min 5 n
                            /\ (n < 5 -> first <> [])) as (first & -> & Hf & Hne).
      { unfold errors2, errors1.
        destruct (S n <=? 5)%nat eqn:E; [apply Nat.leb_le in E | apply Nat.leb_gt in E];
          destruct before as [b|];
          try destruct (Date_getTime (Ohlc.time item) <=? Date_getTime (Ohlc.time b))%float.
        - exists [InvalidPointAt index item; OutOfOrderAt index].
          rewrite <- app_assoc. unfold reported. cbn [List.filter isInvalidPoint length app].
          repeat split; [lia | discriminate].
        - exists [InvalidPointAt index item].
          unfold reported. cbn [List.filter isInvalidPoint length].
          repeat split; [lia | discriminate].
        - exists [InvalidPointAt index item].
          unfold reported. cbn [List.filter isInvalidPoint length].
          repeat split; [lia | discriminate].
        - exists [OutOfOrderAt index].
          unfold reported. cbn [List.filter isInvalidPoint length].
          repeat split; [lia | discriminate].
        - exists []. rewrite app_nil_r.
          unfold reported. cbn [List.filter isInvalidPoint length].
          repeat split; lia.
        - exists []. rewrite app_nil_r.
          unfold reported. cbn [List.filter isInvalidPoint length].
          repeat split; lia. }
      exists (first ++ more). rewrite <- app_assoc.
      split; [f_equal; lia|]. split.
      * rewrite reported_app. lia.
      * intros Hn. split; [|intros [Hi _]; discriminate].
        intros Hnil. apply app_eq_nil in Hnil. destruct Hnil as [-> _].
        exfalso. apply (Hne Hn). reflexivity.
Qed.

(** X12. validateDataIntegrity of data that is not empty counts every item
    that validateOHLC rejects, reports the rest as valid points, lists an
    error for at most the first five of the rejected items, and answers
    valid exactly when no item is rejected and no item's date compares at or
    before its predecessor's; for empty or missing data the answer is not
    valid and carries no counts. *)
Theorem validateDataIntegrity_counts (data : list Ohlc.t) :
  (data <> [] ->
   invalidPoints (validateDataIntegrity Date_getTime (Some data)) = Some (length (invalid data))
   /\ validPoints (validateDataIntegrity Date_getTime (Some data))
      = Some (length (List.filter Utils.validateOHLC data))
   /\ reported (errors (validateDataIntegrity Date_getTime (Some data)))
      = Nat.min 5 (length (invalid data))
   /\ (valid (validateDataIntegrity Date_getTime (Some data)) = true
       <-> invalid data = [] /\ ascending None data))
  /\ validateDataIntegrity Date_getTime (Some [])
     = mkIntegrity false [NoDataToValidate] None None
  /\ validateDataIntegrity Date_getTime None = mkIntegrity false [NoDataToValidate] None None.
Proof.
  split; [|split; reflexivity].
  intros Hne. destruct data as [|item rest]; [congruence|].
  unfold validateDataIntegrity.
  destruct (integrityFrom_spec (item :: rest) 0 None [] 0) as (more & Hrun & Hrep & Hiff).
  rewrite Hrun. cbn [app Nat.add invalidPoints validPoints errors valid].
  split; [reflexivity|]. split; [|split].
  - f_equal. unfold invalid.
    assert (forall l : list Ohlc.t,
               length l - length (List.filter (fun i => negb (Utils.validateOHLC i)) l)
               = length (List.filter Utils.validateOHLC l)) as Hcount.
    { induction l as [|x xs IHl]; [reflexivity|]. simpl.
      assert (length (List.filter (fun i => negb (Utils.validateOHLC i)) xs) <= length xs)
        by apply List.filter_length_le.
      destruct (Utils.validateOHLC x); simpl; lia. }
    apply Hcount.
  - rewrite Hrep. lia.
  - rewrite <- (Hiff ltac:(lia)). destruct more; simpl; split; congruence.
Qed.

End Integrity.

End DataFacts.

(** * Properties of the tools: the horizontal line *)
Module HorizontalLineFacts.

(** The drawing in progress after pointer-down at [down] and the pointer
    moves [moves], as startDrawing and updateDrawing build it. *)
Definition drawn (this : BaseTool.t) (options : Options.t) (now : float) (down : Point.t)
    (moves : list Point.t) : Drawing.t :=
  fold_left (Tool.updateDrawing this) moves (Tool.startDrawing this down options now).

Lemma horizontal_update_options (d : Drawing.t) (coords : Point.t) :
  Drawing.options (HorizontalLineTool.updateDrawingData d coords) = Drawing.options d.
Proof.
  unfold HorizontalLineTool.updateDrawingData.
  destruct (_ && _); reflexivity.
Qed.

Lemma horizontal_update_unsnapped (d : Drawing.t) (coords : Point.t) :
  Options.flag (Options.snapToPrice (Drawing.options d)) = false ->
  HorizontalLineTool.updateDrawingData d coords = d.
Proof. unfold HorizontalLineTool.updateDrawingData. intros ->. reflexivity. Qed.

Lemma horizontal_moves_unsnapped (this : BaseTool.t) (moves : list Point.t) :
  BaseTool.class this = BaseTool.HorizontalLineTool ->
  forall d, Options.flag (Options.snapToPrice (Drawing.options d)) = false ->
            fold_left (Tool.updateDrawing this) moves d = d.
Proof.
  intros Hclass. induction moves as [|m rest IH]; intros d Hd; [reflexivity|].
  cbn [fold_left]. unfold Tool.updateDrawing at 2, Tool.updateDrawingData. rewrite Hclass.
  rewrite (horizontal_update_unsnapped d m Hd). apply IH, Hd.
Qed.

Lemma horizontal_moves_options (this : BaseTool.t) (moves : list Point.t) :
  BaseTool.class this = BaseTool.HorizontalLineTool ->
  forall d, Drawing.options (fold_left (Tool.updateDrawing this) moves d) = Drawing.options d.
Proof.
  intros Hclass. induction moves as [|m rest IH]; intros d; [reflexivity|].
  cbn [fold_left]. rewrite IH. unfold Tool.updateDrawing, Tool.updateDrawingData.
  rewrite Hclass. apply horizontal_update_options.
Qed.

(** X13. A horizontal line follows the pointer only through price snapping.
    With snapToPrice off in the merged options, the line finishes at the
    price of pointer-down, wherever the pointer went and was released; with
    snapToPrice on, it finishes at the price of pointer-up, rounded to
    cents. *)
Theorem horizontal_line_follows_only_when_snapping (this : BaseTool.t) (options : Options.t)
    (now : float) (down up : Point.t) (moves : list Point.t) :
  BaseTool.class this = BaseTool.HorizontalLineTool ->
  exists d,
    Tool.finishDrawing this (drawn this options now down moves) up = Normal d
    /\ (Options.flag (Options.snapToPrice (Options.spread (BaseTool.options this) options))
        = false ->
        Drawing.price d = Point.price down)
    /\ (Options.flag (Options.snapToPrice (Options.spread (BaseTool.options this) options))
        = true ->
        Js.notNull (Point.price up) = true ->
        Drawing.price d
        = Js.Num (Js.Math_round (Js.toNumber (Point.price up) * 100) / 100)%float).
Proof.
  intros Hclass.
  assert (Hopt : Options.snapToPrice
                   (Drawing.options (Tool.startDrawing this down options now))
                 = Options.snapToPrice (Options.spread (BaseTool.options this) options)).
  { unfold Tool.startDrawing, Tool.createDrawing. rewrite Hclass.
    cbn [HorizontalLineTool.createDrawing Drawing.options Options.spread Options.snapToPrice].
    apply Options.over_idem. }
  unfold Tool.finishDrawing, Tool.finalizeDrawingData. rewrite Hclass.
  eexists. split; [reflexivity|]. split.
  - intros Hoff. unfold drawn.
    rewrite (horizontal_moves_unsnapped this moves Hclass) by (rewrite Hopt; exact Hoff).
    rewrite horizontal_update_unsnapped by (rewrite Hopt; exact Hoff).
    unfold Tool.startDrawing, Tool.createDrawing. rewrite Hclass.
    cbn [HorizontalLineTool.createDrawing Drawing.price].
    unfold BaseTool.snap. rewrite Hoff. reflexivity.
  - intros Hon Hprice. unfold HorizontalLineTool.updateDrawingData, drawn.
    rewrite (horizontal_moves_options this moves Hclass), Hopt, Hon, Hprice. reflexivity.
Qed.

(** A horizontal line tool configured not to snap. *)
Definition free_line : BaseTool.t :=
  HorizontalLineTool.new
    (Options.mk None None None None None None None None None None (Some false) None None None
       None None).

Lemma horizontal_line_follows_only_when_snapping_witness :
  exists d,
    Tool.finishDrawing free_line
      (drawn free_line Options.empty 0
         (Point.mk (Js.Num 1700000000) (Js.Num 100.123) (Js.Num 10) (Js.Num 300))
         [Point.mk (Js.Num 1700000900) (Js.Num 105.5) (Js.Num 11) (Js.Num 295)])
      (Point.mk (Js.Num 1700001800) (Js.Num 110.456) (Js.Num 12) (Js.Num 290))
    = Normal d
    /\ (Options.flag (Options.snapToPrice (Options.spread (BaseTool.options free_line)
                                             Options.empty)) = false ->
        Drawing.price d = Js.Num 100.123)
    /\ (Options.flag (Options.snapToPrice (Options.spread (BaseTool.options free_line)
                                             Options.empty)) = true ->
        Js.notNull (Js.Num 110.456) = true ->
        Drawing.price d = Js.Num (Js.Math_round (Js.toNumber (Js.Num 110.456) * 100) / 100)%float).
Proof.
  apply (horizontal_line_follows_only_when_snapping free_line Options.empty 0
           (Point.mk (Js.Num 1700000000) (Js.Num 100.123) (Js.Num 10) (Js.Num 300))
           (Point.mk (Js.Num 1700001800) (Js.Num 110.456) (Js.Num 12) (Js.Num 290))
           [Point.mk (Js.Num 1700000900) (Js.Num 105.5) (Js.Num 11) (Js.Num 295)]).
  reflexivity.
Defined.

End HorizontalLineFacts.

(** * Properties of the DrawingManager: what it stores *)
Module StorageFacts.
Import DrawingManager.

(** The primitives of the stored drawings, in the order of the map. *)
Definition attached (entries : list Entry) : list nat :=
  flat_map (fun drawing => match primitive drawing with Some p => [p] | None => [] end) entries.

Lemma detachAll_host (env : Env) (entries : list Entry) :
  chart env = true -> (forall c, throws env c = false) ->
  forall s, exists s',
    detachAll env entries s = Ok tt s'
    /\ s' = set_host (host s ++ map DetachPrimitive (attached entries)) s.
Proof.
  intros Hc Hok. induction entries as [|e rest IH]; intros s.
  - exists s. simpl. rewrite app_nil_r. split; [reflexivity|]. destruct s; reflexivity.
  - cbn [detachAll]. unfold bind. destruct (DrawingManager.primitive e) as [p|] eqn:Hp.
    + unfold hostCall. rewrite Hc, Hok. cbn [negb orb].
      destruct (IH (set_host (host s ++ [DetachPrimitive p]) s)) as (s' & -> & ->).
      eexists. split; [reflexivity|]. unfold attached. cbn [flat_map]. rewrite Hp. ManagerFacts.fields.
      rewrite <- app_assoc. destruct s; reflexivity.
    + unfold ret. destruct (IH s) as (s' & -> & ->).
      eexists. split; [reflexivity|]. unfold attached. cbn [flat_map]. rewrite Hp. reflexivity.
Qed.

Lemma clearAllDrawings_run (env : Env) (s : State) :
  chart env = true -> (forall c, throws env c = false) ->
  clearAllDrawings env s
  = Ok tt (set_emitted (emitted s ++ [("all-drawings-cleared", NoPayload)])
             (set_host (host s ++ map DetachPrimitive (attached (DrawingMap.values (drawings s)))
                        ++ [Repaint])
                (set_currentDrawing None (set_isDrawing false (set_drawings [] s))))).
Proof.
  intros Hc Hok. unfold clearAllDrawings, bind, get.
  destruct (detachAll_host env (DrawingMap.values (drawings s)) Hc Hok s) as (s1 & -> & ->).
  unfold modify, hostCall, emit, modify. ManagerFacts.fields. rewrite Hc, Hok. cbn [negb orb].
  rewrite <- app_assoc. destruct s; reflexivity.
Qed.

(** X14. clearAllDrawings, on a host whose calls go through, detaches the
    primitive of every stored drawing in the order of the map, empties the
    map, drops a gesture in progress, repaints once and emits
    'all-drawings-cleared'; it leaves the active tool and the navigation
    lock as they are, so a gesture cleared away keeps the lock it took. *)
Theorem clearAllDrawings_detaches_all (env : Env) (s : State) :
  chart env = true -> (forall c, throws env c = false) ->
  exists s',
    clearAllDrawings env s = Ok tt s'
    /\ drawings s' = [] /\ isDrawing s' = false /\ currentDrawing s' = None
    /\ host s'
       = host s ++ map DetachPrimitive (attached (DrawingMap.values (drawings s))) ++ [Repaint]
    /\ emitted s' = emitted s ++ [("all-drawings-cleared", NoPayload)]
    /\ navigationLocked s' = navigationLocked s
    /\ currentTool s' = currentTool s /\ isActive s' = isActive s
    /\ listening s' = listening s.
Proof.
  intros Hc Hok. rewrite (clearAllDrawings_run env s Hc Hok).
  eexists. split; [reflexivity|]. repeat split.
Qed.

Lemma clearAllDrawings_detaches_all_witness :
  exists s',
    clearAllDrawings ManagerFacts.steady
      (after (deliver (handleMouseDown ManagerFacts.steady (mkMouseEvent 20 310)))
         ManagerFacts.one_line) = Ok tt s'
    /\ drawings s' = [] /\ isDrawing s' = false /\ currentDrawing s' = None
    /\ host s'
       = host (after (deliver (handleMouseDown ManagerFacts.steady (mkMouseEvent 20 310)))
                 ManagerFacts.one_line)
         ++ map DetachPrimitive
              (attached
                 (DrawingMap.values
                    (drawings
                       (after (deliver (handleMouseDown ManagerFacts.steady (mkMouseEvent 20 310)))
                          ManagerFacts.one_line))))
         ++ [Repaint]
    /\ emitted s'
       = emitted (after (deliver (handleMouseDown ManagerFacts.steady (mkMouseEvent 20 310)))
                    ManagerFacts.one_line)
         ++ [("all-drawings-cleared", NoPayload)]
    /\ navigationLocked s'
       = navigationLocked
           (after (deliver (handleMouseDown ManagerFacts.steady (mkMouseEvent 20 310)))
              ManagerFacts.one_line)
    /\ currentTool s'
       = currentTool
           (after (deliver (handleMouseDown ManagerFacts.steady (mkMouseEvent 20 310)))
              ManagerFacts.one_line)
    /\ isActive s'
       = isActive
           (after (deliver (handleMouseDown ManagerFacts.steady (mkMouseEvent 20 310)))
              ManagerFacts.one_line)
    /\ listening s'
       = listening
           (after (deliver (handleMouseDown ManagerFacts.steady (mkMouseEvent 20 310)))
              ManagerFacts.one_line).
Proof.
  apply (clearAllDrawings_detaches_all ManagerFacts.steady); [reflexivity | intros c; reflexivity].
Defined.

(** *** destroy *)

(** X15. destroy, on a host whose calls go through, releases the lock if it
    is held, detaches every primitive, and leaves the manager without
    drawings, tool, gesture, listeners or cached navigation options; the
    registry and the tool objects are not touched, so the tool that was
    active keeps its isActive flag. *)
Theorem destroy_clears_the_manager (env : Env) (s : State) :
  chart env = true -> (forall c, throws env c = false) ->
  exists s',
    destroy env s = Ok tt s'
    /\ drawings s' = [] /\ currentTool s' = None /\ currentDrawing s' = None
    /\ isActive s' = false /\ isDrawing s' = false /\ listening s' = false
    /\ navigationLocked s' = false /\ originalNavigationOptions s' = false
    /\ tools s' = tools s /\ objects s' = objects s
    /\ host s'
       = host s
         ++ (if navigationLocked s && originalNavigationOptions s then [UnlockNavigation] else [])
         ++ map DetachPrimitive (attached (DrawingMap.values (drawings s))) ++ [Repaint].
Proof.
  intros Hc Hok.
  unfold destroy, restoreNavigation, log, removeChartEventListeners, bind, get, hostCall,
    modify, ret.
  rewrite Hc, Hok. cbn [negb orb].
  destruct (navigationLocked s) eqn:Hl, (originalNavigationOptions s) eqn:Ho; cbn [negb andb];
    rewrite (clearAllDrawings_run env _ Hc Hok);
    (eexists; split; [reflexivity|]); ManagerFacts.fields;
    rewrite ?app_nil_l, <- ?app_assoc; repeat split.
Qed.

Lemma destroy_clears_the_manager_witness :
  exists s',
    destroy ManagerFacts.steady ManagerFacts.one_line = Ok tt s'
    /\ drawings s' = [] /\ currentTool s' = None /\ currentDrawing s' = None
    /\ isActive s' = false /\ isDrawing s' = false /\ listening s' = false
    /\ navigationLocked s' = false /\ originalNavigationOptions s' = false
    /\ tools s' = tools ManagerFacts.one_line /\ objects s' = objects ManagerFacts.one_line
    /\ host s'
       = host ManagerFacts.one_line
         ++ (if navigationLocked ManagerFacts.one_line
                && originalNavigationOptions ManagerFacts.one_line
             then [UnlockNavigation] else [])
         ++ map DetachPrimitive (attached (DrawingMap.values (drawings ManagerFacts.one_line)))
         ++ [Repaint].
Proof.
  apply (destroy_clears_the_manager ManagerFacts.steady); [reflexivity | intros c; reflexivity].
Defined.

(** *** Export and import *)

(** What exportDrawings keeps of an entry. *)
Definition exported (drawing : Entry) : Entry :=
  mkEntry None (tool drawing) (data drawing) None (timestamp drawing).

Lemma exportDrawings_exported (s : State) :
  exportDrawings s = map exported (DrawingMap.values (drawings s)).
Proof. reflexivity. Qed.

Lemma export_imported (env : Env) (records : list Entry) :
  forall n,
    map exported (DrawingMap.values (ManagerFacts.imported env n records))
    = map exported records.
Proof.
  induction records as [|r rest IH]; intros n; simpl; [reflexivity|].
  unfold DrawingMap.values in IH. rewrite IH. reflexivity.
Qed.

Lemma imported_primitives (env : Env) (records : list Entry) :
  forall n,
    map primitive (DrawingMap.values (ManagerFacts.imported env n records))
    = map primitive records.
Proof.
  induction records as [|r rest IH]; intros n; simpl; [reflexivity|].
  unfold DrawingMap.values in IH. rewrite IH. reflexivity.
Qed.

(** X16. Exporting the drawings, importing the records into a manager that
    has none and exporting again gives the same records: ids and primitives
    are not exported, an import generates new ids, and it attaches nothing to
    the chart, which it only asks to repaint. *)
Theorem export_import_export (env : Env) (s empty : State) :
  chart env = true -> throws env Repaint = false ->
  drawings empty = [] ->
  List.NoDup (DrawingMap.keys (ManagerFacts.imported env (reads empty) (exportDrawings s))) ->
  exists s',
    importDrawings env (Some (exportDrawings s)) empty = Ok tt s'
    /\ exportDrawings s' = exportDrawings s
    /\ DrawingMap.size (drawings s') = DrawingMap.size (drawings s)
    /\ Forall (fun drawing => primitive drawing = None) (DrawingMap.values (drawings s'))
    /\ host s' = host empty ++ [Repaint].
Proof.
  intros Hc Hok Hempty Hnd.
  destruct (ManagerFacts.importEach_appends env (exportDrawings s) empty)
    as (s1 & Hrun & Hd & He & Hh & Hl).
  { rewrite Hempty. exact Hnd. }
  unfold importDrawings, bind. rewrite Hrun.
  unfold hostCall, emit, modify. rewrite Hc, Hok. cbn [negb orb].
  eexists. split; [reflexivity|].
  rewrite (exportDrawings_exported (set_emitted _ _)). ManagerFacts.fields.
  rewrite Hd, Hh, Hempty. cbn [app].
  split; [|split; [|split; [|reflexivity]]].
  - rewrite export_imported, exportDrawings_exported, map_map.
    apply map_ext. intros drawing. reflexivity.
  - unfold DrawingMap.size. rewrite ManagerFacts.imported_length.
    unfold exportDrawings, DrawingMap.values. rewrite !length_map. reflexivity.
  - apply List.Forall_forall. intros x Hx.
    apply (in_map primitive) in Hx.
    rewrite imported_primitives, exportDrawings_exported, map_map in Hx.
    apply in_map_iff in Hx. destruct Hx as (y & Hy & _). simpl in Hy. congruence.
Qed.

Lemma export_import_export_witness :
  exists s',
    importDrawings ManagerFacts.steady (Some (exportDrawings ManagerFacts.one_line))
      ManagerFacts.fresh_manager = Ok tt s'
    /\ exportDrawings s' = exportDrawings ManagerFacts.one_line
    /\ DrawingMap.size (drawings s') = DrawingMap.size (drawings ManagerFacts.one_line)
    /\ Forall (fun drawing => primitive drawing = None) (DrawingMap.values (drawings s'))
    /\ host s' = host ManagerFacts.fresh_manager ++ [Repaint].
Proof.
  apply (export_import_export ManagerFacts.steady ManagerFacts.one_line ManagerFacts.fresh_manager).
  - reflexivity.
  - reflexivity.
  - reflexivity.
  - vm_compute. repeat constructor; simpl; intuition discriminate.
Defined.

(** *** What a gesture stores *)

(** X17. A pointer-up that ends a gesture of a tool whose name is not
    'TrendLine' stores nothing: the map and the primitives stay as they
    were, nothing is attached to the chart, the gesture is over and
    'drawing-completed' says primitive: false. *)
Theorem only_trend_lines_are_stored (env : Env) (s : State) (event : MouseEvent)
    (t : nat) (d d' : Drawing.t) :
  throws env UnlockNavigation = false ->
  isDrawing s = true -> currentDrawing s = Some d -> currentTool s = Some t ->
  BaseTool.getName (object s t) <> "TrendLine" ->
  BaseTool.getName (object s t) <> "trendline" ->
  Tool.finishDrawing (object s t) d (screenToChart env event) = Normal d' ->
  exists s',
    handleMouseUp env event s = Ok tt s'
    /\ drawings s' = drawings s /\ primitives s' = primitives s
    /\ isDrawing s' = false /\ currentDrawing s' = None
    /\ (host s' = host s \/ host s' = host s ++ [UnlockNavigation])
    /\ emitted s'
       = emitted s
         ++ [("drawing-completed",
              CompletedPayload (BaseTool.getName (object s t)) (screenToChart env event) false)].
Proof.
  intros Hok Hdr Hcd Ht Hn1 Hn2 Hfin.
  apply String.eqb_neq in Hn1. apply String.eqb_neq in Hn2.
  unfold handleMouseUp, restoreNavigation, log, emit, bind, get, hostCall, modify, ret.
  rewrite Hdr, Hcd, Ht, Hfin, Hn1, Hn2. cbn [orb]. ManagerFacts.fields. rewrite Hok.
  destruct (chart env), (navigationLocked s), (originalNavigationOptions s);
    ManagerFacts.fields; (eexists; split; [reflexivity|]); ManagerFacts.fields;
    repeat split; auto.
Qed.

(** The manager with a horizontal line tool in hand and a gesture under
    way. *)
Definition horizontal_gesture : State :=
  final (handleMouseDown ManagerFacts.steady (mkMouseEvent 10 300)
           (final (setActiveTool ManagerFacts.steady (Some 1)
                     (set_objects (<[1 := HorizontalLineTool.new Options.empty]>
                                     (objects ManagerFacts.fresh_manager))
                        ManagerFacts.fresh_manager)))).

Lemma only_trend_lines_are_stored_witness :
  exists s',
    handleMouseUp ManagerFacts.steady (mkMouseEvent 10 280) horizontal_gesture = Ok tt s'
    /\ drawings s' = drawings horizontal_gesture
    /\ primitives s' = primitives horizontal_gesture
    /\ isDrawing s' = false /\ currentDrawing s' = None
    /\ (host s' = host horizontal_gesture
        \/ host s' = host horizontal_gesture ++ [UnlockNavigation])
    /\ emitted s'
       = emitted horizontal_gesture
         ++ [("drawing-completed",
              CompletedPayload (BaseTool.getName (object horizontal_gesture 1))
                (screenToChart ManagerFacts.steady (mkMouseEvent 10 280)) false)].
Proof.
  apply (only_trend_lines_are_stored ManagerFacts.steady horizontal_gesture
           (mkMouseEvent 10 280) 1
           (default (Drawing.mk None None None Js.Undefined Drawing.NoLevels Options.empty
                       Js.Undefined Js.Undefined None Js.Undefined Js.Undefined Js.Undefined
                       Js.Undefined)
              (currentDrawing horizontal_gesture))
           (completed
              (Tool.finishDrawing (object horizontal_gesture 1)
                 (default (Drawing.mk None None None Js.Undefined Drawing.NoLevels Options.empty
                             Js.Undefined Js.Undefined None Js.Undefined Js.Undefined
                             Js.Undefined Js.Undefined)
                    (currentDrawing horizontal_gesture))
                 (screenToChart ManagerFacts.steady (mkMouseEvent 10 280)))));
    try (vm_compute; reflexivity); vm_compute; discriminate.
Defined.

Lemma finish_trend_line (tool : BaseTool.t) (d : Drawing.t) (a coords : Point.t) :
  BaseTool.class tool = BaseTool.TrendLineTool ->
  Drawing.startPoint d = Some a -> Drawing.endPoint d <> None ->
  exists d',
    Tool.finishDrawing tool d coords = Normal d'
    /\ Drawing.startPoint d' = Some a
    /\ Drawing.endPoint d'
       = Some (BaseTool.snap (Options.snapToPrice (Drawing.options d')) coords)
    /\ Drawing.options d' = Drawing.options d.
Proof.
  intros Hclass Hstart Hend.
  unfold Tool.finishDrawing, Tool.finalizeDrawingData. rewrite Hclass.
  unfold TrendLineTool.finalizeDrawingData, TrendLineTool.updateDrawingData.
  destruct (Drawing.endPoint d) as [e|]; [|congruence].
  cbn [Drawing.set_endPoint Drawing.startPoint Drawing.endPoint]. rewrite Hstart.
  eexists. split; [reflexivity|].
  cbn [Drawing.set_line_properties Drawing.startPoint Drawing.endPoint Drawing.options].
  repeat split; [assumption|].
  destruct (BaseTool.snap _ coords); reflexivity.
Qed.

Section TrendLineGesture.

Variable env : Env.
Variable s : State.
Variable t : nat.
Hypothesis chart_there : chart env = true.
Hypothesis no_throw : forall c, throws env c = false.
Hypothesis library : LightweightCharts env = true.
Hypothesis tool_class : BaseTool.class (object s t) = BaseTool.TrendLineTool.
Hypothesis tool_name : BaseTool.name (object s t) = "TrendLine".

(** A trend line gesture that started in [s] at the point [a] is under
    way. *)
Definition drawingFrom (a : Point.t) (s1 : State) : Prop :=
  isActive s1 = true /\ currentTool s1 = Some t /\ listening s1 = true
  /\ isDrawing s1 = true /\ navigationLocked s1 = true
  /\ originalNavigationOptions s1 = originalNavigationOptions s
  /\ objects s1 = objects s /\ primitives s1 = primitives s /\ drawings s1 = drawings s
  /\ reads s1 = S (reads s) /\ host s1 = host s ++ [LockNavigation]
  /\ exists d,
       currentDrawing s1 = Some d /\ Drawing.startPoint d = Some a
       /\ Drawing.endPoint d <> None
       /\ Drawing.options d
          = Options.spread (BaseTool.options (object s t))
              (Options.spread (BaseTool.options (object s t)) (options s)).

Lemma object_same (s1 : State) : objects s1 = objects s -> object s1 t = object s t.
Proof. unfold object. intros ->. reflexivity. Qed.

Lemma down_starts (down : MouseEvent) :
  isActive s = true -> currentTool s = Some t -> listening s = true ->
  navigationLocked s = false ->
  drawingFrom (screenToChart env down) (after (deliver (handleMouseDown env down)) s).
Proof.
  intros Hact Ht Hlisten Hfree.
  unfold after, deliver, handleMouseDown, disableNavigation, readClock, hostCall, log, emit,
    bind, get, modify, ret.
  rewrite Hlisten, Hact, Ht. ManagerFacts.fields. rewrite chart_there, no_throw, Hfree.
  cbn [negb orb final]. unfold drawingFrom. ManagerFacts.fields.
  repeat split; try assumption.
  eexists. split; [reflexivity|].
  unfold Tool.startDrawing, Tool.createDrawing. rewrite tool_class.
  unfold TrendLineTool.createDrawing. cbn [Drawing.startPoint Drawing.endPoint Drawing.options].
  repeat split; try discriminate; destruct (screenToChart env down); reflexivity.
Qed.

Lemma move_keeps (a : Point.t) (event : MouseEvent) (s1 : State) :
  drawingFrom a s1 -> drawingFrom a (after (middle env (Move event)) s1).
Proof.
  intros (Hact & Ht & Hlisten & Hdr & Hlock & Horig & Hobj & Hprim & Hdrw & Hreads & Hhost
          & d & Hcd & Hstart & Hend & Hopt).
  unfold middle, after, deliver, handleMouseMove, emit, bind, get, modify, ret.
  rewrite Hlisten, Hact, Ht, Hdr, Hcd. cbn [final]. unfold drawingFrom. ManagerFacts.fields.
  repeat split; try assumption.
  eexists. split; [reflexivity|].
  rewrite (object_same s1 Hobj).
  unfold Tool.updateDrawing, Tool.updateDrawingData. rewrite tool_class.
  unfold TrendLineTool.updateDrawingData.
  destruct (Drawing.endPoint d) as [e|]; [|congruence].
  cbn [Drawing.set_endPoint Drawing.startPoint Drawing.endPoint Drawing.options].
  repeat split; [assumption | discriminate | assumption].
Qed.

Lemma moves_keep (a : Point.t) (events : list MouseEvent) :
  forall s1, drawingFrom a s1 ->
             drawingFrom a (fold_left (fun s m => after (middle env m) s) (map Move events) s1).
Proof.
  induction events as [|event rest IH]; intros s1 H1; [exact H1|].
  simpl. apply IH, move_keeps, H1.
Qed.

Lemma up_runs (a : Point.t) (up : MouseEvent) (s1 : State) :
  originalNavigationOptions s = true ->
  ~ List.In (generateDrawingId env (S (reads s))) (DrawingMap.keys (drawings s)) ->
  drawingFrom a s1 ->
  exists d s2,
    handleMouseUp env up s1 = Ok tt s2
    /\ drawings s2
       = drawings s
         ++ [(generateDrawingId env (S (reads s)),
              mkEntry (Some (generateDrawingId env (S (reads s)))) (Some "TrendLine") (Some d)
                (Some (fresh (dom (primitives s)))) (Js.Num (Date_now env (S (S (reads s))))))]
    /\ Drawing.startPoint d = Some a
    /\ Drawing.endPoint d
       = Some (BaseTool.snap (Options.snapToPrice (Drawing.options d)) (screenToChart env up))
    /\ Drawing.options d
       = Options.spread (BaseTool.options (object s t))
           (Options.spread (BaseTool.options (object s t)) (options s))
    /\ primitives s2 !! fresh (dom (primitives s)) = Some (TrendLinePrimitive.new (Some d))
    /\ host s2
       = host s ++ [LockNavigation; AttachPrimitive (fresh (dom (primitives s))); Repaint;
                    UnlockNavigation]
    /\ navigationLocked s2 = false /\ isDrawing s2 = false /\ currentDrawing s2 = None.
Proof.
  intros Horig0 Hfreshid
    (Hact & Ht & Hlisten & Hdr & Hlock & Horig & Hobj & Hprim & Hdrw & Hreads & Hhost
     & d & Hcd & Hstart & Hend & Hopt).
  rewrite Horig0 in Horig.
  destruct (finish_trend_line (object s t) d a (screenToChart env up) tool_class Hstart Hend)
    as (d' & Hfin & Hs' & He' & Ho').
  exists d'.
  unfold handleMouseUp. unfold bind at 1, get at 1. rewrite Hdr, Hcd, Ht.
  rewrite (object_same s1 Hobj), Hfin.
  unfold BaseTool.getName. rewrite tool_name.
  cbn [String.eqb Ascii.eqb Bool.eqb orb].
  unfold createTrendLinePrimitive. rewrite Hs', He', library.
  unfold restoreNavigation, newDrawingId, readClock, hostCall, log, emit, bind, get, modify,
    ret.
  do 4 (rewrite ?chart_there, ?no_throw, ?Hlock, ?Horig; cbn [negb orb final];
        ManagerFacts.fields).
  rewrite Hprim, Hdrw, Hreads, Hhost.
  rewrite (ManagerFacts.set_absent _ _ _ Hfreshid).
  eexists. split; [reflexivity|]. ManagerFacts.fields.
  split; [reflexivity|].
  split; [reflexivity|]. split; [reflexivity|]. split; [congruence|].
  split; [apply lookup_insert_eq|]. split; [rewrite <- !app_assoc; reflexivity|].
  repeat split.
Qed.

Lemma up_commits (a : Point.t) (up : MouseEvent) (s1 : State) :
  originalNavigationOptions s = true ->
  ~ List.In (generateDrawingId env (S (reads s))) (DrawingMap.keys (drawings s)) ->
  drawingFrom a s1 ->
  exists d,
    drawings (after (exit env (Commit up)) s1)
    = drawings s
      ++ [(generateDrawingId env (S (reads s)),
           mkEntry (Some (generateDrawingId env (S (reads s)))) (Some "TrendLine") (Some d)
             (Some (fresh (dom (primitives s)))) (Js.Num (Date_now env (S (S (reads s))))))]
    /\ Drawing.startPoint d = Some a
    /\ Drawing.endPoint d
       = Some (BaseTool.snap (Options.snapToPrice (Drawing.options d)) (screenToChart env up))
    /\ Drawing.options d
       = Options.spread (BaseTool.options (object s t))
           (Options.spread (BaseTool.options (object s t)) (options s))
    /\ primitives (after (exit env (Commit up)) s1) !! fresh (dom (primitives s))
       = Some (TrendLinePrimitive.new (Some d))
    /\ host (after (exit env (Commit up)) s1)
       = host s ++ [LockNavigation; AttachPrimitive (fresh (dom (primitives s))); Repaint;
                    UnlockNavigation]
    /\ navigationLocked (after (exit env (Commit up)) s1) = false
    /\ isDrawing (after (exit env (Commit up)) s1) = false
    /\ currentDrawing (after (exit env (Commit up)) s1) = None.
Proof.
  intros Horig0 Hfreshid H1.
  destruct (up_runs a up s1 Horig0 Hfreshid H1) as (d & s2 & E & H).
  exists d.
  assert (Es : after (exit env (Commit up)) s1 = s2).
  { unfold after, exit, deliver. unfold bind at 1, get at 1.
    destruct H1 as (_ & _ & -> & _). rewrite E. reflexivity. }
  rewrite Es. exact H.
Qed.

End TrendLineGesture.

(** X18. A pointer-down, any number of pointer moves and a pointer-up with
    the trend line tool in hand, on a host whose calls go through, store
    exactly one drawing, after the ones already there and under the id
    generated at pointer-up.  Its start anchor is the pointer-down point as
    the chart maps it, never snapped; its end anchor is the pointer-up point,
    with the price rounded to cents when the drawing's snapToPrice is on.
    Its primitive is a new object and the one attached; the host sees lock,
    attach, repaint, unlock, in that order. *)
Theorem gesture_stores_one_trend_line (env : Env) (s : State) (t : nat)
    (down up : MouseEvent) (moves : list MouseEvent) :
  chart env = true -> (forall c, throws env c = false) -> LightweightCharts env = true ->
  isActive s = true -> currentTool s = Some t -> listening s = true ->
  navigationLocked s = false -> originalNavigationOptions s = true ->
  BaseTool.class (object s t) = BaseTool.TrendLineTool ->
  BaseTool.name (object s t) = "TrendLine" ->
  ~ List.In (generateDrawingId env (S (reads s))) (DrawingMap.keys (drawings s)) ->
  exists d,
    drawings (gesture env down (map Move moves) (Commit up) s)
    = drawings s
      ++ [(generateDrawingId env (S (reads s)),
           mkEntry (Some (generateDrawingId env (S (reads s)))) (Some "TrendLine") (Some d)
             (Some (fresh (dom (primitives s)))) (Js.Num (Date_now env (S (S (reads s))))))]
    /\ Drawing.startPoint d = Some (screenToChart env down)
    /\ Drawing.endPoint d
       = Some (BaseTool.snap (Options.snapToPrice (Drawing.options d)) (screenToChart env up))
    /\ Drawing.options d
       = Options.spread (BaseTool.options (object s t))
           (Options.spread (BaseTool.options (object s t)) (options s))
    /\ primitives (gesture env down (map Move moves) (Commit up) s) !! fresh (dom (primitives s))
       = Some (TrendLinePrimitive.new (Some d))
    /\ host (gesture env down (map Move moves) (Commit up) s)
       = host s ++ [LockNavigation; AttachPrimitive (fresh (dom (primitives s))); Repaint;
                    UnlockNavigation]
    /\ navigationLocked (gesture env down (map Move moves) (Commit up) s) = false
    /\ isDrawing (gesture env down (map Move moves) (Commit up) s) = false
    /\ currentDrawing (gesture env down (map Move moves) (Commit up) s) = None.
Proof.
  intros Hc Hok Hlib Hact Ht Hlisten Hfree Horig Hclass Hname Hfreshid.
  unfold gesture.
  apply (up_commits env s t Hc Hok Hlib Hclass Hname _ up _ Horig Hfreshid).
  apply (moves_keep env s t Hclass), (down_starts env s t Hc Hok Hclass);
    assumption.
Qed.

Lemma gesture_stores_one_trend_line_witness :
  exists d,
    drawings (gesture ManagerFacts.steady (mkMouseEvent 10 300)
                (map Move [mkMouseEvent 60 295]) (Commit (mkMouseEvent 110 290))
                ManagerFacts.armed)
    = drawings ManagerFacts.armed
      ++ [(generateDrawingId ManagerFacts.steady (S (reads ManagerFacts.armed)),
           mkEntry (Some (generateDrawingId ManagerFacts.steady (S (reads ManagerFacts.armed))))
             (Some "TrendLine") (Some d)
             (Some (fresh (dom (primitives ManagerFacts.armed))))
             (Js.Num (Date_now ManagerFacts.steady (S (S (reads ManagerFacts.armed))))))]
    /\ Drawing.startPoint d = Some (screenToChart ManagerFacts.steady (mkMouseEvent 10 300))
    /\ Drawing.endPoint d
       = Some (BaseTool.snap (Options.snapToPrice (Drawing.options d))
                 (screenToChart ManagerFacts.steady (mkMouseEvent 110 290)))
    /\ Drawing.options d
       = Options.spread (BaseTool.options (object ManagerFacts.armed 0))
           (Options.spread (BaseTool.options (object ManagerFacts.armed 0))
              (options ManagerFacts.armed))
    /\ primitives (gesture ManagerFacts.steady (mkMouseEvent 10 300)
                     (map Move [mkMouseEvent 60 295]) (Commit (mkMouseEvent 110 290))
                     ManagerFacts.armed)
       !! fresh (dom (primitives ManagerFacts.armed))
       = Some (TrendLinePrimitive.new (Some d))
    /\ host (gesture ManagerFacts.steady (mkMouseEvent 10 300)
               (map Move [mkMouseEvent 60 295]) (Commit (mkMouseEvent 110 290))
               ManagerFacts.armed)
       = host ManagerFacts.armed
         ++ [LockNavigation; AttachPrimitive (fresh (dom (primitives ManagerFacts.armed)));
             Repaint; UnlockNavigation]
    /\ navigationLocked (gesture ManagerFacts.steady (mkMouseEvent 10 300)
                           (map Move [mkMouseEvent 60 295]) (Commit (mkMouseEvent 110 290))
                           ManagerFacts.armed) = false
    /\ isDrawing (gesture ManagerFacts.steady (mkMouseEvent 10 300)
                    (map Move [mkMouseEvent 60 295]) (Commit (mkMouseEvent 110 290))
                    ManagerFacts.armed) = false
    /\ currentDrawing (gesture ManagerFacts.steady (mkMouseEvent 10 300)
                         (map Move [mkMouseEvent 60 295]) (Commit (mkMouseEvent 110 290))
                         ManagerFacts.armed) = None.
Proof.
  apply (gesture_stores_one_trend_line ManagerFacts.steady ManagerFacts.armed 0
           (mkMouseEvent 10 300) (mkMouseEvent 110 290) [mkMouseEvent 60 295]).
  - reflexivity.
  - intros c. reflexivity.
  - reflexivity.
  - vm_compute; reflexivity.
  - vm_compute; reflexivity.
  - vm_compute; reflexivity.
  - vm_compute; reflexivity.
  - vm_compute; reflexivity.
  - vm_compute; reflexivity.
  - vm_compute; reflexivity.
  - vm_compute. tauto.
Defined.

End StorageFacts.

(** * Properties of the DrawingManager: the events it emits *)
Module EventNames.

Import DrawingManager.

(** The events the manager emits. *)
Definition managerEvents : list string :=
  ["drawing-tool-activated"; "drawing-tool-deactivated"; "drawing-started";
   "drawing-mouse-move"; "drawing-completed"; "drawing-cancelled"; "all-drawings-cleared";
   "drawing-removed"; "drawings-imported"].

(** Every event emitted so far is one of them. *)
Definition named (s : State) : Prop :=
  Forall (fun e => List.In (fst e) managerEvents) (emitted s).

Ltac named_frame :=
  unfold named in *; ManagerFacts.fields;
  first [ assumption
        | apply Forall_app; split; [assumption | constructor; [simpl; tauto | constructor]] ].

Lemma named_hostCall (env : Env) (c : HostCall) : ManagerFacts.keeps named True (hostCall env c).
Proof.
  intros s Hs. unfold hostCall. destruct (negb (chart env) || throws env c).
  - split; [exact Logic.I | exact Hs].
  - named_frame.
Qed.

Lemma named_readClock (env : Env) : ManagerFacts.keeps named True (readClock env).
Proof. intros s Hs. unfold readClock. named_frame. Qed.

Lemma named_newDrawingId (env : Env) : ManagerFacts.keeps named True (newDrawingId env).
Proof. intros s Hs. unfold newDrawingId. named_frame. Qed.

Ltac named_step :=
  match goal with
  | |- ManagerFacts.keeps _ _ (bind get _) => apply ManagerFacts.keeps_get_bind; intros ? ?
  | |- ManagerFacts.keeps _ _ (bind _ _) => apply ManagerFacts.keeps_bind; [|intros ?]
  | |- ManagerFacts.keeps _ _ (ret _) => apply ManagerFacts.keeps_ret
  | |- ManagerFacts.keeps _ True throw => apply ManagerFacts.keeps_throw
  | |- ManagerFacts.keeps _ _ (hostCall _ _) => apply named_hostCall
  | |- ManagerFacts.keeps _ _ (readClock _) => apply named_readClock
  | |- ManagerFacts.keeps _ _ (newDrawingId _) => apply named_newDrawingId
  | |- ManagerFacts.keeps _ _ (modify _) =>
      apply ManagerFacts.keeps_modify; intros ? ?; solve [named_frame]
  | |- ManagerFacts.keeps _ _ (if ?b then _ else _) => destruct b
  | |- ManagerFacts.keeps _ _ (match ?x with _ => _ end) => destruct x
  end.

Ltac named_method :=
  unfold log, emit, updateObject, addChartEventListeners, removeChartEventListeners;
  repeat named_step.

Section Methods.

Variable env : Env.

Lemma named_restoreNavigation : ManagerFacts.keeps named True (restoreNavigation env).
Proof. unfold restoreNavigation. named_method. Qed.

Lemma named_disableNavigation : ManagerFacts.keeps named True (disableNavigation env).
Proof. unfold disableNavigation. named_method. Qed.

Lemma named_setActiveTool (tool : option nat) :
  ManagerFacts.keeps named True (setActiveTool env tool).
Proof. unfold setActiveTool, restoreNavigation. named_method. Qed.

Lemma named_getToolInstance (toolName : string) :
  ManagerFacts.keeps named True (getToolInstance env toolName).
Proof. unfold getToolInstance. named_method. Qed.

Lemma named_handleMouseDown (event : MouseEvent) :
  ManagerFacts.keeps named True (handleMouseDown env event).
Proof. unfold handleMouseDown, disableNavigation. named_method. Qed.

Lemma named_handleMouseMove (event : MouseEvent) :
  ManagerFacts.keeps named True (handleMouseMove env event).
Proof. unfold handleMouseMove. named_method. Qed.

Lemma named_handleMouseUp (event : MouseEvent) :
  ManagerFacts.keeps named True (handleMouseUp env event).
Proof. unfold handleMouseUp, createTrendLinePrimitive, restoreNavigation. named_method. Qed.

Lemma named_handleMouseLeave : ManagerFacts.keeps named True (handleMouseLeave env).
Proof. unfold handleMouseLeave, scheduleRedraw, restoreNavigation. named_method. Qed.

Lemma named_detachAll (entries : list Entry) :
  ManagerFacts.keeps named True (detachAll env entries).
Proof.
  induction entries as [|e rest IH]; cbn [detachAll]; [apply ManagerFacts.keeps_ret|].
  apply ManagerFacts.keeps_bind; [|intros _; exact IH]. named_method.
Qed.

Lemma named_clearAllDrawings : ManagerFacts.keeps named True (clearAllDrawings env).
Proof.
  unfold clearAllDrawings. apply ManagerFacts.keeps_get_bind. intros s0 _.
  apply ManagerFacts.keeps_bind; [apply named_detachAll | intros _]. named_method.
Qed.

Lemma named_removeDrawing (drawingId : DrawingId) :
  ManagerFacts.keeps named True (removeDrawing env drawingId).
Proof. unfold removeDrawing. named_method. Qed.

Lemma named_importEach (records : list Entry) :
  ManagerFacts.keeps named True (importEach env records).
Proof.
  induction records as [|r rest IH]; cbn [importEach]; [apply ManagerFacts.keeps_ret|].
  apply ManagerFacts.keeps_bind; [apply named_newDrawingId | intros id].
  apply ManagerFacts.keeps_bind; [|intros _; exact IH]. named_method.
Qed.

Lemma named_importDrawings (drawingsData : option (list Entry)) :
  ManagerFacts.keeps named True (importDrawings env drawingsData).
Proof.
  unfold importDrawings. destruct drawingsData as [records|]; [|apply ManagerFacts.keeps_ret].
  apply ManagerFacts.keeps_bind; [apply named_importEach | intros _]. named_method.
Qed.

Lemma named_destroy : ManagerFacts.keeps named True (destroy env).
Proof.
  unfold destroy.
  apply ManagerFacts.keeps_bind; [apply named_restoreNavigation | intros _].
  apply ManagerFacts.keeps_bind; [apply named_clearAllDrawings | intros _]. named_method.
Qed.

Lemma named_deliver (handler : M unit) :
  ManagerFacts.keeps named True handler -> ManagerFacts.keeps named True (deliver handler).
Proof.
  intros H. unfold deliver. apply ManagerFacts.keeps_get_bind. intros s0 _.
  destruct (listening s0); [exact H | apply ManagerFacts.keeps_ret].
Qed.

Lemma named_middle (m : Middle) : ManagerFacts.keeps named True (middle env m).
Proof.
  destruct m as [event|touches|event]; cbn [middle]; apply named_deliver.
  - apply named_handleMouseMove.
  - unfold handleTouchMove. destruct touches as [|touch [|]];
      [apply ManagerFacts.keeps_ret | apply named_handleMouseMove | apply ManagerFacts.keeps_ret].
  - apply named_handleMouseDown.
Qed.

Lemma named_exit (e : Exit) : ManagerFacts.keeps named True (exit env e).
Proof.
  destruct e as [event|touch others| |selection| |]; cbn [exit].
  - apply named_deliver, named_handleMouseUp.
  - apply named_deliver. unfold handleTouchEnd. apply named_handleMouseUp.
  - apply named_deliver, named_handleMouseLeave.
  - unfold onToolSelected. destruct selection as [toolName|tool].
    + apply ManagerFacts.keeps_bind; [apply named_getToolInstance | intros tool].
      apply named_setActiveTool.
    + apply named_setActiveTool.
  - apply named_setActiveTool.
  - apply named_destroy.
Qed.

Lemma named_after (m : M unit) (s : State) :
  ManagerFacts.keeps named True m -> named s -> named (after m s).
Proof.
  intros Hm Hs. unfold after. specialize (Hm s Hs).
  destruct (m s) as [a s'|s']; simpl; tauto.
Qed.

Lemma named_gesture (down : MouseEvent) (middles : list Middle) (e : Exit) (s : State) :
  named s -> named (gesture env down middles e s).
Proof.
  intros Hs. unfold gesture. apply named_after; [apply named_exit|].
  assert (H0 : named (after (deliver (handleMouseDown env down)) s))
    by (apply named_after; [apply named_deliver, named_handleMouseDown | exact Hs]).
  revert H0. generalize (after (deliver (handleMouseDown env down)) s).
  induction middles as [|m rest IH]; intros s0 H0; [exact H0|].
  cbn [fold_left]. apply IH, named_after; [apply named_middle | exact H0].
Qed.

End Methods.

(** What the manager can be asked to do. *)
Inductive Request : Type :=
| Gesture (down : MouseEvent) (middles : list Middle) (e : Exit)
| Remove (drawingId : DrawingId)
| Import (drawingsData : option (list Entry))
| ClearAll.

Definition serve (env : Env) (r : Request) (s : State) : State :=
  match r with
  | Gesture down middles e => gesture env down middles e s
  | Remove drawingId => after (removeDrawing env drawingId) s
  | Import drawingsData => after (importDrawings env drawingsData) s
  | ClearAll => after (clearAllDrawings env) s
  end.

Lemma named_serve (env : Env) (r : Request) (s : State) : named s -> named (serve env r s).
Proof.
  intros Hs. destruct r; cbn [serve].
  - apply named_gesture, Hs.
  - apply named_after; [apply named_removeDrawing | exact Hs].
  - apply named_after; [apply named_importDrawings | exact Hs].
  - apply named_after; [apply named_clearAllDrawings | exact Hs].
Qed.

(** X19. Whatever the manager is asked to do, one request after the other,
    every event it emits carries one of its nine names, and none of the nine
    has a listener on the bus as the manager and the toolbar subscribe to
    it: the manager's events reach nobody, the toolbar's 'drawing:started'
    and 'drawing:finished' listeners are never called by it. *)
Theorem manager_events_reach_no_listener (env : Env) (requests : list Request) (s : State)
    (name : string) :
  named s ->
  List.In name (map fst (emitted (fold_left (fun s r => serve env r s) requests s))) ->
  List.In name managerEvents
  /\ EventBus.getListenerCount Page.wired name = 0
  /\ name <> "drawing:started" /\ name <> "drawing:finished".
Proof.
  intros Hs Hin.
  assert (Hall : named (fold_left (fun s r => serve env r s) requests s)).
  { clear Hin. revert s Hs.
    induction requests as [|r rest IH]; intros s Hs; [exact Hs|].
    cbn [fold_left]. apply IH, named_serve, Hs. }
  unfold named in Hall. rewrite List.Forall_forall in Hall.
  apply in_map_iff in Hin. destruct Hin as (ev & <- & Hev).
  specialize (Hall ev Hev). split; [exact Hall|].
  unfold managerEvents in Hall. cbn [List.In] in Hall.
  repeat (destruct Hall as [<-|Hall];
          [split; [vm_compute; reflexivity | split; discriminate]|]).
  destruct Hall.
Qed.

Lemma manager_events_reach_no_listener_witness :
  List.In "drawing-completed" managerEvents
  /\ EventBus.getListenerCount Page.wired "drawing-completed" = 0
  /\ "drawing-completed" <> "drawing:started" /\ "drawing-completed" <> "drawing:finished".
Proof.
  apply (manager_events_reach_no_listener ManagerFacts.steady
           [Gesture (mkMouseEvent 10 300) [Move (mkMouseEvent 60 295)]
              (Commit (mkMouseEvent 110 290))]
           ManagerFacts.armed "drawing-completed").
  - unfold named. vm_compute. repeat constructor; tauto.
  - vm_compute. tauto.
Defined.

End EventNames.

(** * Properties of the DrawingManager: the tool registry *)
Module RegistryFacts.

Import DrawingManager.

(** X20. getToolInstance is stable: once it has returned a tool for a
    name, asking again for that name returns the same tool object and
    changes nothing, so the fallback that creates a trend line tool runs at
    most once per manager. *)
Theorem getToolInstance_stable (env : Env) (toolName : string) (s s1 : State) (t : nat) :
  getToolInstance env toolName s = Ok (Some t) s1 ->
  getToolInstance env toolName s1 = Ok (Some t) s1.
Proof.
  unfold getToolInstance.
  destruct (String.eqb toolName "") eqn:Hempty; [discriminate|].
  unfold bind, get.
  destruct (Options.over (tools s !! toLowerCase toolName) (tools s !! toolName))
    as [tool|] eqn:Hfound.
  - unfold ret. intros H. injection H as -> ->. rewrite Hfound. reflexivity.
  - destruct ((String.eqb toolName "trendline" || String.eqb toolName "TrendLine")
              && TrendLineToolDefined env) eqn:Hfallback.
    + unfold modify, ret. intros H. injection H as <- <-. ManagerFacts.fields.
      apply andb_true_iff in Hfallback. destruct Hfallback as [Hname _].
      apply orb_true_iff in Hname.
      destruct Hname as [Hname|Hname]; apply String.eqb_eq in Hname; subst toolName.
      * change (toLowerCase "trendline") with "trendline".
        rewrite !lookup_insert_eq. reflexivity.
      * unfold Options.over in Hfound.
        destruct (tools s !! "TrendLine") eqn:Hexact; [discriminate|].
        assert (Hne : "trendline" <> "TrendLine") by (intros E; discriminate E).
        rewrite (lookup_insert_ne _ _ _ _ Hne). rewrite Hexact.
        change (toLowerCase "TrendLine") with "trendline".
        rewrite lookup_insert_eq. reflexivity.
    + unfold log, modify, ret. discriminate.
Qed.

(** A manager constructed before the TrendLineTool class was loaded. *)
Definition late_class : State :=
  new (mkEnv true (fun _ => false) 0 0 (fun x => Js.Num x) (fun y => Js.Num y)
         true false (fun _ => 0%float) ManagerFacts.sample_id)
    Options.empty.

Lemma getToolInstance_stable_witness :
  getToolInstance ManagerFacts.steady "TrendLine"
    (final (getToolInstance ManagerFacts.steady "TrendLine" late_class))
  = Ok (Some (fresh (dom (objects late_class))))
      (final (getToolInstance ManagerFacts.steady "TrendLine" late_class)).
Proof.
  apply (getToolInstance_stable ManagerFacts.steady "TrendLine" late_class).
  vm_compute. reflexivity.
Defined.

End RegistryFacts.
